(** * finance_dashboard.py: the transaction pipeline and its aggregator

    A shallow embedding of the data path of [src/finance_dashboard.py]:
    normalisation of the [SMS] column, [extract_amount], the handling of the
    [Amount] column, the classifier call, [detect_type], the sidebar filter,
    the key metrics, the savings advisor and the CSV export; around them,
    the handling of the upload, the defaults of the sidebar and one run of
    the script from the upload to the page.

    Conventions.
    - A Python [str] is a [string]: the UTF-8 bytes of the text.  Case
      mapping, whitespace and digit classes are those of the ASCII range
      (bytes above 127 are caseless and belong to no class); the rupee sign
      is its three UTF-8 bytes.  Python's [str.lower], [str.strip] and the
      classes of [re] on a [str] pattern are Unicode-aware: the embedding
      agrees with them on the texts made of ASCII characters and rupee
      signs ([plain], below) and not beyond (a no-break space is whitespace
      for Python, a Devanagari digit a digit, and under [(?i)] a dotless i
      matches i).  Theorems that depend on what the extractor matches carry
      [plain] as a hypothesis.
    - A [float] is a binary64 value, [spec_float] at precision 53, with the
      IEEE operations of [SpecFloat] (round to nearest, ties to even).
    - An exception is a [Raise] in the [result] monad.
    - What the script takes from its libraries (the pickled classifier, the
      summation order of [Series.sum], the text of a float) is a field of
      the class [Runtime]. *)

From Stdlib Require Import String Ascii List Sorted ZArith Bool Lia SpecFloat DecimalString.
Import ListNotations.
Open Scope string_scope.

Set Implicit Arguments.

(** ** Exceptions *)

Inductive exn : Type :=
| ValueError          (* float() on a string that is no number *)
| ZeroDivisionError   (* x / 0 *)
| KeyError            (* df[name] on an absent column *)
| TypeError.          (* arithmetic on a column that holds no numbers *)

Inductive result (A : Type) : Type :=
| Ok (a : A)
| Raise (e : exn).

Arguments Ok {A} a.
Arguments Raise {A} e.

Definition bind {A B : Type} (m : result A) (k : A -> result B) : result B :=
  match m with
  | Ok a => k a
  | Raise e => Raise e
  end.

Notation "x <- m ;; k" := (bind m (fun x => k))
  (at level 61, m at next level, right associativity).

(** [[f(x) for x in xs]]: the first exception aborts the loop. *)
Fixpoint traverse {A B : Type} (f : A -> result B) (xs : list A) : result (list B) :=
  match xs with
  | [] => Ok []
  | x :: xs' => y <- f x ;; ys <- traverse f xs' ;; Ok (y :: ys)
  end.

(** ** Strings *)

Definition code (c : ascii) : N := N_of_ascii c.

Definition between (lo hi : N) (c : ascii) : bool :=
  (lo <=? code c)%N && (code c <=? hi)%N.

(** [str.isspace], and [\s] of [re], on one ASCII character: TAB LF VT FF
    CR, FS GS RS US, SP.  Python has further whitespace outside ASCII
    (U+0085, U+00A0, U+2000...): a byte above 127 is none here. *)
Definition is_space (c : ascii) : bool :=
  between 9 13 c || between 28 31 c || (code c =? 32)%N.

(** [\d] of [re] on one ASCII character.  Python has further decimal
    digits outside ASCII, which [float] reads too: a byte above 127 is none
    here. *)
Definition is_digit (c : ascii) : bool := between 48 57 c.

Definition is_upper (c : ascii) : bool := between 65 90 c.

(** [str.lower] on one ASCII character; a byte above 127 is left as it is,
    where Python lower-cases letters outside ASCII too. *)
Definition lower_char (c : ascii) : ascii :=
  if is_upper c then ascii_of_N (code c + 32) else c.

Fixpoint lower (s : string) : string :=
  match s with
  | EmptyString => EmptyString
  | String c s' => String (lower_char c) (lower s')
  end.

Fixpoint lstrip (s : string) : string :=
  match s with
  | EmptyString => EmptyString
  | String c s' => if is_space c then lstrip s' else s
  end.

Fixpoint rstrip (s : string) : string :=
  match s with
  | EmptyString => EmptyString
  | String c s' =>
      match rstrip s' with
      | EmptyString => if is_space c then EmptyString else String c EmptyString
      | r => String c r
      end
  end.

(** [s.strip()] *)
Definition strip (s : string) : string := rstrip (lstrip s).

(** [.str.lower().str.strip()] on one cell, line 149. *)
Definition normalize (s : string) : string := strip (lower s).

Fixpoint startswith (p s : string) : bool :=
  match p, s with
  | EmptyString, _ => true
  | String a p', String b s' => Ascii.eqb a b && startswith p' s'
  | String _ _, EmptyString => false
  end.

(** [sub in s] *)
Fixpoint contains (sub s : string) : bool :=
  startswith sub s ||
  match s with
  | EmptyString => false
  | String _ s' => contains sub s'
  end.

(** [s.replace(old, new)] for a one-character [old]. *)
Fixpoint replace (old : ascii) (new : string) (s : string) : string :=
  match s with
  | EmptyString => EmptyString
  | String c s' =>
      if Ascii.eqb c old then new ++ replace old new s' else String c (replace old new s')
  end.

(** ** Regular expressions: the backtracking search of [re]

    The constructors are the ones the amount pattern uses.  [run] tries the
    alternatives in the order of [re] (left branch first, the longest
    repetition first) and hands the rest of the text and the groups closed so
    far to its continuation; the first success wins. *)

Inductive regex : Type :=
| Eps                         (* the empty pattern *)
| Chr (p : ascii -> bool)     (* one character of a class *)
| Cat (r1 r2 : regex)         (* r1 r2 *)
| Alt (r1 r2 : regex)         (* r1|r2 *)
| Opt (r : regex)             (* r?  *)
| Star (p : ascii -> bool)    (* [class]* *)
| Group (r : regex).          (* (r) *)

(** The text consumed between [s] and its suffix [rest]. *)
Definition consumed (s rest : string) : string :=
  substring 0 (String.length s - String.length rest) s.

Fixpoint star {A : Type} (p : ascii -> bool) (s : string) (k : string -> option A) : option A :=
  match s with
  | String c s' =>
      if p c then
        match star p s' k with
        | Some m => Some m
        | None => k s
        end
      else k s
  | EmptyString => k s
  end.

Fixpoint run {A : Type} (r : regex) (s : string) (groups : list string)
    (k : string -> list string -> option A) : option A :=
  match r with
  | Eps => k s groups
  | Chr p =>
      match s with
      | String c s' => if p c then k s' groups else None
      | EmptyString => None
      end
  | Cat r1 r2 => run r1 s groups (fun s' gs => run r2 s' gs k)
  | Alt r1 r2 =>
      match run r1 s groups k with
      | Some m => Some m
      | None => run r2 s groups k
      end
  | Opt r1 =>
      match run r1 s groups k with
      | Some m => Some m
      | None => k s groups
      end
  | Star p => star p s (fun s' => k s' groups)
  | Group r1 => run r1 s groups (fun s' gs => k s' (gs ++ [consumed s s'])%list)
  end.

(** [re.search(r, s)]: the match at the leftmost start; its groups. *)
Fixpoint search (r : regex) (s : string) : option (list string) :=
  match run r s [] (fun _ gs => Some gs) with
  | Some gs => Some gs
  | None =>
      match s with
      | String _ s' => search r s'
      | EmptyString => None
      end
  end.

(** A literal character under [(?i)], against a text of ASCII characters
    and rupee signs: the same letter in either case.  (On other texts [re]
    also lets i match U+0130 and U+0131.) *)
Definition ichar (c : ascii) : regex :=
  Chr (fun x => Ascii.eqb (lower_char x) (lower_char c)).

Fixpoint iliteral (s : string) : regex :=
  match s with
  | EmptyString => Eps
  | String c s' => Cat (ichar c) (iliteral s')
  end.

Definition plus (p : ascii -> bool) : regex := Cat (Chr p) (Star p).

Definition digit_or_comma (c : ascii) : bool := is_digit c || Ascii.eqb c ",".

Definition dot (c : ascii) : bool := Ascii.eqb c ".".

(** The pattern of [extract_amount], piece by piece:
    (?i)            letters match in either case
    (?:inr|aed|₹)   a currency marker
    \s?             at most one whitespace character
    ( [\d,]+        group 1: digits and commas, at least one,
      \.?             at most one dot,
      \d* )           digits. *)
Definition amount_pattern : regex :=
  Cat (Alt (iliteral "inr") (Alt (iliteral "aed") (iliteral "₹")))
      (Cat (Opt (Chr is_space))
           (Group (Cat (plus digit_or_comma) (Cat (Opt (Chr dot)) (Star is_digit))))).

(** ** Floats *)

Definition float := spec_float.

(** binary64: 53 bits of precision, exponents below 1024. *)
Definition prec : Z := 53.
Definition emax : Z := 1024.

Definition fzero : float := S754_zero false.

Definition fmul : float -> float -> float := SFmul prec emax.
Definition fdiv : float -> float -> float := SFdiv prec emax.
Definition fadd : float -> float -> float := SFadd prec emax.

(** [a > b], [a < b] and [a == b] on floats; false on a NaN. *)
Definition fgt (a b : float) : bool :=
  match SFcompare a b with Some Gt => true | _ => false end.

Definition flt (a b : float) : bool :=
  match SFcompare a b with Some Lt => true | _ => false end.

Definition feq (a b : float) : bool :=
  match SFcompare a b with Some Eq => true | _ => false end.

(** The binary64 nearest to [m / 10^k]: what [float()] and a float literal
    of the source denote for the decimal with digits [m] and [k] of them
    after the point. *)
Definition float_of_decimal (m : N) (k : nat) : float :=
  match m with
  | N0 => fzero
  | Npos p => fdiv (S754_finite false p 0) (S754_finite false (Z.to_pos (10 ^ Z.of_nat k)) 0)
  end.

(** [float(s)] on the texts group 1 can hold once its commas are removed:
    digits with at most one dot.  A text with no digit is no number; texts
    over a larger alphabet are not produced by the pattern and are refused
    here. *)
Fixpoint all_digits (s : string) : bool :=
  match s with
  | EmptyString => true
  | String c s' => is_digit c && all_digits s'
  end.

Fixpoint digits_value (acc : N) (s : string) : N :=
  match s with
  | EmptyString => acc
  | String c s' => digits_value (acc * 10 + (code c - 48)) s'
  end.

(** The text before the first dot, and the text after it when there is one. *)
Fixpoint split_dot (s : string) : string * option string :=
  match s with
  | EmptyString => (EmptyString, None)
  | String c s' =>
      if dot c then (EmptyString, Some s')
      else let (a, b) := split_dot s' in (String c a, b)
  end.

Definition py_float (s : string) : result float :=
  let (whole, rest) := split_dot s in
  let frac := match rest with Some f => f | None => EmptyString end in
  if all_digits whole && all_digits frac && negb (String.length (whole ++ frac) =? 0)%nat
  then Ok (float_of_decimal (digits_value 0 (whole ++ frac)) (String.length frac))
  else Raise ValueError.

(** The float literals of the source. *)
Definition f0_8 : float := float_of_decimal 8 1.    (* 0.8 *)
Definition f0_6 : float := float_of_decimal 6 1.    (* 0.6 *)
Definition f1_0 : float := float_of_decimal 10 1.   (* 1.0 *)

(** ** The two taggers of the source *)

(** [match.group(1)] *)
Definition group1 (groups : list string) : string := nth 0 groups EmptyString.

(** Lines 152-156. *)
Definition extract_amount (text : string) : result (option float) :=
  match search amount_pattern text with
  | Some m => v <- py_float (replace "," "" (group1 m)) ;; Ok (Some v)
  | None => Ok None
  end.

Definition debit_keywords : list string :=
  ["debited"; "spent"; "purchase"; "paid"; "withdrawal"].

Definition credit_keywords : list string :=
  ["credited"; "received"; "refund"; "deposit"; "salary"].

(** [any(x in text for x in words)] *)
Definition any_in (words : list string) (text : string) : bool :=
  existsb (fun x => contains x text) words.

(** Lines 172-179. *)
Definition detect_type (text : string) : string :=
  let text := lower text in
  if any_in debit_keywords text then "Debit"
  else if any_in credit_keywords text then "Credit"
  else "Unknown".

(** ** What the script takes from its libraries *)

Class Runtime : Type := {
  (** [model.predict(vectorizer.transform(texts))]: one label per text. *)
  predict : list string -> list string;
  predict_length : forall texts, length (predict texts) = length texts;
  (** [Series.sum] of a float64 column: the order of the additions is numpy's. *)
  float_sum : list float -> float;
  float_sum_nil : float_sum [] = fzero;
  (** [str(x)] of a float. *)
  float_repr : float -> string
}.

Section Script.

Context `{Runtime}.

(** ** Data frames

    A frame is its columns in order, each a name and the cells of one dtype;
    a missing cell ([None], [NaN]) is [None]. *)

Inductive column : Type :=
| ObjCol (cells : list (option string))   (* dtype object, holding str *)
| F64Col (cells : list (option float))    (* dtype float64 *)
| I64Col (cells : list Z).                (* dtype int64 *)

Definition DataFrame : Type := list (string * column).

Definition col_len (c : column) : nat :=
  match c with
  | ObjCol xs => length xs
  | F64Col xs => length xs
  | I64Col xs => length xs
  end.

(** [df.columns] *)
Definition columns (df : DataFrame) : list string := map fst df.

(** [len(df)] *)
Definition nrows (df : DataFrame) : nat :=
  match df with
  | [] => 0
  | (_, c) :: _ => col_len c
  end.

(** Every column has the frame's number of rows. *)
Definition well_formed (df : DataFrame) : bool :=
  forallb (fun nc => Nat.eqb (col_len (snd nc)) (nrows df)) df.

(** [df[name]] *)
Fixpoint get_col (name : string) (df : DataFrame) : result column :=
  match df with
  | [] => Raise KeyError
  | (n, c) :: df' => if String.eqb n name then Ok c else get_col name df'
  end.

(** [df[name] = c]: in place when the column exists, a new last column
    otherwise. *)
Fixpoint set_col (name : string) (c : column) (df : DataFrame) : DataFrame :=
  match df with
  | [] => [(name, c)]
  | (n, c0) :: df' =>
      if String.eqb n name then (n, c) :: df' else (n, c0) :: set_col name c df'
  end.

(** The cells at the rows where the mask holds. *)
Fixpoint select {A : Type} (mask : list bool) (xs : list A) : list A :=
  match mask, xs with
  | b :: mask', x :: xs' => if b then x :: select mask' xs' else select mask' xs'
  | _, _ => []
  end.

Definition col_select (mask : list bool) (c : column) : column :=
  match c with
  | ObjCol xs => ObjCol (select mask xs)
  | F64Col xs => F64Col (select mask xs)
  | I64Col xs => I64Col (select mask xs)
  end.

(** [df[mask]] *)
Definition select_rows (mask : list bool) (df : DataFrame) : DataFrame :=
  map (fun nc => (fst nc, col_select mask (snd nc))) df.

Definition is_none {A : Type} (x : option A) : bool :=
  match x with
  | None => true
  | Some _ => false
  end.

(** [series.isna()] *)
Definition isna (c : column) : list bool :=
  match c with
  | ObjCol xs => map is_none xs
  | F64Col xs => map is_none xs
  | I64Col xs => map (fun _ => false) xs
  end.

(** [mask.all()] *)
Definition all (mask : list bool) : bool := forallb (fun b => b) mask.

Definition int_repr (z : Z) : string := NilZero.string_of_int (Z.to_int z).

(** [series.astype(str)]: a missing cell reads nan. *)
Definition astype_str (c : column) : list string :=
  match c with
  | ObjCol xs => map (fun x => match x with Some s => s | None => "nan" end) xs
  | F64Col xs => map (fun x => match x with Some f => float_repr f | None => "nan" end) xs
  | I64Col xs => map int_repr xs
  end.

(** The str cells of a column that holds nothing else. *)
Definition str_cells (c : column) : result (list string) :=
  match c with
  | ObjCol xs => traverse (fun x => match x with Some s => Ok s | None => Raise TypeError end) xs
  | _ => Raise TypeError
  end.

Definition str_column (texts : list string) : column := ObjCol (map Some texts).

(** ** The transaction pipeline, lines 133-181 *)

Definition pipeline (df : DataFrame) : result DataFrame :=
  (* 133-135: the upload must have a column named SMS *)
  sms <- get_col "SMS" df ;;
  (* 149 *)
  let df := set_col "SMS" (str_column (map normalize (astype_str sms))) df in
  (* 158 *)
  sms <- get_col "SMS" df ;;
  texts <- str_cells sms ;;
  amounts <- traverse extract_amount texts ;;
  let df := set_col "Amount" (F64Col amounts) df in
  (* 161-165 *)
  amount <- get_col "Amount" df ;;
  let df :=
    if all (isna amount)
    then set_col "Amount" (I64Col (repeat 0%Z (nrows df))) df
    else select_rows (map negb (isna amount)) df in
  (* 168-169 *)
  sms <- get_col "SMS" df ;;
  texts <- str_cells sms ;;
  let df := set_col "Predicted_Category" (str_column (predict texts)) df in
  (* 181 *)
  sms <- get_col "SMS" df ;;
  texts <- str_cells sms ;;
  let df := set_col "Type" (str_column (map detect_type texts)) df in
  Ok df.

(** ** The sidebar filter, lines 196-199 *)

(** [series.isin(values)] *)
Definition isin (c : column) (values : list string) : list bool :=
  match c with
  | ObjCol xs =>
      map (fun x => match x with
                    | Some s => existsb (String.eqb s) values
                    | None => false
                    end) xs
  | F64Col xs => map (fun _ => false) xs
  | I64Col xs => map (fun _ => false) xs
  end.

(** [series == value] *)
Definition eq_str (c : column) (value : string) : list bool := isin c [value].

(** [mask1 & mask2] *)
Fixpoint mask_and (m1 m2 : list bool) : list bool :=
  match m1, m2 with
  | a :: m1', b :: m2' => (a && b) :: mask_and m1' m2'
  | _, _ => []
  end.

Definition apply_filter (selected_type selected_cat : list string) (df : DataFrame)
  : result DataFrame :=
  type <- get_col "Type" df ;;
  cat <- get_col "Predicted_Category" df ;;
  Ok (select_rows (mask_and (isin type selected_type) (isin cat selected_cat)) df).

(** ** Numbers: what [Series.sum] returns *)

Inductive num : Type :=
| Int (z : Z)       (* numpy.int64 *)
| Flt (f : float).  (* numpy.float64 *)

(** int64 arithmetic wraps around. *)
Definition wrap64 (z : Z) : Z := ((z + 2 ^ 63) mod 2 ^ 64 - 2 ^ 63)%Z.

Definition to_float (n : num) : float :=
  match n with
  | Int z => binary_normalize prec emax z 0 false
  | Flt f => f
  end.

(** [a > b] *)
Definition num_gt (a b : num) : bool :=
  match a, b with
  | Int x, Int y => (x >? y)%Z
  | _, _ => fgt (to_float a) (to_float b)
  end.

(** [a == 0] *)
Definition num_is_zero (a : num) : bool :=
  match a with
  | Int z => (z =? 0)%Z
  | Flt f => feq f fzero
  end.

(** [a / b]; a zero divisor is an error (numpy's scalars would answer inf or
    nan with a warning: the embedding takes Python's stricter rule). *)
Definition truediv (a b : num) : result float :=
  if num_is_zero b then Raise ZeroDivisionError
  else Ok (fdiv (to_float a) (to_float b)).

(** The cells that are not missing. *)
Fixpoint present {A : Type} (xs : list (option A)) : list A :=
  match xs with
  | [] => []
  | Some x :: xs' => x :: present xs'
  | None :: xs' => present xs'
  end.

(** [series.sum()] *)
Definition series_sum (c : column) : result num :=
  match c with
  | F64Col xs => Ok (Flt (float_sum (present xs)))
  | I64Col xs => Ok (Int (wrap64 (fold_left Z.add xs 0%Z)))
  | ObjCol _ => Raise TypeError
  end.

(** ** [groupby(key)[value].sum().idxmax()] *)

Fixpoint insert_key (k : string) (keys : list string) : list string :=
  match keys with
  | [] => [k]
  | k' :: keys' =>
      if String.eqb k k' then keys
      else if String.ltb k k' then k :: keys
      else k' :: insert_key k keys'
  end.

(** The labels of a column, each once, in ascending order. *)
Definition group_keys (labels : list (option string)) : list string :=
  fold_right (fun x keys => match x with
                            | Some k => insert_key k keys
                            | None => keys
                            end) [] labels.

Definition groupby_sum (key value : column) : result (list (string * num)) :=
  match key with
  | ObjCol labels =>
      traverse (fun k => v <- series_sum (col_select (eq_str key k) value) ;; Ok (k, v))
               (group_keys labels)
  | _ => Raise TypeError
  end.

Fixpoint argmax (best : string * num) (rest : list (string * num)) : string :=
  match rest with
  | [] => fst best
  | kv :: rest' => argmax (if num_gt (snd kv) (snd best) then kv else best) rest'
  end.

(** The label of the first largest sum; an empty series has none. *)
Definition idxmax (sums : list (string * num)) : result string :=
  match sums with
  | [] => Raise ValueError
  | kv :: rest => Ok (argmax kv rest)
  end.

(** ** Key metrics, lines 205-210 *)

(** [df.empty] *)
Definition empty (df : DataFrame) : bool := Nat.eqb (nrows df) 0.

(** [df[df["Type"] == type]["Amount"].sum()] *)
Definition total_of (type : string) (df : DataFrame) : result num :=
  type_col <- get_col "Type" df ;;
  amount <- get_col "Amount" (select_rows (eq_str type_col type) df) ;;
  series_sum amount.

Definition top_category (df : DataFrame) : result string :=
  if negb (empty df) then
    cat <- get_col "Predicted_Category" df ;;
    amount <- get_col "Amount" df ;;
    sums <- groupby_sum cat amount ;;
    idxmax sums
  else Ok "N/A".

Record snapshot : Type := {
  total_spent : num;
  total_credited : num;
  top_cat : string
}.

Definition aggregate (filtered_df : DataFrame) : result snapshot :=
  spent <- total_of "Debit" filtered_df ;;
  credited <- total_of "Credit" filtered_df ;;
  top <- top_category filtered_df ;;
  Ok {| total_spent := spent; total_credited := credited; top_cat := top |}.

(** ** What a render pass puts on the page *)

Inductive widget : Type :=
| Metric (label : string) (value : num)
| MetricText (label value : string)
| Progress (value : float)
| Caption (spend_ratio : float)
| Warning (msg : string)
| Info (msg : string)
| Success (msg : string)
| Dataframe (table : DataFrame)
| DownloadButton (file_name : string) (records : list (list string)).

Definition msg_above_80 : string :=
  "⚠️ Spending more than 80% of your income! Time to tighten the budget.".
Definition msg_60_80 : string :=
  "💡 You're spending 60-80% of your income. Consider increasing your savings rate.".
Definition msg_healthy : string :=
  "✅ Great! You're maintaining a healthy spending-to-income ratio.".
Definition msg_no_match : string := "No transactions match the selected filters.".

(** Lines 263-268. *)
Definition advisory_band (total_spent total_credited : num) : widget :=
  if fgt (to_float total_spent) (fmul (to_float total_credited) f0_8)
  then Warning msg_above_80
  else if fgt (to_float total_spent) (fmul (to_float total_credited) f0_6)
  then Info msg_60_80
  else Success msg_healthy.

(** [min(a, b)] *)
Definition fmin (a b : float) : float := if flt b a then b else a.

(** Lines 258-268. *)
Definition savings_ratio (total_spent total_credited : num) : result (list widget) :=
  if num_gt total_credited (Int 0) then
    spend_ratio <- truediv total_spent total_credited ;;
    Ok [Progress (fmin spend_ratio f1_0); Caption spend_ratio;
        advisory_band total_spent total_credited]
  else Ok [].

(** Lines 271-280. *)
Definition category_advice (top_cat : string) : string :=
  if String.eqb top_cat "Food"
  then "🍔 Reduce food deliveries — meal prepping can save up to 30%."
  else if String.eqb top_cat "Shopping"
  then "🛍️ Set a shopping cap for the month to control impulse buys."
  else if String.eqb top_cat "Bills"
  then "💡 Audit your recurring subscriptions — hidden savings often lie there."
  else if String.eqb top_cat "Travel"
  then "✈️ Consider planning trips in off-peak seasons to cut travel costs."
  else "💰 Keep tracking your spending — consistency is the key to savings!".

(** [df[[name, ...]]] *)
Definition select_columns (names : list string) (df : DataFrame) : result DataFrame :=
  traverse (fun name => c <- get_col name df ;; Ok (name, c)) names.

(** The text of each cell in the export; a missing cell is empty. *)
Definition cell_texts (c : column) : list string :=
  match c with
  | ObjCol xs => map (fun x => match x with Some s => s | None => EmptyString end) xs
  | F64Col xs => map (fun x => match x with Some f => float_repr f | None => EmptyString end) xs
  | I64Col xs => map int_repr xs
  end.

(** [df.to_csv(index=False)] as the records of the file, the header first;
    each record is then written with its fields separated by commas. *)
Definition to_csv (df : DataFrame) : list (list string) :=
  columns df ::
  map (fun i => map (fun nc => nth i (cell_texts (snd nc)) EmptyString) df)
      (seq 0 (nrows df)).

Definition csv_line (fields : list string) : string := String.concat "," fields.

(** Lines 204-296; the two charts, which only read the grouped sums, are
    left out. *)
Definition render (filtered_df : DataFrame) : result (list widget) :=
  agg <- aggregate filtered_df ;;
  let metrics :=
    [Metric "💸 Total Spent" (total_spent agg);
     Metric "💰 Total Credited" (total_credited agg);
     MetricText "🏆 Top Category" (top_cat agg)] in
  if negb (empty filtered_df) then
    advisor <- savings_ratio (total_spent agg) (total_credited agg) ;;
    table <- select_columns ["SMS"; "Amount"; "Type"; "Predicted_Category"] filtered_df ;;
    Ok (metrics ++ advisor ++
        [Info (category_advice (top_cat agg));
         Dataframe table;
         DownloadButton "categorized_transactions.csv" (to_csv filtered_df)])%list
  else Ok (metrics ++ [Warning msg_no_match])%list.

(** One pass of the script over an upload and a filter selection. *)
Definition dashboard (upload : DataFrame) (selected_type selected_cat : list string)
  : result (list widget) :=
  df <- pipeline upload ;;
  filtered_df <- apply_filter selected_type selected_cat df ;;
  render filtered_df.

(** ** The sidebar's selection, lines 189-194 *)

(** [series.unique()] on the str cells of a column: each value once, in the
    order of first appearance. *)
Fixpoint unique (values : list string) : list string :=
  match values with
  | [] => []
  | v :: values' => v :: filter (fun w => negb (String.eqb w v)) (unique values')
  end.

(** The options of the two multiselects, which are also their defaults. *)
Definition default_selection (df : DataFrame) : result (list string * list string) :=
  type <- get_col "Type" df ;;
  types <- str_cells type ;;
  cat <- get_col "Predicted_Category" df ;;
  cats <- str_cells cat ;;
  Ok (unique types, unique cats).

(** What the user has chosen in the sidebar: nothing yet ([None], the
    defaults stand) or the two lists. *)
Definition selection (choice : option (list string * list string)) (df : DataFrame)
  : result (list string * list string) :=
  match choice with
  | Some chosen => Ok chosen
  | None => default_selection df
  end.

(** ** The upload and the whole script, lines 122-147 and 183-308 *)

(** What [st.file_uploader] and [pd.read_csv] give: no file, a file
    [read_csv] raises on (with the text of the exception), or a table. *)
Inductive uploaded : Type :=
| NoFile
| Unreadable (error : string)
| Table (df : DataFrame).

(** What the script puts on the page: the widgets of a render pass, an error
    box, a block of markdown. *)
Inductive item : Type :=
| Show (w : widget)
| Error (msg : string)
| Markdown (body : string).

Definition msg_no_sms : string := "❌ The uploaded file must have a column named 'SMS'.".
Definition msg_please_upload : string :=
  "👆 Please upload a CSV file containing your SMS transaction data to begin analysis.".
Definition msg_no_amounts : string :=
  "⚠️ No transaction amounts detected in the messages. Analysis will continue without amount data.".
Definition msg_analyzed : string := "✅ Transactions analyzed successfully!".
Definition msg_choose : string :=
  "👆 Choose an input method above to start analyzing your transactions.".
Definition footer : string := "
        <div style='text-align:center; color:#475569;'>
            <p>© 2025 AI Personal Finance Advisor | Built with &#10084;&#65039; using Streamlit & Machine Learning</p>
        </div>
    ".

Definition nat_repr (n : nat) : string := NilZero.string_of_uint (Nat.to_uint n).

(** Lines 122-142: the notices of the upload, and the table to process when
    there is one with a column named SMS. *)
Definition load_upload (file : uploaded) : list item * option DataFrame :=
  match file with
  | NoFile => ([Show (Info msg_please_upload)], None)
  | Unreadable error => ([Error ("⚠️ Error reading file: " ++ error)], None)
  | Table df =>
      if existsb (String.eqb "SMS") (columns df)
      then ([Show (Success ("✅ File uploaded successfully! " ++ nat_repr (nrows df)
                            ++ " records loaded."))], Some df)
      else ([Error msg_no_sms], None)
  end.

(** Lines 149-210: what a run computes from a table before it draws, the
    pipeline, the selection, the filter and the key metrics. *)
Definition analysis (upload : DataFrame) (choice : option (list string * list string))
  : result snapshot :=
  df <- pipeline upload ;;
  chosen <- selection choice df ;;
  filtered_df <- apply_filter (fst chosen) (snd chosen) df ;;
  aggregate filtered_df.

(** Line 161, the test the pipeline branches on: whether no row of the
    upload has an amount. *)
Definition no_amounts (upload : DataFrame) : result bool :=
  sms <- get_col "SMS" upload ;;
  amounts <- traverse extract_amount (map normalize (astype_str sms)) ;;
  Ok (all (isna (F64Col amounts))).

(** One run of the script, after the static landing page: lines 122-308,
    without the headers, the divider and the charts.  An exception in the
    processing is not caught. *)
Definition script (file : uploaded) (choice : option (list string * list string))
  : result (list item) :=
  let (notices, df) := load_upload file in
  match df with
  | Some upload =>
      df <- pipeline upload ;;
      degraded <- no_amounts upload ;;
      chosen <- selection choice df ;;
      filtered_df <- apply_filter (fst chosen) (snd chosen) df ;;
      widgets <- render filtered_df ;;
      Ok (notices ++
          (if degraded : bool then [Show (Warning msg_no_amounts)] else []) ++
          [Show (Success msg_analyzed)] ++ map Show widgets)%list
  | None =>
      Ok (notices ++ [Show (Info msg_choose); Markdown "---"; Markdown footer])%list
  end.

End Script.

(** ** A runtime to compute with: every text is labelled Food or Bills by
    its length, sums run left to right, a float prints as its mantissa and
    exponent. *)

Definition demo_label (text : string) : string :=
  if Nat.even (String.length text) then "Food" else "Bills".

Definition demo_repr (f : float) : string :=
  match f with
  | S754_zero _ => "0.0"
  | S754_infinity _ => "inf"
  | S754_nan => "nan"
  | S754_finite _ m e => int_repr (Zpos m) ++ "p" ++ int_repr e
  end.

#[export] Instance demo_runtime : Runtime := {|
  predict := map demo_label;
  predict_length := fun texts => length_map demo_label texts;
  float_sum := fun xs => fold_left fadd xs fzero;
  float_sum_nil := eq_refl;
  float_repr := demo_repr
|}.

Definition demo_upload : DataFrame :=
  [("Date", ObjCol [Some "01-01"; Some "02-01"; Some "03-01"; Some "04-01"]);
   ("SMS", ObjCol [Some "  Paid INR 800 at store ";
                   Some "Salary credited INR 1,000.00";
                   Some "your otp is 1234";
                   None])].

(** * Definitions for the statements

    Nothing below is code of the script: these are the notions the theorems
    are stated with. *)

(** ** Rows and masks *)

(** The rows a mask keeps. *)
Definition kept (mask : list bool) : nat := length (filter (fun b => b) mask).

(** The rows with an amount. *)
Definition has_amount (amounts : list (option float)) : list bool :=
  map (fun a => negb (is_none a)) amounts.

(** The rows the pipeline keeps, as a mask over the upload. *)
Definition pipeline_mask (amounts : list (option float)) : list bool :=
  if all (map is_none amounts) then map (fun _ => true) amounts else has_amount amounts.


(** The mask of the sidebar filter. *)
Definition filter_mask (selected_type selected_cat : list string) (cats types : list string)
  : list bool :=
  mask_and (isin (str_column types) selected_type) (isin (str_column cats) selected_cat).

(** ** The pipeline in closed form *)

(** What lines 168-181 add to a frame whose SMS column holds [texts], for
    the classifier of a runtime. *)
Definition enrich {R : Runtime} (texts : list string) (df : DataFrame) : DataFrame :=
  set_col "Type" (str_column (map detect_type texts))
    (set_col "Predicted_Category" (str_column (predict texts)) df).

(** The frame after lines 149-165, the SMS column holding [texts] and the
    extractor having returned [amounts]. *)
Definition with_amounts (texts : list string) (amounts : list (option float))
    (df : DataFrame) : DataFrame :=
  let df := set_col "Amount" (F64Col amounts) (set_col "SMS" (str_column texts) df) in
  if all (map is_none amounts)
  then set_col "Amount" (I64Col (repeat 0%Z (nrows df))) df
  else select_rows (has_amount amounts) df.

(** The texts of the rows lines 161-165 keep. *)
Definition kept_texts (texts : list string) (amounts : list (option float)) : list string :=
  if all (map is_none amounts) then texts else select (has_amount amounts) texts.

(** A column of numbers. *)
Definition is_numeric (c : column) : bool :=
  match c with
  | ObjCol _ => false
  | _ => true
  end.

(** [enriched df texts amount cats types]: a well-formed frame whose SMS,
    Amount, Predicted_Category and Type columns are the given ones, the
    amounts being numbers. *)
Definition enriched (df : DataFrame) (texts : list string) (amount : column)
    (cats types : list string) : Prop :=
  well_formed df = true /\
  get_col "SMS" df = Ok (str_column texts) /\
  get_col "Amount" df = Ok amount /\
  is_numeric amount = true /\
  get_col "Predicted_Category" df = Ok (str_column cats) /\
  get_col "Type" df = Ok (str_column types).

(** [name] added to a list of column names as [df[name] = ...] adds it. *)
Definition add_column (name : string) (names : list string) : list string :=
  if existsb (String.eqb name) names then names else (names ++ [name])%list.

(** ** Exceptions, occurrences, widgets *)

(** Computations that do not end in a division by zero. *)
Definition no_zero_division {A : Type} (m : result A) : Prop :=
  m <> Raise ZeroDivisionError.

(** [sub] occurs in [s]. *)
Definition substring_of (sub s : string) : Prop :=
  exists before after, s = before ++ sub ++ after.

(** What the advisor puts on the page: the progress bar, the ratio and the
    three band messages. *)
Definition is_ratio_widget (w : widget) : bool :=
  match w with
  | Progress _ => true
  | Caption _ => true
  | Warning msg => String.eqb msg msg_above_80
  | Info msg => String.eqb msg msg_60_80
  | Success msg => String.eqb msg msg_healthy
  | _ => false
  end.

(** ** The texts the embedding is exact on *)

(** A text of ASCII characters and rupee signs (the bytes 226 130 185). *)
Fixpoint plain (s : string) : bool :=
  match s with
  | EmptyString => true
  | String c s1 =>
      if (code c <? 128)%N then plain s1
      else
        match s1 with
        | String c1 (String c2 s3) =>
            (code c =? 226)%N && (code c1 =? 130)%N && (code c2 =? 185)%N && plain s3
        | _ => false
        end
  end.

(** ** Lower-casing, as a table

    The lower-cased text of the claims about keywords and markers, written
    without the code's [lower]: the twenty-six letters, one by one. *)
Definition spec_lower_char (c : ascii) : ascii :=
  match c with
  | "A" => "a" | "B" => "b" | "C" => "c" | "D" => "d" | "E" => "e"
  | "F" => "f" | "G" => "g" | "H" => "h" | "I" => "i" | "J" => "j"
  | "K" => "k" | "L" => "l" | "M" => "m" | "N" => "n" | "O" => "o"
  | "P" => "p" | "Q" => "q" | "R" => "r" | "S" => "s" | "T" => "t"
  | "U" => "u" | "V" => "v" | "W" => "w" | "X" => "x" | "Y" => "y"
  | "Z" => "z"
  | _ => c
  end%char.

Fixpoint spec_lower (s : string) : string :=
  match s with
  | EmptyString => EmptyString
  | String c s' => String (spec_lower_char c) (spec_lower s')
  end.

(** ** Floats that are amounts *)

(** Zero, a positive float or infinity: not a NaN, and no minus sign. *)
Definition non_negative (f : float) : bool :=
  match f with
  | S754_zero s => negb s
  | S754_infinity s => negb s
  | S754_finite s _ _ => negb s
  | S754_nan => false
  end.

(** ** The records of a table of texts *)

(** The first [n] rows of a table given by its columns. *)
Definition records (cols : list (list string)) (n : nat) : list (list string) :=
  map (fun i => map (fun col => nth i col EmptyString) cols) (seq 0 n).

(** ** The amount pattern, read as a scanner

    What the search of [amount_pattern] finds, written as a direct scan of
    the text: a marker in either case, at most one whitespace character, the
    longest run of digits and commas (at least one character), a dot if one
    follows, and the longest run of digits after the dot. *)

(** The markers, as the pattern lists them. *)
Definition markers : list string := ["inr"; "aed"; "₹"].

(** The longest prefix of [s] in the class, and the rest. *)
Fixpoint span (p : ascii -> bool) (s : string) : string * string :=
  match s with
  | String c s' =>
      if p c then let (a, r) := span p s' in (String c a, r) else (EmptyString, s)
  | EmptyString => (EmptyString, EmptyString)
  end.

(** [s] without the prefix [w], when it starts with [w] in either case. *)
Fixpoint after_prefix (w s : string) : option string :=
  match w with
  | EmptyString => Some s
  | String a w' =>
      match s with
      | String c s' =>
          if Ascii.eqb (lower_char c) (lower_char a) then after_prefix w' s' else None
      | EmptyString => None
      end
  end.

(** The text after a marker at the start of [s]. *)
Definition marker_at (s : string) : option string :=
  match after_prefix "inr" s with
  | Some r => Some r
  | None =>
      match after_prefix "aed" s with
      | Some r => Some r
      | None => after_prefix "₹" s
      end
  end.

(** A literal: the digits and commas before the dot, whether a dot follows,
    the digits after the dot. *)
Record literal : Type := {
  whole_part : string;
  has_dot : bool;
  decimals : string
}.

(** The text of a literal, as group 1 holds it. *)
Definition literal_text (l : literal) : string :=
  if has_dot l then whole_part l ++ "." ++ decimals l else whole_part l.

(** The literal at the start of [s]. *)
Definition literal_at (s : string) : option literal :=
  let (a, r) := span digit_or_comma s in
  match a with
  | EmptyString => None
  | String _ _ =>
      match r with
      | String c r' =>
          if dot c
          then Some {| whole_part := a; has_dot := true; decimals := fst (span is_digit r') |}
          else Some {| whole_part := a; has_dot := false; decimals := EmptyString |}
      | EmptyString => Some {| whole_part := a; has_dot := false; decimals := EmptyString |}
      end
  end.

(** The literal of a match that starts at the start of [s]: a marker, at
    most one whitespace character, a literal. *)
Definition match_at (s : string) : option literal :=
  match marker_at s with
  | Some (String c r) => if is_space c then literal_at r else literal_at (String c r)
  | _ => None
  end.

(** The literal after the leftmost marker that is followed by one. *)
Fixpoint first_match (s : string) : option literal :=
  match match_at s with
  | Some l => Some l
  | None =>
      match s with
      | String _ s' => first_match s'
      | EmptyString => None
      end
  end.

(** Every character of [s] is in the class. *)
Fixpoint all_chars (p : ascii -> bool) (s : string) : bool :=
  match s with
  | EmptyString => true
  | String c s' => p c && all_chars p s'
  end.

(** The literals the scan finds: commas and digits, then digits, and no
    decimals without a dot. *)
Definition shaped (l : literal) : Prop :=
  all_chars digit_or_comma (whole_part l) = true /\
  all_digits (decimals l) = true /\
  (has_dot l = false -> decimals l = EmptyString).

(** What [extract_amount] makes of the literal the scan finds: the number
    written by its digits, or [ValueError] when it has no digit. *)
Definition literal_value (l : literal) : result (option float) :=
  let digits := replace "," "" (whole_part l) ++ decimals l in
  if (String.length digits =? 0)%nat then Raise ValueError
  else Ok (Some (float_of_decimal (digits_value 0 digits) (String.length (decimals l)))).

(** ** Uploads to compute with *)

(** An upload whose only column is SMS. *)
Definition lunch_upload : DataFrame :=
  [("SMS", ObjCol [Some "Paid INR 500 for lunch"])].

(** The SMS column of [demo_upload] and what the extractor returns on its
    rows. *)
Definition demo_sms : column :=
  ObjCol [Some "  Paid INR 800 at store ";
          Some "Salary credited INR 1,000.00";
          Some "your otp is 1234";
          None].

Definition demo_amounts : list (option float) :=
  [Some (float_of_decimal 800 0); Some (float_of_decimal 100000 2); None; None].

(** The table the pipeline makes of [demo_upload]. *)
Definition demo_table : DataFrame :=
  [("Date", ObjCol [Some "01-01"; Some "02-01"]);
   ("SMS", ObjCol [Some "paid inr 800 at store"; Some "salary credited inr 1,000.00"]);
   ("Amount", F64Col [Some (float_of_decimal 800 0); Some (float_of_decimal 100000 2)]);
   ("Predicted_Category", ObjCol [Some "Bills"; Some "Food"]);
   ("Type", ObjCol [Some "Debit"; Some "Credit"])].

(** An upload with an amount on its first row and a marker followed by a
    lone comma on its second. *)
Definition bad_row_upload : DataFrame :=
  [("SMS", ObjCol [Some "Paid INR 500 for lunch"; Some "Paid in INR, thanks"])].

(** An upload in which no text has an amount. *)
Definition quiet_upload : DataFrame :=
  [("SMS", ObjCol [Some "Hello there"; Some "Your OTP is 1234, spent nothing"])].

(** * Properties *)

(** ** The result monad *)

Lemma bind_ok {A B : Type} (m : result A) (k : A -> result B) (b : B) :
  bind m k = Ok b -> exists a, m = Ok a /\ k a = Ok b.
Proof.
  destruct m as [a|e]; simpl; intros E; [eauto | discriminate].
Qed.

Lemma traverse_length {A B : Type} (f : A -> result B) (xs : list A) (ys : list B) :
  traverse f xs = Ok ys -> length ys = length xs.
Proof.
  revert ys; induction xs as [|x xs IH]; simpl; intros ys E.
  - injection E as <-; reflexivity.
  - destruct (f x) as [y|e]; simpl in E; [|discriminate].
    destruct (traverse f xs) as [ys'|e]; simpl in E; [|discriminate].
    injection E as <-; simpl; f_equal; auto.
Qed.

Lemma traverse_ok_map {A B : Type} (f : A -> result B) (g : A -> B) (xs : list A) :
  (forall x, In x xs -> f x = Ok (g x)) -> traverse f xs = Ok (map g xs).
Proof.
  induction xs as [|x xs IH]; simpl; intros Hf; [reflexivity|].
  rewrite (Hf x) by auto; simpl.
  rewrite IH by auto; reflexivity.
Qed.

(** The lemmas saying that an operation of the script does not end in a
    division by zero. *)
Create HintDb nzd.

Section Pipeline.

Context `{Runtime}.

(** ** Frames *)

Lemma get_col_set_col_same (name : string) (c : column) (df : DataFrame) :
  get_col name (set_col name c df) = Ok c.
Proof.
  induction df as [|[n c0] df IH]; simpl.
  - rewrite String.eqb_refl; reflexivity.
  - destruct (String.eqb n name) eqn:E; simpl; rewrite E; auto.
Qed.

Lemma get_col_set_col_other (name other : string) (c : column) (df : DataFrame) :
  other <> name -> get_col name (set_col other c df) = get_col name df.
Proof.
  intros Hne; induction df as [|[n c0] df IH]; simpl.
  - destruct (String.eqb other name) eqn:E; [|reflexivity].
    apply String.eqb_eq in E; contradiction.
  - destruct (String.eqb n other) eqn:E; simpl.
    + apply String.eqb_eq in E; subst n.
      destruct (String.eqb other name) eqn:E'; [|reflexivity].
      apply String.eqb_eq in E'; contradiction.
    + destruct (String.eqb n name); auto.
Qed.

Lemma get_col_select_rows (name : string) (mask : list bool) (df : DataFrame) :
  get_col name (select_rows mask df) = (c <- get_col name df ;; Ok (col_select mask c)).
Proof.
  induction df as [|[n c0] df IH]; simpl; [reflexivity|].
  destruct (String.eqb n name); auto.
Qed.

Lemma columns_select_rows (mask : list bool) (df : DataFrame) :
  columns (select_rows mask df) = columns df.
Proof.
  unfold columns, select_rows; rewrite map_map; reflexivity.
Qed.

Lemma str_cells_str_column (texts : list string) :
  str_cells (str_column texts) = Ok texts.
Proof.
  unfold str_cells, str_column.
  induction texts as [|t texts IH]; simpl; [reflexivity|].
  rewrite IH; reflexivity.
Qed.

Lemma select_map {A B : Type} (f : A -> B) (mask : list bool) (xs : list A) :
  select mask (map f xs) = map f (select mask xs).
Proof.
  revert xs; induction mask as [|b mask IH]; intros [|x xs]; simpl; try reflexivity.
  destruct b; simpl; rewrite IH; reflexivity.
Qed.

Lemma col_select_str_column (mask : list bool) (texts : list string) :
  col_select mask (str_column texts) = str_column (select mask texts).
Proof.
  unfold str_column; simpl; rewrite select_map; reflexivity.
Qed.

(** The number of rows a mask keeps. *)
Lemma select_length {A : Type} (mask : list bool) (xs : list A) :
  length mask = length xs ->
  length (select mask xs) = length (filter (fun b => b) mask).
Proof.
  revert xs; induction mask as [|b mask IH]; intros [|x xs]; simpl; try discriminate; auto.
  intros E; injection E as E.
  destruct b; simpl; rewrite IH; auto.
Qed.

Lemma col_len_select (mask : list bool) (c : column) :
  length mask = col_len c ->
  col_len (col_select mask c) = length (filter (fun b => b) mask).
Proof.
  destruct c; simpl; apply select_length.
Qed.

Lemma well_formed_spec (df : DataFrame) :
  well_formed df = true <-> (forall n c, In (n, c) df -> col_len c = nrows df).
Proof.
  unfold well_formed; rewrite forallb_forall; split.
  - intros Hwf n c Hin. apply Nat.eqb_eq, (Hwf (n, c) Hin).
  - intros Hwf [n c] Hin. apply Nat.eqb_eq; simpl; eauto.
Qed.

Lemma get_col_In (name : string) (df : DataFrame) (c : column) :
  get_col name df = Ok c -> In (name, c) df.
Proof.
  induction df as [|[n c0] df IH]; simpl; [discriminate|].
  destruct (String.eqb n name) eqn:E.
  - intros [= ->]. apply String.eqb_eq in E; subst; auto.
  - auto.
Qed.

Lemma get_col_len (name : string) (df : DataFrame) (c : column) :
  well_formed df = true -> get_col name df = Ok c -> col_len c = nrows df.
Proof.
  intros Hwf Hget. apply well_formed_spec with (n := name); auto using get_col_In.
Qed.

Lemma In_set_col (name : string) (c : column) (df : DataFrame) (n : string) (c' : column) :
  In (n, c') (set_col name c df) -> (n, c') = (name, c) \/ In (n, c') df.
Proof.
  induction df as [|[n0 c0] df IH]; simpl.
  - intros [E|[]]; auto.
  - destruct (String.eqb n0 name) eqn:E; simpl.
    + apply String.eqb_eq in E; subst n0. intros [E'|Hin]; auto.
    + intros [E'|Hin]; auto. destruct (IH Hin); auto.
Qed.

Lemma nrows_set_col (name : string) (c : column) (df : DataFrame) :
  col_len c = nrows df -> nrows (set_col name c df) = nrows df.
Proof.
  destruct df as [|[n0 c0] df]; simpl; auto.
  destruct (String.eqb n0 name); simpl; auto.
Qed.

Lemma well_formed_set_col (name : string) (c : column) (df : DataFrame) :
  well_formed df = true -> col_len c = nrows df ->
  well_formed (set_col name c df) = true.
Proof.
  intros Hwf Hlen. apply well_formed_spec; intros n c' Hin.
  rewrite nrows_set_col by assumption.
  destruct (In_set_col _ _ _ _ _ Hin) as [[= -> ->]|Hin']; auto.
  apply (proj1 (well_formed_spec df) Hwf n c' Hin').
Qed.

Lemma nrows_select_rows (mask : list bool) (df : DataFrame) :
  df <> [] -> length mask = nrows df -> nrows (select_rows mask df) = kept mask.
Proof.
  destruct df as [|[n0 c0] df]; [congruence|]; simpl; intros _ E.
  apply col_len_select; assumption.
Qed.

Lemma well_formed_select_rows (mask : list bool) (df : DataFrame) :
  well_formed df = true -> length mask = nrows df ->
  well_formed (select_rows mask df) = true.
Proof.
  intros Hwf Hlen. apply well_formed_spec; intros n c Hin.
  unfold select_rows in Hin; apply in_map_iff in Hin as [[n0 c0] [[= <- <-] Hin]]; simpl.
  assert (col_len c0 = nrows df) by (apply (proj1 (well_formed_spec df) Hwf n0 c0 Hin)).
  rewrite col_len_select by congruence.
  destruct df as [|[n1 c1] df]; [destruct Hin|].
  symmetry; apply col_len_select; assumption.
Qed.

Lemma set_col_not_nil (name : string) (c : column) (df : DataFrame) :
  set_col name c df <> [].
Proof.
  destruct df as [|[n0 c0] df]; simpl; [discriminate|].
  destruct (String.eqb n0 name); discriminate.
Qed.

Lemma astype_str_length (c : column) :
  length (astype_str c) = col_len c.
Proof.
  destruct c; simpl; apply length_map.
Qed.

(** ** The pipeline in closed form *)

Lemma get_sms_with_amounts (texts : list string) (amounts : list (option float))
    (df : DataFrame) :
  get_col "SMS" (with_amounts texts amounts df) = Ok (str_column (kept_texts texts amounts)).
Proof.
  unfold with_amounts, kept_texts.
  destruct (all (map is_none amounts)).
  - rewrite !get_col_set_col_other by discriminate. apply get_col_set_col_same.
  - rewrite get_col_select_rows, get_col_set_col_other by discriminate.
    rewrite get_col_set_col_same; simpl.
    rewrite <- col_select_str_column; reflexivity.
Qed.

Lemma pipeline_closed_form (df : DataFrame) (sms : column) :
  get_col "SMS" df = Ok sms ->
  pipeline df =
    (amounts <- traverse extract_amount (map normalize (astype_str sms)) ;;
     Ok (enrich (kept_texts (map normalize (astype_str sms)) amounts)
                (with_amounts (map normalize (astype_str sms)) amounts df))).
Proof.
  intros Hsms. unfold pipeline. rewrite Hsms; cbn [bind].
  rewrite get_col_set_col_same; cbn [bind].
  rewrite str_cells_str_column; cbn [bind].
  destruct (traverse extract_amount _) as [amounts|e]; cbn [bind]; [|reflexivity].
  rewrite get_col_set_col_same; cbn [bind isna].
  set (texts := map normalize (astype_str sms)).
  assert (Hmask : map negb (map is_none amounts) = has_amount amounts)
    by (unfold has_amount; rewrite map_map; reflexivity).
  rewrite Hmask.
  fold (with_amounts texts amounts df).
  rewrite get_sms_with_amounts; cbn [bind].
  rewrite str_cells_str_column; cbn [bind].
  rewrite get_col_set_col_other by discriminate.
  rewrite get_sms_with_amounts; cbn [bind].
  rewrite str_cells_str_column; cbn [bind].
  reflexivity.
Qed.

(** When the pipeline returns no table: the upload has no SMS column, or
    the extractor raises on a row. *)
Lemma pipeline_failures (upload : DataFrame) :
  (get_col "SMS" upload = Raise KeyError -> pipeline upload = Raise KeyError) /\
  (forall sms e,
     get_col "SMS" upload = Ok sms ->
     traverse extract_amount (map normalize (astype_str sms)) = Raise e ->
     pipeline upload = Raise e).
Proof.
  split.
  - intros Hsms. unfold pipeline. rewrite Hsms. reflexivity.
  - intros sms e Hsms Hraise.
    rewrite (pipeline_closed_form upload Hsms), Hraise. reflexivity.
Qed.

Lemma all_none_present {A : Type} (xs : list (option A)) :
  all (map is_none xs) = true <-> present xs = [].
Proof.
  induction xs as [|[x|] xs IH]; simpl.
  - split; reflexivity.
  - split; discriminate.
  - exact IH.
Qed.

Lemma select_has_amount (amounts : list (option float)) :
  select (has_amount amounts) amounts = map Some (present amounts).
Proof.
  induction amounts as [|[a|] amounts IH]; simpl; [reflexivity| |assumption].
  f_equal; assumption.
Qed.

Lemma kept_has_amount (amounts : list (option float)) :
  kept (has_amount amounts) = length (present amounts).
Proof.
  unfold kept.
  induction amounts as [|[a|] amounts IH]; simpl; auto.
Qed.

Lemma has_amount_length (amounts : list (option float)) :
  length (has_amount amounts) = length amounts.
Proof.
  apply length_map.
Qed.

Lemma kept_texts_length (texts : list string) (amounts : list (option float)) :
  length texts = length amounts ->
  length (kept_texts texts amounts) =
  if all (map is_none amounts) then length texts else length (present amounts).
Proof.
  intros E. unfold kept_texts.
  destruct (all (map is_none amounts)); [reflexivity|].
  rewrite select_length by (rewrite has_amount_length; auto).
  apply kept_has_amount.
Qed.

Lemma str_column_len (texts : list string) : col_len (str_column texts) = length texts.
Proof.
  apply length_map.
Qed.

(** The frame after lines 149-165: its rows and its Amount column. *)
Lemma with_amounts_shape (texts : list string) (amounts : list (option float))
    (df : DataFrame) :
  well_formed df = true ->
  length texts = nrows df ->
  length amounts = nrows df ->
  well_formed (with_amounts texts amounts df) = true /\
  nrows (with_amounts texts amounts df) = length (kept_texts texts amounts) /\
  get_col "Amount" (with_amounts texts amounts df) =
    Ok (if all (map is_none amounts)
        then I64Col (repeat 0%Z (nrows df))
        else F64Col (map Some (present amounts))).
Proof.
  intros Hwf Ht Ha.
  assert (Hn1 : nrows (set_col "SMS" (str_column texts) df) = nrows df)
    by (apply nrows_set_col; rewrite str_column_len; assumption).
  assert (Hw1 : well_formed (set_col "SMS" (str_column texts) df) = true)
    by (apply well_formed_set_col; [|rewrite str_column_len]; assumption).
  assert (Hn2 : nrows (set_col "Amount" (F64Col amounts)
                         (set_col "SMS" (str_column texts) df)) = nrows df)
    by (rewrite nrows_set_col; simpl; congruence).
  assert (Hw2 : well_formed (set_col "Amount" (F64Col amounts)
                               (set_col "SMS" (str_column texts) df)) = true)
    by (apply well_formed_set_col; simpl; congruence).
  rewrite kept_texts_length by congruence.
  unfold with_amounts; cbv zeta.
  destruct (all (map is_none amounts)).
  - rewrite Hn2. split; [|split].
    + apply well_formed_set_col; [assumption|]. simpl; rewrite repeat_length; congruence.
    + rewrite nrows_set_col; [congruence|]. simpl; rewrite repeat_length; congruence.
    + apply get_col_set_col_same.
  - split; [|split].
    + apply well_formed_select_rows; [assumption|]. rewrite has_amount_length; congruence.
    + rewrite nrows_select_rows.
      * apply kept_has_amount.
      * apply set_col_not_nil.
      * rewrite has_amount_length; congruence.
    + rewrite get_col_select_rows, get_col_set_col_same; cbn [bind col_select].
      rewrite select_has_amount; reflexivity.
Qed.

(** What lines 168-181 add, and what they leave as it was. *)
Lemma enrich_shape (texts : list string) (df : DataFrame) :
  well_formed df = true ->
  length texts = nrows df ->
  well_formed (enrich texts df) = true /\
  nrows (enrich texts df) = nrows df /\
  get_col "Type" (enrich texts df) = Ok (str_column (map detect_type texts)) /\
  get_col "Predicted_Category" (enrich texts df) = Ok (str_column (predict texts)) /\
  (forall name, name <> "Type" -> name <> "Predicted_Category" ->
                get_col name (enrich texts df) = get_col name df).
Proof.
  intros Hwf Ht. unfold enrich.
  assert (Hc : col_len (str_column (predict texts)) = nrows df)
    by (rewrite str_column_len, predict_length; assumption).
  assert (Hn1 : nrows (set_col "Predicted_Category" (str_column (predict texts)) df) = nrows df)
    by (apply nrows_set_col; assumption).
  assert (Hty : col_len (str_column (map detect_type texts)) = nrows df)
    by (rewrite str_column_len, length_map; assumption).
  repeat split.
  - apply well_formed_set_col; [apply well_formed_set_col; assumption | congruence].
  - rewrite nrows_set_col; congruence.
  - apply get_col_set_col_same.
  - rewrite get_col_set_col_other by discriminate. apply get_col_set_col_same.
  - intros name H1 H2. rewrite !get_col_set_col_other by congruence. reflexivity.
Qed.

(** On an upload with the SMS column on whose rows the extractor returns
    (a float or None), the pipeline returns a table.  When at least one row has an
    amount, its rows are exactly the rows with an amount, in order: their
    number is the number of extracted amounts that are not null, and the SMS
    and Amount columns are the texts and amounts of those rows.  When no row
    has an amount, it has as many rows as the upload and every amount is 0. *)
Theorem pipeline_row_count (upload : DataFrame) (sms : column)
    (amounts : list (option float)) :
  well_formed upload = true ->
  get_col "SMS" upload = Ok sms ->
  traverse extract_amount (map normalize (astype_str sms)) = Ok amounts ->
  exists df,
    pipeline upload = Ok df /\
    well_formed df = true /\
    (present amounts <> [] ->
     nrows df = length (present amounts) /\
     get_col "Amount" df = Ok (F64Col (map Some (present amounts))) /\
     get_col "SMS" df =
       Ok (str_column (select (has_amount amounts) (map normalize (astype_str sms))))) /\
    (present amounts = [] ->
     nrows df = nrows upload /\
     get_col "Amount" df = Ok (I64Col (repeat 0%Z (nrows upload))) /\
     get_col "SMS" df = Ok (str_column (map normalize (astype_str sms)))).
Proof.
  intros Hwf Hsms Hamounts.
  set (texts := map normalize (astype_str sms)) in *.
  assert (Ht : length texts = nrows upload).
  { unfold texts. rewrite length_map, astype_str_length. eapply get_col_len; eassumption. }
  assert (Ha : length amounts = nrows upload).
  { rewrite (traverse_length _ _ Hamounts). assumption. }
  destruct (with_amounts_shape texts amounts upload Hwf Ht Ha) as (Hw & Hn & Hamt).
  destruct (enrich_shape (kept_texts texts amounts) (with_amounts texts amounts upload) Hw
              (eq_sym Hn)) as (Hw' & Hn' & _ & _ & Hsame).
  exists (enrich (kept_texts texts amounts) (with_amounts texts amounts upload)).
  split.
  { rewrite (pipeline_closed_form upload Hsms). fold texts. rewrite Hamounts. reflexivity. }
  split; [assumption|].
  rewrite Hn', Hn, !Hsame by discriminate.
  rewrite Hamt, get_sms_with_amounts, kept_texts_length by congruence.
  unfold kept_texts.
  split; intros Hp.
  - destruct (all (map is_none amounts)) eqn:E; [|auto].
    apply all_none_present in E; contradiction.
  - apply all_none_present in Hp. rewrite Hp. rewrite Ht. auto.
Qed.

(** ** Tables the pipeline produces *)

Lemma pipeline_enriched (upload df : DataFrame) :
  well_formed upload = true ->
  pipeline upload = Ok df ->
  exists sms amounts,
    get_col "SMS" upload = Ok sms /\
    traverse extract_amount (map normalize (astype_str sms)) = Ok amounts /\
    df = enrich (kept_texts (map normalize (astype_str sms)) amounts)
                (with_amounts (map normalize (astype_str sms)) amounts upload) /\
    enriched df
      (kept_texts (map normalize (astype_str sms)) amounts)
      (if all (map is_none amounts)
       then I64Col (repeat 0%Z (nrows upload))
       else F64Col (map Some (present amounts)))
      (predict (kept_texts (map normalize (astype_str sms)) amounts))
      (map detect_type (kept_texts (map normalize (astype_str sms)) amounts)).
Proof.
  intros Hwf Hrun.
  destruct (get_col "SMS" upload) as [sms|e] eqn:Hsms;
    [|unfold pipeline in Hrun; rewrite Hsms in Hrun; discriminate].
  rewrite (pipeline_closed_form upload Hsms) in Hrun.
  apply bind_ok in Hrun as (amounts & Hamounts & [= <-]).
  exists sms, amounts. split; [reflexivity|]. split; [assumption|]. split; [reflexivity|].
  set (texts := map normalize (astype_str sms)) in *.
  assert (Ht : length texts = nrows upload).
  { unfold texts. rewrite length_map, astype_str_length. eapply get_col_len; eassumption. }
  assert (Ha : length amounts = nrows upload).
  { rewrite (traverse_length _ _ Hamounts). assumption. }
  destruct (with_amounts_shape texts amounts upload Hwf Ht Ha) as (Hw & Hn & Hamt).
  destruct (enrich_shape (kept_texts texts amounts) (with_amounts texts amounts upload) Hw
              (eq_sym Hn)) as (Hw' & Hn' & Hty & Hcat & Hsame).
  unfold enriched. rewrite !Hsame by discriminate.
  rewrite get_sms_with_amounts, Hamt.
  repeat split; try assumption.
  destruct (all (map is_none amounts)); reflexivity.
Qed.

Lemma isin_length (c : column) (values : list string) :
  length (isin c values) = col_len c.
Proof.
  destruct c; simpl; apply length_map.
Qed.

Lemma mask_and_length (m1 m2 : list bool) :
  length m1 = length m2 -> length (mask_and m1 m2) = length m1.
Proof.
  revert m2; induction m1 as [|a m1 IH]; intros [|b m2]; simpl; try discriminate; auto.
Qed.

Lemma is_numeric_select (mask : list bool) (c : column) :
  is_numeric (col_select mask c) = is_numeric c.
Proof.
  destruct c; reflexivity.
Qed.

(** Selecting rows of an enriched table gives an enriched table. *)
Lemma enriched_select_rows (mask : list bool) (df : DataFrame) (texts : list string)
    (amount : column) (cats types : list string) :
  enriched df texts amount cats types ->
  length mask = nrows df ->
  enriched (select_rows mask df) (select mask texts) (col_select mask amount)
           (select mask cats) (select mask types).
Proof.
  intros (Hwf & Hsms & Hamt & Hnum & Hcat & Hty) Hlen.
  unfold enriched.
  rewrite !get_col_select_rows, Hsms, Hamt, Hcat, Hty; cbn [bind].
  rewrite !col_select_str_column, is_numeric_select.
  repeat split; try reflexivity; try assumption.
  apply well_formed_select_rows; assumption.
Qed.

Lemma apply_filter_enriched (selected_type selected_cat : list string) (df : DataFrame)
    (texts : list string) (amount : column) (cats types : list string) :
  enriched df texts amount cats types ->
  apply_filter selected_type selected_cat df =
    Ok (select_rows (filter_mask selected_type selected_cat cats types) df) /\
  length (filter_mask selected_type selected_cat cats types) = nrows df.
Proof.
  intros (Hwf & Hsms & Hamt & Hnum & Hcat & Hty).
  unfold apply_filter. rewrite Hty, Hcat; cbn [bind].
  split; [reflexivity|].
  unfold filter_mask.
  pose proof (get_col_len _ _ Hwf Hty) as Lt.
  pose proof (get_col_len _ _ Hwf Hcat) as Lc.
  rewrite mask_and_length; rewrite !isin_length; congruence.
Qed.

(** ** The aggregator on an enriched table *)

Lemma total_of_enriched (type : string) (df : DataFrame) (texts : list string)
    (amount : column) (cats types : list string) :
  enriched df texts amount cats types ->
  total_of type df = series_sum (col_select (eq_str (str_column types) type) amount).
Proof.
  intros (Hwf & Hsms & Hamt & Hnum & Hcat & Hty).
  unfold total_of. rewrite Hty; cbn [bind].
  rewrite get_col_select_rows, Hamt; reflexivity.
Qed.

Lemma series_sum_numeric (c : column) :
  is_numeric c = true -> exists v, series_sum c = Ok v.
Proof.
  destruct c; simpl; intros E; try discriminate; eauto.
Qed.

(** The sum of a column with no rows is zero, of its dtype. *)
Lemma series_sum_no_rows (c : column) :
  is_numeric c = true -> col_len c = 0 ->
  exists z, series_sum c = Ok z /\ (z = Int 0 \/ z = Flt fzero).
Proof.
  destruct c as [xs|xs|xs]; simpl; intros Hnum Hlen; try discriminate;
    apply length_zero_iff_nil in Hlen; subst xs; simpl.
  - exists (Flt fzero). rewrite float_sum_nil. auto.
  - exists (Int 0). auto.
Qed.

Lemma col_select_no_rows (mask : list bool) (c : column) :
  col_len c = 0 -> col_select mask c = c.
Proof.
  destruct c as [xs|xs|xs]; simpl; intros Hlen;
    apply length_zero_iff_nil in Hlen; subst xs; destruct mask; reflexivity.
Qed.

Lemma aggregate_no_rows (df : DataFrame) (texts : list string)
    (amount : column) (cats types : list string) :
  enriched df texts amount cats types ->
  empty df = true ->
  exists zero,
    (zero = Int 0 \/ zero = Flt fzero) /\
    aggregate df = Ok {| total_spent := zero; total_credited := zero; top_cat := "N/A" |}.
Proof.
  intros Hdf Hempty.
  pose proof Hdf as (Hwf & Hsms & Hamt & Hnum & Hcat & Hty).
  apply Nat.eqb_eq in Hempty.
  assert (Hlen : col_len amount = 0) by (rewrite (get_col_len _ _ Hwf Hamt); assumption).
  destruct (series_sum_no_rows amount Hnum Hlen) as (zero & Hsum & Hzero).
  exists zero. split; [assumption|].
  unfold aggregate.
  rewrite !(total_of_enriched _ Hdf), !col_select_no_rows, Hsum by assumption; cbn [bind].
  unfold top_category, empty. rewrite Hempty; reflexivity.
Qed.

(** C3: for every filter selection on a table of the pipeline, the filtered
    table exists, and when it has no row the aggregator returns (raising
    nothing) top category N/A and both totals zero; the pass then shows the
    three metrics and the notice that nothing matches. *)
Theorem aggregate_empty_selection (upload df : DataFrame)
    (selected_type selected_cat : list string) :
  well_formed upload = true ->
  pipeline upload = Ok df ->
  exists filtered_df,
    apply_filter selected_type selected_cat df = Ok filtered_df /\
    (empty filtered_df = true ->
     exists zero,
       (zero = Int 0 \/ zero = Flt fzero) /\
       aggregate filtered_df =
         Ok {| total_spent := zero; total_credited := zero; top_cat := "N/A" |} /\
       render filtered_df =
         Ok [Metric "💸 Total Spent" zero; Metric "💰 Total Credited" zero;
             MetricText "🏆 Top Category" "N/A"; Warning msg_no_match]).
Proof.
  intros Hwf Hrun.
  destruct (pipeline_enriched upload Hwf Hrun) as (sms & amounts & _ & _ & _ & Hdf).
  destruct (apply_filter_enriched selected_type selected_cat Hdf) as (Hfilter & Hlen).
  eexists; split; [exact Hfilter|].
  intros Hempty.
  destruct (aggregate_no_rows (enriched_select_rows _ Hdf Hlen) Hempty) as (zero & Hzero & Hagg).
  exists zero. split; [assumption|]. split; [assumption|].
  unfold render. rewrite Hagg; cbn [bind total_spent total_credited top_cat].
  rewrite Hempty; reflexivity.
Qed.

(** ** The savings advisor *)

Lemma positive_not_zero (a : num) : num_gt a (Int 0) = true -> num_is_zero a = false.
Proof.
  destruct a as [z|f]; simpl.
  - intros Hgt. apply Z.gtb_lt in Hgt. apply Z.eqb_neq. lia.
  - unfold fgt, feq, fzero.
    destruct (SFcompare f (S754_zero false)) as [[| |]|]; intros E;
      reflexivity || discriminate E.
Qed.

Lemma savings_ratio_guard_true (total_spent total_credited : num) :
  num_gt total_credited (Int 0) = true ->
  savings_ratio total_spent total_credited =
    Ok [Progress (fmin (fdiv (to_float total_spent) (to_float total_credited)) f1_0);
        Caption (fdiv (to_float total_spent) (to_float total_credited));
        advisory_band total_spent total_credited].
Proof.
  intros Hgt. unfold savings_ratio, truediv.
  rewrite Hgt, (positive_not_zero _ Hgt). reflexivity.
Qed.

Lemma savings_ratio_guard_false (total_spent total_credited : num) :
  num_gt total_credited (Int 0) = false ->
  savings_ratio total_spent total_credited = Ok [].
Proof.
  intros Hgt. unfold savings_ratio. rewrite Hgt. reflexivity.
Qed.

Lemma nzd_ok {A : Type} (a : A) : no_zero_division (Ok a).
Proof.
  discriminate.
Qed.

Lemma nzd_bind {A B : Type} (m : result A) (k : A -> result B) :
  no_zero_division m -> (forall a, no_zero_division (k a)) -> no_zero_division (bind m k).
Proof.
  unfold no_zero_division. destruct m as [a|e]; simpl; intros Hm Hk.
  - apply Hk.
  - intros [= ->]. apply Hm; reflexivity.
Qed.

Lemma nzd_traverse {A B : Type} (f : A -> result B) (xs : list A) :
  (forall x, no_zero_division (f x)) -> no_zero_division (traverse f xs).
Proof.
  intros Hf. induction xs as [|x xs IH]; simpl.
  - apply nzd_ok.
  - apply nzd_bind; [apply Hf|]. intros y.
    apply nzd_bind; [apply IH|]. intros ys. apply nzd_ok.
Qed.

Lemma nzd_get_col (name : string) (df : DataFrame) : no_zero_division (get_col name df).
Proof.
  induction df as [|[n c] df IH]; simpl; [discriminate|].
  destruct (String.eqb n name); [apply nzd_ok | exact IH].
Qed.

Lemma nzd_series_sum (c : column) : no_zero_division (series_sum c).
Proof.
  destruct c; simpl; discriminate.
Qed.

Lemma nzd_str_cells (c : column) : no_zero_division (str_cells c).
Proof.
  destruct c; simpl; try discriminate.
  apply nzd_traverse. intros [s|]; discriminate.
Qed.

Lemma nzd_py_float (s : string) : no_zero_division (py_float s).
Proof.
  unfold py_float. destruct (split_dot s) as [whole rest].
  match goal with |- context [if ?b then _ else _] => destruct b end; discriminate.
Qed.

#[local] Hint Resolve nzd_ok nzd_get_col nzd_series_sum nzd_str_cells nzd_py_float : nzd.

(** One step through a computation of the script: an operation already
    known not to divide, a bind, or a loop. *)
Ltac nzd_step :=
  first
    [ solve [auto with nzd nocore]
    | apply nzd_bind; [|intro]
    | apply nzd_traverse; intro ].

Ltac nzd := repeat nzd_step.

Lemma nzd_extract_amount (text : string) : no_zero_division (extract_amount text).
Proof.
  unfold extract_amount. destruct (search amount_pattern text) as [m|]; nzd.
Qed.

Lemma nzd_savings_ratio (total_spent total_credited : num) :
  no_zero_division (savings_ratio total_spent total_credited).
Proof.
  destruct (num_gt total_credited (Int 0)) eqn:Hgt.
  - rewrite savings_ratio_guard_true by assumption. nzd.
  - rewrite savings_ratio_guard_false by assumption. nzd.
Qed.

Lemma nzd_groupby_sum (key value : column) : no_zero_division (groupby_sum key value).
Proof.
  unfold groupby_sum. destruct key; try discriminate. nzd.
Qed.

Lemma nzd_idxmax (sums : list (string * num)) : no_zero_division (idxmax sums).
Proof.
  destruct sums; simpl; discriminate.
Qed.

#[local] Hint Resolve nzd_extract_amount nzd_savings_ratio nzd_groupby_sum nzd_idxmax : nzd.

Lemma nzd_aggregate (df : DataFrame) : no_zero_division (aggregate df).
Proof.
  unfold aggregate, total_of, top_category. nzd.
  destruct (negb (empty df)); nzd.
Qed.

#[local] Hint Resolve nzd_aggregate : nzd.

Lemma nzd_render (filtered_df : DataFrame) : no_zero_division (render filtered_df).
Proof.
  unfold render. nzd.
  destruct (negb (empty filtered_df)); nzd.
Qed.

Lemma nzd_pipeline (df : DataFrame) : no_zero_division (pipeline df).
Proof.
  unfold pipeline. nzd.
Qed.

#[local] Hint Resolve nzd_render nzd_pipeline : nzd.

(** C4: the ratio is computed exactly under the guard [total_credited > 0].
    Under the guard the divisor is not zero and the ratio, its progress bar
    and its band are produced; without it nothing of the advisor is
    produced and no division is evaluated; hence no pass of the script, on
    any upload and any selection, ends in a division by zero. *)
Theorem spend_ratio_guarded :
  (forall total_spent total_credited,
     num_gt total_credited (Int 0) = true ->
     num_is_zero total_credited = false /\
     truediv total_spent total_credited =
       Ok (fdiv (to_float total_spent) (to_float total_credited)) /\
     savings_ratio total_spent total_credited =
       Ok [Progress (fmin (fdiv (to_float total_spent) (to_float total_credited)) f1_0);
           Caption (fdiv (to_float total_spent) (to_float total_credited));
           advisory_band total_spent total_credited]) /\
  (forall total_spent total_credited,
     num_gt total_credited (Int 0) = false ->
     savings_ratio total_spent total_credited = Ok []) /\
  (forall total_spent total_credited,
     num_is_zero total_credited = true ->
     truediv total_spent total_credited = Raise ZeroDivisionError /\
     savings_ratio total_spent total_credited = Ok []) /\
  (forall filtered_df, render filtered_df <> Raise ZeroDivisionError) /\
  (forall upload selected_type selected_cat,
     dashboard upload selected_type selected_cat <> Raise ZeroDivisionError).
Proof.
  split; [|split; [|split; [|split]]].
  - intros spent credited Hgt. split; [|split].
    + apply positive_not_zero; assumption.
    + unfold truediv. rewrite positive_not_zero by assumption. reflexivity.
    + apply savings_ratio_guard_true; assumption.
  - intros spent credited. apply savings_ratio_guard_false.
  - intros spent credited Hzero. split.
    + unfold truediv. rewrite Hzero. reflexivity.
    + apply savings_ratio_guard_false.
      destruct (num_gt credited (Int 0)) eqn:Hgt; [|reflexivity].
      apply positive_not_zero in Hgt. congruence.
  - apply nzd_render.
  - intros upload selected_type selected_cat. unfold dashboard, apply_filter.
    nzd.
Qed.

(** The binary64 values of the literals 0.8, 0.6 and 1.0:
    0x1.999999999999ap-1, 0x1.3333333333333p-1 and 0x1p+0. *)
Lemma float_literals :
  f0_8 = S754_finite false 7205759403792794 (-53) /\
  f0_6 = S754_finite false 5404319552844595 (-53) /\
  f1_0 = S754_finite false 4503599627370496 (-52).
Proof.
  repeat split; vm_compute; reflexivity.
Qed.


(** ** The type tagger *)

Lemma startswith_spec (p s : string) :
  startswith p s = true <-> exists rest, s = p ++ rest.
Proof.
  revert s; induction p as [|a p IH]; intros s; simpl.
  - split; eauto.
  - destruct s as [|b s].
    + split; [discriminate | intros [rest E]; discriminate E].
    + rewrite andb_true_iff, IH. split.
      * intros [Hab [rest ->]]. apply Ascii.eqb_eq in Hab; subst b. eauto.
      * intros [rest [= -> ->]]. split; [apply Ascii.eqb_refl | eauto].
Qed.

Lemma contains_spec (sub s : string) :
  contains sub s = true <-> substring_of sub s.
Proof.
  unfold substring_of. induction s as [|c s IH].
  - simpl. rewrite orb_false_r, startswith_spec. split.
    + intros [rest E]. exists EmptyString, rest. exact E.
    + intros [[|b before] [after E]]; [eauto | discriminate E].
  - cbn [contains]. rewrite orb_true_iff, startswith_spec, IH. split.
    + intros [[rest E] | [before [after E]]].
      * exists EmptyString, rest. exact E.
      * exists (String c before), after. simpl. rewrite E. reflexivity.
    + intros [[|b before] [after E]].
      * left. eauto.
      * right. injection E as -> ->. eauto.
Qed.

Lemma any_in_spec (words : list string) (text : string) :
  any_in words text = true <-> exists k, In k words /\ substring_of k text.
Proof.
  unfold any_in. rewrite existsb_exists.
  split; intros [k [Hin Hk]]; exists k; split; auto; apply contains_spec; assumption.
Qed.

Lemma spec_lower_char_is_lower_char (c : ascii) : spec_lower_char c = lower_char c.
Proof.
  destruct c as [[] [] [] [] [] [] [] []]; reflexivity.
Qed.

Lemma spec_lower_is_lower (s : string) : spec_lower s = lower s.
Proof.
  induction s as [|c s IH]; simpl; [reflexivity|].
  rewrite spec_lower_char_is_lower_char, IH. reflexivity.
Qed.

(** C7: when one of debited, spent, purchase, paid, withdrawal occurs in the
    lower-cased text the answer is Debit, whatever else the text holds; with
    none of them, when one of credited, received, refund, deposit, salary
    occurs the answer is Credit; with neither, it is Unknown.  The
    lower-cased text is [spec_lower text], the table of the letters. *)
Theorem detect_type_priority (text : string) :
  ((exists k, In k ["debited"; "spent"; "purchase"; "paid"; "withdrawal"] /\
              substring_of k (spec_lower text)) ->
   detect_type text = "Debit") /\
  (~ (exists k, In k ["debited"; "spent"; "purchase"; "paid"; "withdrawal"] /\
                substring_of k (spec_lower text)) ->
   (exists k, In k ["credited"; "received"; "refund"; "deposit"; "salary"] /\
              substring_of k (spec_lower text)) ->
   detect_type text = "Credit") /\
  (~ (exists k, In k ["debited"; "spent"; "purchase"; "paid"; "withdrawal"] /\
                substring_of k (spec_lower text)) ->
   ~ (exists k, In k ["credited"; "received"; "refund"; "deposit"; "salary"] /\
                substring_of k (spec_lower text)) ->
   detect_type text = "Unknown").
Proof.
  rewrite spec_lower_is_lower.
  change ["debited"; "spent"; "purchase"; "paid"; "withdrawal"] with debit_keywords.
  change ["credited"; "received"; "refund"; "deposit"; "salary"] with credit_keywords.
  unfold detect_type; cbv zeta.
  rewrite <- !any_in_spec.
  destruct (any_in debit_keywords (lower text)), (any_in credit_keywords (lower text));
    repeat split; intros; try reflexivity; try congruence; exfalso; auto.
Qed.

Example detect_type_both_keywords :
  detect_type "salary credited but also spent on groceries" = "Debit".
Proof.
  reflexivity.
Qed.

(** ** A whole pass over an enriched table *)

Lemma traverse_total {A B : Type} (f : A -> result B) (xs : list A) :
  (forall x, In x xs -> exists y, f x = Ok y) -> exists ys, traverse f xs = Ok ys.
Proof.
  induction xs as [|x xs IH]; simpl; intros Hf; [eauto|].
  destruct (Hf x) as [y Ey]; [auto|]. rewrite Ey; cbn [bind].
  destruct IH as [ys Eys]; [auto|]. rewrite Eys; cbn [bind]. eauto.
Qed.

Lemma insert_key_not_nil (k : string) (keys : list string) : insert_key k keys <> [].
Proof.
  destruct keys as [|k' keys]; simpl; [discriminate|].
  destruct (String.eqb k k'); [discriminate|].
  destruct (String.ltb k k'); discriminate.
Qed.

Lemma group_keys_not_nil (cats : list string) :
  cats <> [] -> group_keys (map Some cats) <> [].
Proof.
  destruct cats as [|c cats]; [congruence|]. intros _. simpl. apply insert_key_not_nil.
Qed.

Lemma groupby_sum_numeric (cats : list string) (amount : column) :
  is_numeric amount = true ->
  exists sums,
    groupby_sum (str_column cats) amount = Ok sums /\
    length sums = length (group_keys (map Some cats)).
Proof.
  intros Hnum. unfold groupby_sum, str_column.
  match goal with
  | |- exists sums, traverse ?f ?keys = _ /\ _ =>
      destruct (traverse_total f keys) as [sums Hsums]
  end.
  - intros k _.
    destruct (series_sum_numeric (col_select (eq_str (ObjCol (map Some cats)) k) amount))
      as [v Hv]; [rewrite is_numeric_select; assumption|].
    rewrite Hv; cbn [bind]; eauto.
  - exists sums. split; [assumption|]. eapply traverse_length; eassumption.
Qed.

Lemma top_category_enriched (df : DataFrame) (texts : list string)
    (amount : column) (cats types : list string) :
  enriched df texts amount cats types ->
  exists top, top_category df = Ok top.
Proof.
  intros (Hwf & Hsms & Hamt & Hnum & Hcat & Hty).
  unfold top_category. destruct (empty df) eqn:Hempty; cbn [negb]; [eauto|].
  rewrite Hcat, Hamt; cbn [bind].
  destruct (groupby_sum_numeric cats amount Hnum) as (sums & Hsums & Hlen).
  rewrite Hsums; cbn [bind].
  destruct sums as [|kv sums]; [|simpl; eauto].
  symmetry in Hlen. apply length_zero_iff_nil in Hlen.
  exfalso. revert Hlen. apply group_keys_not_nil.
  intros ->. apply Nat.eqb_neq in Hempty. apply Hempty.
  rewrite <- (get_col_len _ _ Hwf Hcat). reflexivity.
Qed.

Lemma select_columns_enriched (df : DataFrame) (texts : list string)
    (amount : column) (cats types : list string) :
  enriched df texts amount cats types ->
  select_columns ["SMS"; "Amount"; "Type"; "Predicted_Category"] df =
    Ok [("SMS", str_column texts); ("Amount", amount);
        ("Type", str_column types); ("Predicted_Category", str_column cats)].
Proof.
  intros (Hwf & Hsms & Hamt & Hnum & Hcat & Hty).
  unfold select_columns; cbn [traverse].
  rewrite Hsms, Hamt, Hty, Hcat. reflexivity.
Qed.

(** On an enriched table the pass raises nothing: the metrics come first,
    then, when the table has rows, what the advisor says, the advice for the
    top category, the table and the export. *)
Lemma render_enriched (df : DataFrame) (texts : list string)
    (amount : column) (cats types : list string) :
  enriched df texts amount cats types ->
  exists spent credited top advisor,
    series_sum (col_select (eq_str (str_column types) "Debit") amount) = Ok spent /\
    series_sum (col_select (eq_str (str_column types) "Credit") amount) = Ok credited /\
    savings_ratio spent credited = Ok advisor /\
    render df =
      Ok ([Metric "💸 Total Spent" spent; Metric "💰 Total Credited" credited;
           MetricText "🏆 Top Category" top] ++
          (if negb (empty df)
           then advisor ++
                [Info (category_advice top);
                 Dataframe [("SMS", str_column texts); ("Amount", amount);
                            ("Type", str_column types);
                            ("Predicted_Category", str_column cats)];
                 DownloadButton "categorized_transactions.csv" (to_csv df)]
           else [Warning msg_no_match]))%list.
Proof.
  intros Hdf. pose proof Hdf as (Hwf & Hsms & Hamt & Hnum & Hcat & Hty).
  destruct (series_sum_numeric (col_select (eq_str (str_column types) "Debit") amount))
    as [spent Hspent]; [rewrite is_numeric_select; assumption|].
  destruct (series_sum_numeric (col_select (eq_str (str_column types) "Credit") amount))
    as [credited Hcredited]; [rewrite is_numeric_select; assumption|].
  destruct (top_category_enriched Hdf) as [top Htop].
  assert (Hadv : exists advisor, savings_ratio spent credited = Ok advisor).
  { destruct (num_gt credited (Int 0)) eqn:Hgt.
    - rewrite savings_ratio_guard_true by assumption. eauto.
    - rewrite savings_ratio_guard_false by assumption. eauto. }
  destruct Hadv as [advisor Hadv].
  exists spent, credited, top, advisor.
  split; [assumption|]. split; [assumption|]. split; [assumption|].
  unfold render, aggregate.
  rewrite !(total_of_enriched _ Hdf), Hspent, Hcredited, Htop;
    cbn [bind total_spent total_credited top_cat].
  destruct (negb (empty df)); [|reflexivity].
  rewrite Hadv, (select_columns_enriched Hdf). reflexivity.
Qed.

(** ** The degraded case: no row has an amount *)

Lemma select_Forall {A : Type} (P : A -> Prop) (mask : list bool) (xs : list A) :
  Forall P xs -> Forall P (select mask xs).
Proof.
  intros Hxs; revert mask; induction Hxs as [|x xs Hx Hxs IH]; intros [|b mask]; simpl; auto.
  destruct b; auto.
Qed.

Lemma sum_of_zeros (zs : list Z) : Forall (eq 0%Z) zs -> fold_left Z.add zs 0%Z = 0%Z.
Proof.
  induction 1 as [|z zs <- Hzs IH]; simpl; auto.
Qed.

Lemma repeat_Forall {A : Type} (x : A) (n : nat) : Forall (eq x) (repeat x n).
Proof.
  induction n; simpl; auto.
Qed.

Lemma series_sum_zeros (zs : list Z) :
  Forall (eq 0%Z) zs -> series_sum (I64Col zs) = Ok (Int 0).
Proof.
  intros Hzs. simpl. rewrite sum_of_zeros by assumption. reflexivity.
Qed.

Lemma traverse_all_none (texts : list string) :
  Forall (fun text => extract_amount text = Ok None) texts ->
  traverse extract_amount texts = Ok (map (fun _ => None) texts).
Proof.
  intros Hnone. apply traverse_ok_map. apply Forall_forall. assumption.
Qed.

Lemma all_none_map {A B : Type} (xs : list A) :
  all (map is_none (map (fun _ => @None B) xs)) = true.
Proof.
  induction xs; simpl; auto.
Qed.

Lemma category_advice_not_band (top : string) :
  String.eqb (category_advice top) msg_60_80 = false.
Proof.
  unfold category_advice.
  repeat match goal with |- context [if ?b then _ else _] => destruct b end;
    vm_compute; reflexivity.
Qed.

(** C10: when the extractor finds no amount on any row, the pipeline
    returns a table whose Amount column is 0 on every row; for every
    selection both totals are the integer 0, the guard of the advisor fails,
    and the pass puts no progress bar, no ratio and no band message on the
    page. *)
Theorem degraded_data_no_ratio (upload : DataFrame) (sms : column)
    (selected_type selected_cat : list string) :
  well_formed upload = true ->
  get_col "SMS" upload = Ok sms ->
  Forall (fun raw => extract_amount (normalize raw) = Ok None) (astype_str sms) ->
  exists df filtered_df widgets,
    pipeline upload = Ok df /\
    nrows df = nrows upload /\
    get_col "Amount" df = Ok (I64Col (repeat 0%Z (nrows upload))) /\
    apply_filter selected_type selected_cat df = Ok filtered_df /\
    total_of "Debit" filtered_df = Ok (Int 0) /\
    total_of "Credit" filtered_df = Ok (Int 0) /\
    num_gt (Int 0) (Int 0) = false /\
    savings_ratio (Int 0) (Int 0) = Ok [] /\
    dashboard upload selected_type selected_cat = Ok widgets /\
    Forall (fun w => is_ratio_widget w = false) widgets.
Proof.
  intros Hwf Hsms Hnone.
  assert (Hamounts : traverse extract_amount (map normalize (astype_str sms)) =
                     Ok (map (fun _ => None) (map normalize (astype_str sms)))).
  { apply traverse_all_none. apply Forall_map. assumption. }
  pose proof (pipeline_closed_form upload Hsms) as Hrun.
  rewrite Hamounts in Hrun; cbn [bind] in Hrun.
  destruct (pipeline_enriched upload Hwf Hrun) as (sms' & amounts & Hsms' & Hamounts' & _ & Hdf).
  rewrite Hsms in Hsms'; injection Hsms' as <-.
  rewrite Hamounts in Hamounts'; injection Hamounts' as <-.
  rewrite all_none_map in Hdf.
  set (df := enrich _ _) in *.
  assert (Hamt0 : get_col "Amount" df = Ok (I64Col (repeat 0%Z (nrows upload))))
    by apply Hdf.
  assert (Hrows : nrows df = nrows upload).
  { destruct Hdf as (Hwf' & _ & Hamt & _).
    rewrite <- (get_col_len _ _ Hwf' Hamt). simpl. apply repeat_length. }
  destruct (apply_filter_enriched selected_type selected_cat Hdf) as (Hfilter & Hlen).
  pose proof (enriched_select_rows _ Hdf Hlen) as Hfdf.
  destruct (render_enriched Hfdf) as (spent & credited & top & advisor & Hs & Hc & Hadv & Hrender).
  cbn [col_select] in Hs, Hc.
  rewrite (series_sum_zeros (select_Forall _ (select_Forall _ (repeat_Forall 0%Z _)))) in Hs.
  rewrite (series_sum_zeros (select_Forall _ (select_Forall _ (repeat_Forall 0%Z _)))) in Hc.
  injection Hs as <-. injection Hc as <-.
  change (savings_ratio (Int 0) (Int 0)) with (@Ok (list widget) []) in Hadv.
  injection Hadv as <-.
  eexists df, _, _.
  split; [exact Hrun|]. split; [exact Hrows|]. split; [exact Hamt0|].
  split; [exact Hfilter|].
  rewrite !(total_of_enriched _ Hfdf). cbn [col_select].
  rewrite (series_sum_zeros (select_Forall _ (select_Forall _ (repeat_Forall 0%Z _)))).
  rewrite (series_sum_zeros (select_Forall _ (select_Forall _ (repeat_Forall 0%Z _)))).
  do 4 (split; [reflexivity|]).
  split.
  - unfold dashboard. rewrite Hrun; cbn [bind]. rewrite Hfilter; cbn [bind]. exact Hrender.
  - repeat constructor.
    destruct (negb (empty _)); repeat constructor.
    simpl. apply category_advice_not_band.
Qed.

(** ** The text the page and the export show *)





Lemma select_all {A B : Type} (ys : list B) (xs : list A) :
  length ys = length xs -> select (map (fun _ => true) ys) xs = xs.
Proof.
  revert xs; induction ys as [|y ys IH]; intros [|x xs]; simpl; try discriminate; auto.
  intros [= E]. rewrite IH; auto.
Qed.








(** ** The export's columns *)

Lemma columns_set_col (name : string) (c : column) (df : DataFrame) :
  columns (set_col name c df) = add_column name (columns df).
Proof.
  unfold add_column, columns. induction df as [|[n c0] df IH]; simpl; [reflexivity|].
  rewrite (String.eqb_sym name n).
  destruct (String.eqb n name) eqn:E; simpl; [reflexivity|].
  rewrite IH. destruct (existsb (String.eqb name) (map fst df)); reflexivity.
Qed.

(** The header of the export is the columns of the frame: the upload's own
    columns in their order, then Amount, Predicted_Category and Type, each at
    the end unless the upload had a column of that name. *)
Lemma export_header (upload df filtered_df : DataFrame)
    (selected_type selected_cat : list string) :
  pipeline upload = Ok df ->
  apply_filter selected_type selected_cat df = Ok filtered_df ->
  hd [] (to_csv filtered_df) =
    add_column "Type" (add_column "Predicted_Category" (add_column "Amount" (columns upload))).
Proof.
  intros Hrun Hfilter.
  destruct (get_col "SMS" upload) as [sms|e] eqn:Hsms;
    [|unfold pipeline in Hrun; rewrite Hsms in Hrun; discriminate].
  rewrite (pipeline_closed_form upload Hsms) in Hrun.
  apply bind_ok in Hrun as (amounts & _ & [= <-]).
  unfold apply_filter in Hfilter.
  apply bind_ok in Hfilter as (ty & _ & Hfilter).
  apply bind_ok in Hfilter as (cat & _ & [= <-]).
  unfold to_csv; cbn [hd]. rewrite columns_select_rows.
  unfold enrich. rewrite !columns_set_col. do 2 f_equal.
  assert (Hsame : add_column "SMS" (columns upload) = columns upload).
  { unfold add_column.
    replace (existsb (String.eqb "SMS") (columns upload)) with true; [reflexivity|].
    symmetry. apply existsb_exists. exists "SMS". split; [|reflexivity].
    apply get_col_In in Hsms. apply (in_map fst) in Hsms. exact Hsms. }
  unfold with_amounts; cbv zeta.
  destruct (all (map is_none amounts)).
  - rewrite !columns_set_col, Hsame. unfold add_column at 1.
    replace (existsb (String.eqb "Amount") (add_column "Amount" (columns upload))) with true;
      [reflexivity|].
    symmetry. unfold add_column.
    destruct (existsb (String.eqb "Amount") (columns upload)) eqn:E; [assumption|].
    rewrite existsb_app, E. reflexivity.
  - rewrite columns_select_rows, !columns_set_col, Hsame. reflexivity.
Qed.

(** ** The default selection *)

Lemma unique_In (x : string) (values : list string) : In x (unique values) <-> In x values.
Proof.
  induction values as [|v values IH]; simpl; [tauto|].
  rewrite filter_In, IH. split.
  - intros [E|[Hin _]]; auto.
  - intros [E|Hin]; [auto|].
    destruct (String.eqb x v) eqn:Exv.
    + apply String.eqb_eq in Exv. auto.
    + right. split; [assumption | reflexivity].
Qed.

Lemma unique_NoDup (values : list string) : NoDup (unique values).
Proof.
  induction values as [|v values IH]; simpl; constructor.
  - rewrite filter_In. intros [_ E]. rewrite String.eqb_refl in E. discriminate E.
  - apply NoDup_filter. exact IH.
Qed.

Lemma isin_unique (values : list string) :
  isin (str_column values) (unique values) = map (fun _ => true) values.
Proof.
  unfold str_column; cbn [isin]. rewrite map_map. apply map_ext_in.
  intros v Hv. apply existsb_exists. exists v. split.
  - apply unique_In. exact Hv.
  - apply String.eqb_refl.
Qed.

Lemma mask_and_all {A B : Type} (xs : list A) (ys : list B) :
  length xs = length ys ->
  mask_and (map (fun _ => true) xs) (map (fun _ => true) ys) = map (fun _ => true) xs.
Proof.
  revert ys; induction xs as [|x xs IH]; intros [|y ys]; simpl; try discriminate; auto.
  intros [= E]. rewrite IH by assumption. reflexivity.
Qed.

Lemma col_select_all {A : Type} (xs : list A) (c : column) :
  length xs = col_len c -> col_select (map (fun _ => true) xs) c = c.
Proof.
  destruct c; simpl; intros E; rewrite select_all by assumption; reflexivity.
Qed.

Lemma select_rows_all {A : Type} (xs : list A) (df : DataFrame) :
  well_formed df = true -> length xs = nrows df ->
  select_rows (map (fun _ => true) xs) df = df.
Proof.
  intros Hwf Hlen. unfold select_rows.
  rewrite <- (map_id df) at 2. apply map_ext_in.
  intros [n c] Hin; simpl. rewrite col_select_all; [reflexivity|].
  rewrite Hlen. symmetry. apply (proj1 (well_formed_spec df) Hwf n c Hin).
Qed.

Lemma default_selection_enriched (df : DataFrame) (texts : list string) (amount : column)
    (cats types : list string) :
  enriched df texts amount cats types ->
  default_selection df = Ok (unique types, unique cats).
Proof.
  intros (Hwf & Hsms & Hamt & Hnum & Hcat & Hty).
  unfold default_selection.
  rewrite Hty, Hcat; cbn [bind]. rewrite !str_cells_str_column. reflexivity.
Qed.

Lemma apply_filter_default (df : DataFrame) (texts : list string) (amount : column)
    (cats types : list string) :
  enriched df texts amount cats types ->
  apply_filter (unique types) (unique cats) df = Ok df.
Proof.
  intros Hdf. pose proof Hdf as (Hwf & Hsms & Hamt & Hnum & Hcat & Hty).
  destruct (apply_filter_enriched (unique types) (unique cats) Hdf) as (-> & Hlen).
  unfold filter_mask in *. rewrite !isin_unique in *.
  pose proof (get_col_len _ _ Hwf Hty) as Lt. rewrite str_column_len in Lt.
  pose proof (get_col_len _ _ Hwf Hcat) as Lc. rewrite str_column_len in Lc.
  rewrite mask_and_all by congruence.
  rewrite select_rows_all; [reflexivity | assumption | assumption].
Qed.

(** On every table the pipeline returns, the options of the two
    multiselects are the types and the categories of the table, each once
    and in the order of first appearance, and the selection that takes them
    all (the default) filters nothing out. *)
Theorem default_selection_keeps_every_row (upload df : DataFrame) :
  well_formed upload = true ->
  pipeline upload = Ok df ->
  exists cats types,
    get_col "Predicted_Category" df = Ok (str_column cats) /\
    get_col "Type" df = Ok (str_column types) /\
    default_selection df = Ok (unique types, unique cats) /\
    NoDup (unique types) /\ NoDup (unique cats) /\
    (forall t, In t (unique types) <-> In t types) /\
    (forall c, In c (unique cats) <-> In c cats) /\
    apply_filter (unique types) (unique cats) df = Ok df.
Proof.
  intros Hwf Hrun.
  destruct (pipeline_enriched upload Hwf Hrun) as (sms & amounts & _ & _ & _ & Hdf).
  eexists _, _.
  split; [apply Hdf|]. split; [apply Hdf|].
  split; [apply (default_selection_enriched Hdf)|].
  split; [apply unique_NoDup|]. split; [apply unique_NoDup|].
  split; [intros t; apply unique_In|]. split; [intros c; apply unique_In|].
  apply (apply_filter_default Hdf).
Qed.

(** ** A whole run of the script *)

Lemma traverse_raise {A B : Type} (f : A -> result B) (xs : list A) (e : exn) :
  traverse f xs = Raise e -> exists x, In x xs /\ f x = Raise e.
Proof.
  induction xs as [|x xs IH]; simpl; [discriminate|].
  destruct (f x) as [y|e'] eqn:Ex; cbn [bind].
  - destruct (traverse f xs) as [ys|e'']; cbn [bind]; [discriminate|].
    intros [= ->]. destruct IH as (x' & Hin & Hx'); [reflexivity|]. eauto.
  - intros [= ->]. eauto.
Qed.

Lemma traverse_ok_In {A B : Type} (f : A -> result B) (xs : list A) (ys : list B) (x : A) :
  traverse f xs = Ok ys -> In x xs -> exists y, f x = Ok y.
Proof.
  revert ys; induction xs as [|x' xs IH]; simpl; intros ys E Hin; [contradiction|].
  apply bind_ok in E as (y & Ey & E).
  apply bind_ok in E as (ys' & Eys & _).
  destruct Hin as [->|Hin]; eauto.
Qed.

Lemma py_float_raises (s : string) (e : exn) : py_float s = Raise e -> e = ValueError.
Proof.
  unfold py_float. destruct (split_dot s) as [whole rest].
  match goal with |- context [if ?b then _ else _] => destruct b end; congruence.
Qed.

Lemma extract_amount_raises_value_error (text : string) (e : exn) :
  extract_amount text = Raise e -> e = ValueError.
Proof.
  unfold extract_amount. destruct (search amount_pattern text) as [m|]; [|discriminate].
  destruct (py_float _) as [v|e'] eqn:Ev; cbn [bind]; [discriminate|].
  intros [= <-]. eapply py_float_raises; eassumption.
Qed.

Lemma has_column (name : string) (df : DataFrame) :
  existsb (String.eqb name) (columns df) = true <-> exists c, get_col name df = Ok c.
Proof.
  induction df as [|[n c] df IH]; simpl.
  - split; [discriminate | intros [c [=]]].
  - rewrite (String.eqb_sym name n). destruct (String.eqb n name); simpl; [|exact IH].
    split; eauto.
Qed.

Lemma no_column (name : string) (df : DataFrame) :
  existsb (String.eqb name) (columns df) = false <-> get_col name df = Raise KeyError.
Proof.
  induction df as [|[n c] df IH]; simpl.
  - split; reflexivity.
  - rewrite (String.eqb_sym name n). destruct (String.eqb n name); simpl; [|exact IH].
    split; discriminate.
Qed.

(** Neither notice of the pipeline is among the widgets of a render pass. *)
Lemma render_has_no_notice (df : DataFrame) (texts : list string)
    (amount : column) (cats types : list string) (widgets : list widget) :
  enriched df texts amount cats types ->
  render df = Ok widgets ->
  ~ In (Warning msg_no_amounts) widgets /\ ~ In (Success msg_analyzed) widgets.
Proof.
  intros Hdf Hrender.
  destruct (render_enriched Hdf) as (spent & credited & top & advisor & _ & _ & Hadv & E).
  rewrite E in Hrender. injection Hrender as <-.
  assert (Hnot : ~ In (Warning msg_no_amounts) advisor /\ ~ In (Success msg_analyzed) advisor).
  { destruct (num_gt credited (Int 0)) eqn:Hgt.
    - rewrite savings_ratio_guard_true in Hadv by assumption. injection Hadv as <-.
      unfold advisory_band.
      repeat match goal with |- context [if ?b then _ else _] => destruct b end;
        split; simpl; intros [F|[F|[F|[]]]]; discriminate F.
    - rewrite savings_ratio_guard_false in Hadv by assumption. injection Hadv as <-.
      split; intros []. }
  destruct Hnot as (Hwarn & Hsucc).
  destruct (negb (empty df)); split; intros F;
    destruct F as [F|[F|[F|F]]]; try discriminate F;
    try (apply in_app_or in F; destruct F as [F|F]; [tauto|]);
    simpl in F; repeat (destruct F as [F|F]; try discriminate F); exact F.
Qed.

(** The page of a run on a table with an SMS column, when the extractor
    returns on every row. *)
Lemma script_on_a_table (upload : DataFrame) (choice : option (list string * list string))
    (sms : column) (amounts : list (option float)) :
  well_formed upload = true ->
  get_col "SMS" upload = Ok sms ->
  traverse extract_amount (map normalize (astype_str sms)) = Ok amounts ->
  exists df chosen filtered_df widgets,
    pipeline upload = Ok df /\
    selection choice df = Ok chosen /\
    apply_filter (fst chosen) (snd chosen) df = Ok filtered_df /\
    render filtered_df = Ok widgets /\
    ~ In (Warning msg_no_amounts) widgets /\
    ~ In (Success msg_analyzed) widgets /\
    script (Table upload) choice =
      Ok ([Show (Success ("✅ File uploaded successfully! " ++ nat_repr (nrows upload)
                          ++ " records loaded."))] ++
          (if all (map is_none amounts) then [Show (Warning msg_no_amounts)] else []) ++
          [Show (Success msg_analyzed)] ++ map Show widgets)%list.
Proof.
  intros Hwf Hsms Hamounts.
  assert (Hrun : pipeline upload =
                 Ok (enrich (kept_texts (map normalize (astype_str sms)) amounts)
                            (with_amounts (map normalize (astype_str sms)) amounts upload))).
  { rewrite (pipeline_closed_form upload Hsms), Hamounts. reflexivity. }
  destruct (pipeline_enriched upload Hwf Hrun) as (sms' & amounts' & _ & _ & _ & Hdf).
  set (df := enrich _ _) in *. clearbody df.
  assert (Hsel : exists chosen, selection choice df = Ok chosen).
  { destruct choice as [chosen|]; simpl; [eauto|].
    rewrite (default_selection_enriched Hdf). eauto. }
  destruct Hsel as [chosen Hsel].
  destruct (apply_filter_enriched (fst chosen) (snd chosen) Hdf) as (Hfilter & Hlen).
  destruct (render_enriched (enriched_select_rows _ Hdf Hlen))
    as (spent & credited & top & advisor & _ & _ & _ & Hrender).
  eexists df, chosen, _, _.
  split; [assumption|]. split; [assumption|]. split; [exact Hfilter|].
  split; [exact Hrender|].
  destruct (render_has_no_notice (enriched_select_rows _ Hdf Hlen) Hrender) as (Hwarn & Hsucc).
  split; [exact Hwarn|]. split; [exact Hsucc|].
  unfold script, load_upload, no_amounts.
  rewrite (proj2 (has_column "SMS" upload)) by eauto.
  rewrite Hrun; cbn [bind]. rewrite Hsms; cbn [bind]. rewrite Hamounts; cbn [bind].
  rewrite Hsel; cbn [bind]. rewrite Hfilter; cbn [bind]. rewrite Hrender; cbn [bind].
  reflexivity.
Qed.

Lemma astype_str_str_column (texts : list string) : astype_str (str_column texts) = texts.
Proof.
  unfold str_column; simpl. rewrite map_map. apply map_id.
Qed.

Lemma aggregate_enriched (df : DataFrame) (texts : list string)
    (amount : column) (cats types : list string) :
  enriched df texts amount cats types -> exists agg, aggregate df = Ok agg.
Proof.
  intros Hdf. pose proof Hdf as (_ & _ & _ & Hnum & _ & _).
  destruct (series_sum_numeric (col_select (eq_str (str_column types) "Debit") amount))
    as [spent Hspent]; [rewrite is_numeric_select; assumption|].
  destruct (series_sum_numeric (col_select (eq_str (str_column types) "Credit") amount))
    as [credited Hcredited]; [rewrite is_numeric_select; assumption|].
  destruct (top_category_enriched Hdf) as [top Htop].
  unfold aggregate.
  rewrite !(total_of_enriched _ Hdf), Hspent, Hcredited, Htop; cbn [bind]. eauto.
Qed.

(** What a run computes before it draws (the pipeline, the selection, the
    filter, the key metrics; the classifier and the sums taken as total), on
    an upload whose SMS cells are all present and made of ASCII characters
    and rupee signs: it raises nothing but ValueError, and raises it exactly
    when the extractor raises on the normalised text of a row.  In
    particular no KeyError and no TypeError comes from the columns the
    pipeline adds, and no exception from an empty selection. *)
Theorem analysis_raises_only_on_a_bad_amount (upload : DataFrame)
    (choice : option (list string * list string)) (texts : list string) :
  well_formed upload = true ->
  get_col "SMS" upload = Ok (str_column texts) ->
  forallb plain texts = true ->
  (forall e, analysis upload choice = Raise e -> e = ValueError) /\
  (analysis upload choice = Raise ValueError <->
   exists text, In text texts /\ extract_amount (normalize text) = Raise ValueError) /\
  ((forall text, In text texts -> extract_amount (normalize text) <> Raise ValueError) ->
   exists agg, analysis upload choice = Ok agg).
Proof.
  intros Hwf Hsms _.
  pose proof (pipeline_closed_form upload Hsms) as Hrun.
  rewrite astype_str_str_column in Hrun.
  destruct (traverse extract_amount (map normalize texts)) as [amounts|e1] eqn:Hamounts;
    cbn [bind] in Hrun.
  - destruct (pipeline_enriched upload Hwf Hrun) as (sms' & amounts' & _ & _ & _ & Hdf).
    assert (Hok : exists agg, analysis upload choice = Ok agg).
    { unfold analysis. rewrite Hrun; cbn [bind].
      match goal with |- context [selection choice ?d] => set (df := d) in * end.
      clearbody df.
      assert (Hsel : exists chosen, selection choice df = Ok chosen).
      { destruct choice as [chosen|]; simpl; [eauto|].
        rewrite (default_selection_enriched Hdf). eauto. }
      destruct Hsel as [chosen Hsel]. rewrite Hsel; cbn [bind].
      destruct (apply_filter_enriched (fst chosen) (snd chosen) Hdf) as (Hfilter & Hlen).
      rewrite Hfilter; cbn [bind].
      apply (aggregate_enriched (enriched_select_rows _ Hdf Hlen)). }
    destruct Hok as [agg Hok]. rewrite Hok.
    split; [discriminate|]. split; [|eauto].
    split; [discriminate|].
    intros (text & Hin & Hraise).
    destruct (traverse_ok_In _ _ (normalize text) Hamounts (in_map normalize _ _ Hin))
      as [y Hy].
    congruence.
  - assert (Hraise : analysis upload choice = Raise e1)
      by (unfold analysis; rewrite Hrun; reflexivity).
    destruct (traverse_raise _ _ Hamounts) as (text' & Hin & Hraise').
    pose proof (extract_amount_raises_value_error _ Hraise') as ->.
    apply in_map_iff in Hin as (text & <- & Hin).
    rewrite Hraise.
    split; [intros e [= <-]; reflexivity|].
    split; [split; [eauto | reflexivity]|].
    intros Hnone. destruct (Hnone text Hin Hraise').
Qed.

(** ** The columns of the table the pipeline returns *)

Lemma detect_type_values (text : string) :
  detect_type text = "Debit" \/ detect_type text = "Credit" \/ detect_type text = "Unknown".
Proof.
  unfold detect_type.
  destruct (any_in debit_keywords (lower text)); [auto|].
  destruct (any_in credit_keywords (lower text)); auto.
Qed.

Lemma nrows_enriched (df : DataFrame) (texts : list string) (amount : column)
    (cats types : list string) :
  enriched df texts amount cats types ->
  nrows df = length texts /\ nrows df = length cats /\ nrows df = length types /\
  nrows df = col_len amount.
Proof.
  intros (Hwf & Hsms & Hamt & Hnum & Hcat & Hty).
  pose proof (get_col_len _ _ Hwf Hsms) as Ls.
  pose proof (get_col_len _ _ Hwf Hcat) as Lc.
  pose proof (get_col_len _ _ Hwf Hty) as Lt.
  pose proof (get_col_len _ _ Hwf Hamt) as La.
  rewrite str_column_len in Ls, Lc, Lt. auto.
Qed.

(** Every table the pipeline returns is well formed and has the four
    columns of the analysis: no cell of Amount is missing, and each row has
    the category the classifier gives its text and the type [detect_type]
    gives it, one of Debit, Credit and Unknown. *)
Theorem pipeline_table_invariants (upload df : DataFrame) :
  well_formed upload = true ->
  pipeline upload = Ok df ->
  exists texts amount,
    well_formed df = true /\
    nrows df = length texts /\
    get_col "SMS" df = Ok (str_column texts) /\
    get_col "Amount" df = Ok amount /\
    is_numeric amount = true /\
    existsb (fun missing => missing) (isna amount) = false /\
    get_col "Predicted_Category" df = Ok (str_column (predict texts)) /\
    get_col "Type" df = Ok (str_column (map detect_type texts)) /\
    Forall (fun type => type = "Debit" \/ type = "Credit" \/ type = "Unknown")
           (map detect_type texts).
Proof.
  intros Hwf Hrun.
  destruct (pipeline_enriched upload Hwf Hrun) as (sms & amounts & _ & _ & _ & Hdf).
  destruct (nrows_enriched Hdf) as (Ls & _).
  destruct Hdf as (Hwf' & Hsms & Hamt & Hnum & Hcat & Hty).
  eexists _, _.
  split; [exact Hwf'|]. split; [exact Ls|].
  split; [exact Hsms|]. split; [exact Hamt|]. split; [exact Hnum|].
  split; [|split; [exact Hcat|split; [exact Hty|]]].
  - clear. destruct (all (map is_none amounts)); cbn [isna].
    + induction (repeat 0%Z (nrows upload)); simpl; auto.
    + induction (present amounts); simpl; auto.
  - apply Forall_forall. intros type Hin.
    apply in_map_iff in Hin as (text & <- & _). apply detect_type_values.
Qed.

Lemma pipeline_mask_all_none (amounts : list (option float)) :
  all (map is_none amounts) = true -> pipeline_mask amounts = map (fun _ => true) amounts.
Proof.
  unfold pipeline_mask. intros ->. reflexivity.
Qed.

(** A column of the upload the pipeline does not assign passes through: the
    table the pipeline returns has it under the same name, with the cells of
    the rows that were kept (all of them when no row has an amount). *)
Theorem pipeline_keeps_other_columns (upload df : DataFrame) (name : string) :
  well_formed upload = true ->
  pipeline upload = Ok df ->
  name <> "SMS" -> name <> "Amount" -> name <> "Predicted_Category" -> name <> "Type" ->
  exists sms amounts,
    get_col "SMS" upload = Ok sms /\
    traverse extract_amount (map normalize (astype_str sms)) = Ok amounts /\
    get_col name df =
      (c <- get_col name upload ;; Ok (col_select (pipeline_mask amounts) c)).
Proof.
  intros Hwf Hrun Hsms Hamt Hcat Hty.
  destruct (pipeline_enriched upload Hwf Hrun) as (sms & amounts & Hget & Hamounts & -> & _).
  exists sms, amounts. split; [assumption|]. split; [assumption|].
  unfold enrich. rewrite !get_col_set_col_other by congruence.
  unfold with_amounts, pipeline_mask; cbv zeta.
  destruct (all (map is_none amounts)) eqn:Hall.
  - rewrite !get_col_set_col_other by congruence.
    destruct (get_col name upload) as [c|e] eqn:Hc; cbn [bind]; [|reflexivity].
    rewrite col_select_all; [reflexivity|].
    rewrite (get_col_len _ _ Hwf Hc), (traverse_length _ _ Hamounts).
    rewrite length_map, astype_str_length. apply (get_col_len _ _ Hwf Hget).
  - rewrite get_col_select_rows, !get_col_set_col_other by congruence. reflexivity.
Qed.

(** ** The rows the sidebar filter keeps *)

Lemma select_filter_mask (selected_type selected_cat : list string) (cats types : list string) :
  length types = length cats ->
  let keep := fun tc : string * string =>
                existsb (String.eqb (fst tc)) selected_type &&
                existsb (String.eqb (snd tc)) selected_cat in
  select (filter_mask selected_type selected_cat cats types) types =
    map fst (filter keep (combine types cats)) /\
  select (filter_mask selected_type selected_cat cats types) cats =
    map snd (filter keep (combine types cats)).
Proof.
  intros Hlen keep. subst keep. unfold filter_mask, str_column; cbn [isin]. rewrite !map_map.
  revert cats Hlen; induction types as [|t types IH]; intros [|c cats]; simpl;
    try discriminate; [auto|].
  intros [= Hlen]. destruct (IH cats Hlen) as (IHt & IHc).
  destruct (existsb (String.eqb t) selected_type && existsb (String.eqb c) selected_cat);
    simpl; rewrite IHt, IHc; auto.
Qed.

Lemma filter_mask_kept (selected_type selected_cat : list string)
    (rows : list (string * string)) :
  Forall (fun tc => existsb (String.eqb (fst tc)) selected_type &&
                    existsb (String.eqb (snd tc)) selected_cat = true) rows ->
  filter_mask selected_type selected_cat (map snd rows) (map fst rows) =
    map (fun _ => true) rows.
Proof.
  unfold filter_mask, str_column; cbn [isin]. rewrite !map_map.
  induction 1 as [|[t c] rows Hrow Hrows IH]; simpl; [reflexivity|].
  simpl in Hrow. rewrite Hrow, IH. reflexivity.
Qed.

(** The sidebar filter keeps, in order, exactly the rows whose type is among
    the selected types and whose category is among the selected categories;
    filtering its result again with the same selection changes nothing. *)
Theorem filter_keeps_the_selected (upload df filtered_df : DataFrame)
    (selected_type selected_cat : list string) :
  well_formed upload = true ->
  pipeline upload = Ok df ->
  apply_filter selected_type selected_cat df = Ok filtered_df ->
  exists cats types,
    get_col "Predicted_Category" df = Ok (str_column cats) /\
    get_col "Type" df = Ok (str_column types) /\
    length types = length cats /\
    let keep := fun tc : string * string =>
                  existsb (String.eqb (fst tc)) selected_type &&
                  existsb (String.eqb (snd tc)) selected_cat in
    get_col "Type" filtered_df = Ok (str_column (map fst (filter keep (combine types cats)))) /\
    get_col "Predicted_Category" filtered_df =
      Ok (str_column (map snd (filter keep (combine types cats)))) /\
    nrows filtered_df = length (filter keep (combine types cats)) /\
    apply_filter selected_type selected_cat filtered_df = Ok filtered_df.
Proof.
  intros Hwf Hrun Hfilter.
  destruct (pipeline_enriched upload Hwf Hrun) as (sms & amounts & _ & _ & _ & Hdf).
  destruct (apply_filter_enriched selected_type selected_cat Hdf) as (Hfilter' & Hlen).
  rewrite Hfilter' in Hfilter. injection Hfilter as <-.
  pose proof (enriched_select_rows _ Hdf Hlen) as Hsel.
  destruct (nrows_enriched Hdf) as (_ & Lc & Lt & _).
  eexists _, _. split; [apply Hdf|]. split; [apply Hdf|].
  split; [congruence|]. intros keep.
  destruct (select_filter_mask selected_type selected_cat _ _ (eq_trans (eq_sym Lt) Lc))
    as (Et & Ec).
  fold keep in Et, Ec. rewrite Et, Ec in Hsel.
  split; [apply Hsel|]. split; [apply Hsel|].
  destruct (nrows_enriched Hsel) as (_ & _ & Lt' & _).
  split; [rewrite Lt'; apply length_map|].
  destruct (apply_filter_enriched selected_type selected_cat Hsel) as (-> & _).
  rewrite filter_mask_kept.
  - rewrite select_rows_all; [reflexivity | apply Hsel |].
    rewrite Lt'. symmetry. apply length_map.
  - apply Forall_forall. intros tc Hin. apply filter_In in Hin. apply Hin.
Qed.

(** ** The top category *)

Lemma insert_key_In (k x : string) (keys : list string) :
  In x (insert_key k keys) -> x = k \/ In x keys.
Proof.
  induction keys as [|k' keys IH]; simpl.
  - intros [<-|[]]; auto.
  - destruct (String.eqb k k'); [auto|].
    destruct (String.ltb k k'); simpl.
    + intros [<-|Hin]; auto.
    + intros [<-|Hin]; auto. destruct (IH Hin); auto.
Qed.

Lemma group_keys_In (k : string) (labels : list (option string)) :
  In k (group_keys labels) -> In (Some k) labels.
Proof.
  induction labels as [|[l|] labels IH]; simpl; auto.
  intros Hin. destruct (insert_key_In _ _ _ Hin) as [->|Hin']; auto.
Qed.

Lemma traverse_keys {A : Type} (f : string -> result A) (keys : list string)
    (sums : list (string * A)) :
  traverse (fun k => v <- f k ;; Ok (k, v)) keys = Ok sums -> map fst sums = keys.
Proof.
  revert sums; induction keys as [|k keys IH]; simpl; intros sums E.
  - injection E as <-. reflexivity.
  - apply bind_ok in E as (kv & Ekv & E).
    apply bind_ok in Ekv as (v & _ & [= <-]).
    apply bind_ok in E as (sums' & Esums & [= <-]).
    simpl. rewrite (IH _ Esums). reflexivity.
Qed.

Lemma argmax_In (best : string * num) (rest : list (string * num)) :
  In (argmax best rest) (map fst (best :: rest)).
Proof.
  revert best; induction rest as [|kv rest IH]; intros best; simpl; [auto|].
  specialize (IH (if num_gt (snd kv) (snd best) then kv else best)).
  destruct (num_gt (snd kv) (snd best)); simpl in IH; tauto.
Qed.

(** The top category of the filtered table is N/A when the table has no
    row, and otherwise the category of one of its rows. *)
Theorem top_category_is_a_category (upload df filtered_df : DataFrame)
    (selected_type selected_cat : list string) :
  well_formed upload = true ->
  pipeline upload = Ok df ->
  apply_filter selected_type selected_cat df = Ok filtered_df ->
  exists cats top,
    get_col "Predicted_Category" filtered_df = Ok (str_column cats) /\
    nrows filtered_df = length cats /\
    top_category filtered_df = Ok top /\
    (cats = [] -> top = "N/A") /\
    (cats <> [] -> In top cats).
Proof.
  intros Hwf Hrun Hfilter.
  destruct (pipeline_enriched upload Hwf Hrun) as (sms & amounts & _ & _ & _ & Hdf).
  destruct (apply_filter_enriched selected_type selected_cat Hdf) as (Hfilter' & Hlen).
  rewrite Hfilter' in Hfilter. injection Hfilter as <-.
  pose proof (enriched_select_rows _ Hdf Hlen) as Hsel.
  revert Hsel. generalize (select_rows (filter_mask selected_type selected_cat
    (predict (kept_texts (map normalize (astype_str sms)) amounts))
    (map detect_type (kept_texts (map normalize (astype_str sms)) amounts))) df).
  intros filtered_df.
  match goal with
  | |- enriched _ ?t ?a ?c ?y -> _ => generalize t a c y
  end.
  intros texts amount cats types Hsel.
  destruct (nrows_enriched Hsel) as (_ & Lc & _ & _).
  pose proof Hsel as (Hwf' & _ & Hamt & Hnum & Hcat & _).
  destruct (top_category_enriched Hsel) as [top Htop].
  exists cats, top. split; [exact Hcat|]. split; [exact Lc|]. split; [exact Htop|].
  unfold top_category, empty in Htop. rewrite Lc in Htop.
  split.
  - intros E. rewrite E in Htop. simpl in Htop. congruence.
  - intros Hne.
    destruct cats as [|c cats]; [congruence|].
    cbn [length Nat.eqb negb] in Htop.
    rewrite Hcat, Hamt in Htop; cbn [bind] in Htop.
    apply bind_ok in Htop as (sums & Hsums & Hidx).
    unfold groupby_sum, str_column in Hsums.
    apply traverse_keys in Hsums.
    destruct sums as [|kv sums]; [discriminate|].
    injection Hidx as <-.
    pose proof (argmax_In kv sums) as Hin. rewrite Hsums in Hin.
    apply group_keys_In in Hin. apply in_map_iff in Hin as (c' & [= ->] & Hin). exact Hin.
Qed.

(** ** What is on the page of a run *)

Lemma get_col_raises (name : string) (df : DataFrame) (e : exn) :
  get_col name df = Raise e -> e = KeyError.
Proof.
  induction df as [|[n c] df IH]; simpl; [congruence|].
  destruct (String.eqb n name); [discriminate | exact IH].
Qed.

Lemma script_without_sms (upload : DataFrame) (choice : option (list string * list string))
    (e : exn) :
  get_col "SMS" upload = Raise e ->
  script (Table upload) choice =
    Ok [Error msg_no_sms; Show (Info msg_choose); Markdown "---"; Markdown footer].
Proof.
  intros Hsms. pose proof (get_col_raises _ _ Hsms) as ->.
  unfold script, load_upload.
  rewrite (proj2 (no_column "SMS" upload) Hsms). reflexivity.
Qed.

Lemma script_on_a_bad_row (upload : DataFrame) (choice : option (list string * list string))
    (sms : column) (e : exn) :
  get_col "SMS" upload = Ok sms ->
  traverse extract_amount (map normalize (astype_str sms)) = Raise e ->
  script (Table upload) choice = Raise e.
Proof.
  intros Hsms Hraise. unfold script, load_upload.
  rewrite (proj2 (has_column "SMS" upload)) by eauto.
  rewrite (proj2 (pipeline_failures upload) sms e Hsms Hraise). reflexivity.
Qed.

Lemma traverse_all_none_iff {A B : Type} (f : A -> result (option B)) (xs : list A)
    (ys : list (option B)) :
  traverse f xs = Ok ys ->
  (all (map is_none ys) = true <-> Forall (fun x => f x = Ok None) xs).
Proof.
  revert ys; induction xs as [|x xs IH]; simpl; intros ys E.
  - injection E as <-. simpl. split; auto.
  - apply bind_ok in E as (y & Ey & E).
    apply bind_ok in E as (ys' & Eys & [= <-]).
    cbn [map all forallb]. fold (all (map is_none ys')).
    rewrite andb_true_iff, (IH _ Eys), Forall_cons_iff, Ey.
    destruct y as [v|]; simpl; split; intros [Hy Hys]; split; congruence.
Qed.

(** The warning that no amounts were detected is on the page exactly when
    the extractor returns None on every normalised message of the upload
    (an upload with no row included); no widget of the analysis is mistaken
    for it. *)
Theorem no_amounts_warning (upload : DataFrame) (choice : option (list string * list string))
    (items : list item) :
  well_formed upload = true ->
  script (Table upload) choice = Ok items ->
  (In (Show (Warning msg_no_amounts)) items <->
   exists sms,
     get_col "SMS" upload = Ok sms /\
     Forall (fun text => extract_amount text = Ok None) (map normalize (astype_str sms))).
Proof.
  intros Hwf Hrun.
  destruct (get_col "SMS" upload) as [sms|e0] eqn:Hsms.
  - destruct (traverse extract_amount (map normalize (astype_str sms)))
      as [amounts|e1] eqn:Hamounts.
    + destruct (script_on_a_table upload choice Hwf Hsms Hamounts)
        as (df & chosen & filtered_df & widgets & _ & _ & _ & _ & Hwarn & _ & E).
      rewrite E in Hrun. injection Hrun as <-.
      pose proof (traverse_all_none_iff _ _ Hamounts) as Hiff.
      split.
      * intros [F|F]; [discriminate F|].
        apply in_app_or in F. destruct F as [F|F].
        { destruct (all (map is_none amounts)); [|destruct F].
          exists sms. split; [reflexivity | apply Hiff; reflexivity]. }
        destruct F as [F|F]; [discriminate F|].
        apply in_map_iff in F as (w & [= ->] & Hin). contradiction.
      * intros (sms' & [= <-] & Hall). apply Hiff in Hall. rewrite Hall.
        right. apply in_or_app. left. simpl. auto.
    + rewrite (script_on_a_bad_row upload choice Hsms Hamounts) in Hrun. discriminate Hrun.
  - rewrite (script_without_sms upload choice Hsms) in Hrun. injection Hrun as <-.
    split.
    + simpl. intros [F|[F|[F|[F|[]]]]]; discriminate F.
    + intros (sms & [=] & _).
Qed.

(** A page has either the analysis or the footer, never both: the notice
    that the transactions were analysed is on the page exactly when the
    upload is a table with an SMS column, and the footer exactly when it is
    not. *)
Theorem footer_only_without_analysis (file : uploaded)
    (choice : option (list string * list string)) (items : list item) :
  (forall upload, file = Table upload -> well_formed upload = true) ->
  script file choice = Ok items ->
  (In (Show (Success msg_analyzed)) items <->
   exists upload sms, file = Table upload /\ get_col "SMS" upload = Ok sms) /\
  (In (Markdown footer) items <-> ~ In (Show (Success msg_analyzed)) items).
Proof.
  intros Hfile Hrun.
  assert (Hnone : forall notice : item,
            notice <> Show (Success msg_analyzed) ->
            ~ In (Show (Success msg_analyzed))
                 [notice; Show (Info msg_choose); Markdown "---"; Markdown footer]).
  { intros notice Hne [F|[F|[F|[F|[]]]]]; try discriminate F. congruence. }
  destruct file as [|error|upload].
  - injection Hrun as <-. split; [split|].
    + intros F. exfalso. revert F. apply Hnone. discriminate.
    + intros (u & _ & [=] & _).
    + split; [intros _; apply Hnone; discriminate | intros _; simpl; auto].
  - injection Hrun as <-. split; [split|].
    + intros F. exfalso. revert F. apply Hnone. discriminate.
    + intros (u & _ & [=] & _).
    + split; [intros _; apply Hnone; discriminate | intros _; simpl; auto].
  - specialize (Hfile upload eq_refl).
    destruct (get_col "SMS" upload) as [sms|e0] eqn:Hsms.
    + destruct (traverse extract_amount (map normalize (astype_str sms)))
        as [amounts|e1] eqn:Hamounts.
      * destruct (script_on_a_table upload choice Hfile Hsms Hamounts)
          as (df & chosen & filtered_df & widgets & _ & _ & _ & _ & _ & _ & E).
        rewrite E in Hrun. injection Hrun as <-.
        assert (Hin : In (Show (Success msg_analyzed))
                         ((if all (map is_none amounts)
                           then [Show (Warning msg_no_amounts)] else []) ++
                          Show (Success msg_analyzed) :: map Show widgets)).
        { apply in_or_app. right. simpl. auto. }
        split; [split; [eauto | intros _; right; exact Hin]|].
        split; [|intros F; exfalso; apply F; right; exact Hin].
        intros F. exfalso.
        destruct F as [F|F]; [discriminate F|].
        apply in_app_or in F. destruct F as [F|F].
        { destruct (all (map is_none amounts)); [destruct F as [F|[]]; discriminate F | destruct F]. }
        destruct F as [F|F]; [discriminate F|].
        apply in_map_iff in F as (w & [=] & _).
      * rewrite (script_on_a_bad_row upload choice Hsms Hamounts) in Hrun. discriminate Hrun.
    + rewrite (script_without_sms upload choice Hsms) in Hrun. injection Hrun as <-.
      split; [split|].
      * intros F. exfalso. revert F. apply Hnone. discriminate.
      * intros (u & sms & [= <-] & Hsms'). congruence.
      * split; [intros _; apply Hnone; discriminate | intros _; simpl; auto].
Qed.

(** ** An empty selection *)



(** ** The export of a filtered table *)

Lemma cell_texts_col_select (mask : list bool) (c : column) :
  cell_texts (col_select mask c) = select mask (cell_texts c).
Proof.
  destruct c; simpl; rewrite select_map; reflexivity.
Qed.

Lemma cell_texts_length (c : column) : length (cell_texts c) = col_len c.
Proof.
  destruct c; simpl; apply length_map.
Qed.

Lemma kept_cons (b : bool) (mask : list bool) :
  kept (b :: mask) = if b then S (kept mask) else kept mask.
Proof.
  destruct b; reflexivity.
Qed.

Lemma records_S (cols : list (list string)) (n : nat) :
  records cols (S n) =
    map (fun col => nth 0 col EmptyString) cols :: records (map (@tl string) cols) n.
Proof.
  unfold records. rewrite <- cons_seq, <- seq_shift. cbn [map]. rewrite map_map. f_equal.
  apply map_ext. intros i. rewrite map_map. apply map_ext.
  intros [|x col]; [destruct i|]; reflexivity.
Qed.

(** Reading a table of texts row by row, after a mask has been applied to
    each of its columns, gives the rows the mask selects. *)
Lemma records_select (mask : list bool) (cols : list (list string)) :
  Forall (fun col => length col = length mask) cols ->
  records (map (select mask) cols) (kept mask) = select mask (records cols (length mask)).
Proof.
  revert cols; induction mask as [|b mask IH]; intros cols Hcols; [reflexivity|].
  assert (Htl : Forall (fun col => length col = length mask) (map (@tl string) cols)).
  { apply Forall_map. revert Hcols. apply Forall_impl.
    intros [|x col]; simpl; [discriminate | congruence]. }
  specialize (IH _ Htl).
  cbn [length]. rewrite records_S, kept_cons. cbn [select]. rewrite <- IH.
  rewrite Forall_forall in Hcols.
  destruct b.
  - rewrite records_S, !map_map. f_equal.
    + apply map_ext_in. intros [|x col] Hin; [|reflexivity].
      specialize (Hcols _ Hin). discriminate Hcols.
    + f_equal. apply map_ext_in. intros [|x col] Hin; [|reflexivity].
      specialize (Hcols _ Hin). discriminate Hcols.
  - f_equal. rewrite map_map. apply map_ext.
    intros [|x col]; [destruct mask|]; reflexivity.
Qed.

Lemma to_csv_records (df : DataFrame) :
  to_csv df =
    columns df :: records (map (fun nc : string * column => cell_texts (snd nc)) df) (nrows df).
Proof.
  unfold to_csv, records. f_equal. apply map_ext. intros i. rewrite map_map. reflexivity.
Qed.

Lemma to_csv_select_rows (mask : list bool) (df : DataFrame) :
  well_formed df = true -> df <> [] -> length mask = nrows df ->
  to_csv (select_rows mask df) = hd [] (to_csv df) :: select mask (tl (to_csv df)).
Proof.
  intros Hwf Hne Hlen. rewrite !to_csv_records; cbn [hd tl].
  rewrite columns_select_rows, (nrows_select_rows mask Hne Hlen). f_equal.
  rewrite <- Hlen, <- records_select.
  - f_equal. unfold select_rows. rewrite !map_map. apply map_ext.
    intros [n c]; cbn [fst snd]. apply cell_texts_col_select.
  - apply Forall_map, Forall_forall. intros [n c] Hin; cbn [snd].
    rewrite cell_texts_length, Hlen.
    apply (proj1 (well_formed_spec df) Hwf n c Hin).
Qed.

(** Filtering and exporting commute: the export of the filtered table is
    the header of the whole table's export followed by the records of the
    rows that pass the filter, in their order and unchanged. *)
Theorem export_of_the_filtered_rows (upload df filtered_df : DataFrame)
    (selected_type selected_cat : list string) :
  well_formed upload = true ->
  pipeline upload = Ok df ->
  apply_filter selected_type selected_cat df = Ok filtered_df ->
  exists cats types,
    get_col "Predicted_Category" df = Ok (str_column cats) /\
    get_col "Type" df = Ok (str_column types) /\
    length (tl (to_csv df)) = length (filter_mask selected_type selected_cat cats types) /\
    to_csv filtered_df =
      hd [] (to_csv df) ::
      select (filter_mask selected_type selected_cat cats types) (tl (to_csv df)).
Proof.
  intros Hwf Hrun Hfilter.
  destruct (pipeline_enriched upload Hwf Hrun) as (sms & amounts & _ & _ & _ & Hdf).
  destruct (apply_filter_enriched selected_type selected_cat Hdf) as (Hfilter' & Hlen).
  rewrite Hfilter' in Hfilter. injection Hfilter as <-.
  pose proof Hdf as (Hwf' & Hsms & _ & _ & Hcat & Hty).
  eexists _, _. split; [exact Hcat|]. split; [exact Hty|].
  split.
  - rewrite Hlen. unfold to_csv; cbn [tl]. rewrite length_map, length_seq. reflexivity.
  - apply to_csv_select_rows; [assumption | | assumption].
    intros ->. discriminate Hsms.
Qed.

(** ** The top category when no row has an amount *)

Lemma compare_lt_trans (a b c : string) :
  String.compare a b = Lt -> String.compare b c = Lt -> String.compare a c = Lt.
Proof.
  revert b c; induction a as [|x a IH]; intros [|y b] [|z c]; simpl; try discriminate; auto.
  unfold Ascii.compare.
  destruct (N.compare_spec (N_of_ascii x) (N_of_ascii y)) as [Exy|Lxy|Gxy];
    try discriminate;
    destruct (N.compare_spec (N_of_ascii y) (N_of_ascii z)) as [Eyz|Lyz|Gyz];
    try discriminate; intros Hab Hbc.
  - rewrite Exy, Eyz, N.compare_refl. eauto.
  - rewrite Exy. apply N.compare_lt_iff in Lyz. rewrite Lyz. reflexivity.
  - rewrite <- Eyz. apply N.compare_lt_iff in Lxy. rewrite Lxy. reflexivity.
  - assert (L : (N_of_ascii x < N_of_ascii z)%N) by lia.
    apply N.compare_lt_iff in L. rewrite L. reflexivity.
Qed.

Lemma ltb_trans (a b c : string) :
  String.ltb a b = true -> String.ltb b c = true -> String.ltb a c = true.
Proof.
  unfold String.ltb.
  destruct (String.compare a b) eqn:Eab; try discriminate.
  destruct (String.compare b c) eqn:Ebc; try discriminate.
  rewrite (compare_lt_trans _ _ _ Eab Ebc). reflexivity.
Qed.

Lemma ltb_asym (a b : string) : String.ltb a b = true -> String.ltb b a = false.
Proof.
  unfold String.ltb. rewrite (String.compare_antisym b a).
  destruct (String.compare a b); simpl; congruence.
Qed.

Lemma ltb_irrefl (a : string) : String.ltb a a = false.
Proof.
  destruct (String.ltb a a) eqn:E; [|reflexivity].
  rewrite (ltb_asym _ _ E) in E. discriminate E.
Qed.

Lemma ltb_total (a b : string) :
  String.ltb a b = false -> String.eqb a b = false -> String.ltb b a = true.
Proof.
  unfold String.ltb. rewrite (String.compare_antisym b a).
  destruct (String.compare a b) eqn:E; simpl; try congruence.
  apply String.compare_eq_iff in E. subst b. rewrite String.eqb_refl. discriminate.
Qed.

Lemma In_insert_key (k x : string) (keys : list string) :
  x = k \/ In x keys -> In x (insert_key k keys).
Proof.
  induction keys as [|k' keys IH]; simpl.
  - intros [->|[]]; auto.
  - destruct (String.eqb k k') eqn:E.
    + apply String.eqb_eq in E. subst k'. intros [->|Hin]; simpl; auto.
    + destruct (String.ltb k k'); simpl.
      * intros [->|Hin]; auto.
      * intros [->|[->|Hin]]; auto.
Qed.

Lemma insert_key_sorted (k : string) (keys : list string) :
  StronglySorted (fun a b => String.ltb a b = true) keys ->
  StronglySorted (fun a b => String.ltb a b = true) (insert_key k keys).
Proof.
  induction 1 as [|k' keys Hsorted IH Hall]; simpl.
  - repeat constructor.
  - destruct (String.eqb k k') eqn:E; [constructor; assumption|].
    destruct (String.ltb k k') eqn:L.
    + constructor; [constructor; assumption|].
      constructor; [assumption|].
      revert Hall. apply Forall_impl. intros x. apply ltb_trans. exact L.
    + constructor; [exact IH|].
      apply Forall_forall. intros x Hin.
      destruct (insert_key_In _ _ _ Hin) as [->|Hin'].
      * apply ltb_total; assumption.
      * rewrite Forall_forall in Hall. auto.
Qed.

Lemma group_keys_sorted (labels : list (option string)) :
  StronglySorted (fun a b => String.ltb a b = true) (group_keys labels).
Proof.
  induction labels as [|[k|] labels IH]; simpl; [constructor| |exact IH].
  apply insert_key_sorted, IH.
Qed.

Lemma In_group_keys (k : string) (labels : list (option string)) :
  In (Some k) labels -> In k (group_keys labels).
Proof.
  induction labels as [|[l|] labels IH]; simpl; [auto| |].
  - intros [[= ->]|Hin]; apply In_insert_key; auto.
  - intros [[=]|Hin]; auto.
Qed.

(** The first key is the smallest label. *)
Lemma group_keys_first (cats : list string) (first : string) (rest : list string) :
  group_keys (map Some cats) = first :: rest ->
  In first cats /\ forall c, In c cats -> String.ltb c first = false.
Proof.
  intros E. split.
  - assert (Hin : In first (group_keys (map Some cats))) by (rewrite E; simpl; auto).
    apply group_keys_In, in_map_iff in Hin. destruct Hin as (c & [= ->] & Hin). exact Hin.
  - intros c Hin.
    pose proof (group_keys_sorted (map Some cats)) as Hsorted.
    apply (in_map Some), In_group_keys in Hin.
    rewrite E in Hsorted, Hin.
    apply StronglySorted_inv in Hsorted as (_ & Hall).
    destruct Hin as [<-|Hin]; [apply ltb_irrefl|].
    rewrite Forall_forall in Hall. apply ltb_asym, Hall, Hin.
Qed.

Lemma groupby_sum_zeros (cats : list string) (zs : list Z) :
  Forall (eq 0%Z) zs ->
  groupby_sum (str_column cats) (I64Col zs) =
    Ok (map (fun k => (k, Int 0)) (group_keys (map Some cats))).
Proof.
  intros Hzs. unfold groupby_sum, str_column.
  apply traverse_ok_map. intros k _. cbn [col_select].
  rewrite (series_sum_zeros (select_Forall _ Hzs)). reflexivity.
Qed.

Lemma argmax_zeros (best : string) (rest : list string) :
  argmax (best, Int 0) (map (fun k => (k, Int 0)) rest) = best.
Proof.
  induction rest as [|k rest IH]; simpl; [reflexivity | exact IH].
Qed.

(** When the extractor finds no amount on any row, every category sums to
    the integer 0 and the tie goes to the first label in sorted order: the
    top category of a filtered table with rows is the alphabetically first
    (by code point) of its categories, whatever the messages say. *)
Theorem degraded_top_category (upload : DataFrame) (sms : column)
    (selected_type selected_cat : list string) :
  well_formed upload = true ->
  get_col "SMS" upload = Ok sms ->
  Forall (fun raw => extract_amount (normalize raw) = Ok None) (astype_str sms) ->
  exists df filtered_df cats top,
    pipeline upload = Ok df /\
    apply_filter selected_type selected_cat df = Ok filtered_df /\
    get_col "Predicted_Category" filtered_df = Ok (str_column cats) /\
    top_category filtered_df = Ok top /\
    (cats = [] -> top = "N/A") /\
    (cats <> [] -> In top cats /\ forall c, In c cats -> String.ltb c top = false).
Proof.
  intros Hwf Hsms Hnone.
  assert (Hamounts : traverse extract_amount (map normalize (astype_str sms)) =
                     Ok (map (fun _ => None) (map normalize (astype_str sms)))).
  { apply traverse_all_none. apply Forall_map. assumption. }
  pose proof (pipeline_closed_form upload Hsms) as Hrun.
  rewrite Hamounts in Hrun; cbn [bind] in Hrun.
  destruct (pipeline_enriched upload Hwf Hrun) as (sms' & amounts & Hsms' & Hamounts' & _ & Hdf).
  rewrite Hsms in Hsms'; injection Hsms' as <-.
  rewrite Hamounts in Hamounts'; injection Hamounts' as <-.
  rewrite all_none_map in Hdf.
  destruct (apply_filter_enriched selected_type selected_cat Hdf) as (Hfilter & Hlen).
  pose proof (enriched_select_rows _ Hdf Hlen) as Hfdf.
  cbn [col_select] in Hfdf.
  revert Hfilter Hfdf.
  match goal with
  | |- _ = Ok ?f -> enriched _ ?t (I64Col ?zs) ?c ?y -> _ =>
      assert (Hzs : Forall (eq 0%Z) zs) by apply select_Forall, repeat_Forall;
      generalize dependent zs; generalize f t c y
  end.
  intros filtered_df texts cats types zs Hzs Hfilter Hfdf.
  destruct (nrows_enriched Hfdf) as (_ & Lc & _ & _).
  pose proof Hfdf as (_ & _ & Hamt & _ & Hcat & _).
  assert (Htop : top_category filtered_df =
                 Ok (match group_keys (map Some cats) with
                     | [] => "N/A"
                     | first :: _ => first
                     end)).
  { unfold top_category, empty. rewrite Lc.
    destruct cats as [|c cats]; [reflexivity|].
    cbn [length Nat.eqb negb]. rewrite Hcat, Hamt; cbn [bind].
    rewrite (groupby_sum_zeros _ Hzs); cbn [bind].
    pose proof (@group_keys_not_nil (c :: cats)) as Hne.
    destruct (group_keys (map Some (c :: cats))) as [|first rest]; [exfalso; apply Hne; congruence|].
    cbn [map idxmax]. rewrite argmax_zeros. reflexivity. }
  eexists _, filtered_df, cats, _.
  split; [exact Hrun|]. split; [exact Hfilter|]. split; [exact Hcat|]. split; [exact Htop|].
  split.
  - intros ->. reflexivity.
  - intros Hne.
    pose proof (group_keys_not_nil Hne) as Hkeys.
    destruct (group_keys (map Some cats)) as [|first rest] eqn:E; [congruence|].
    apply (group_keys_first _ E).
Qed.

(** ** A selection without credits *)

Lemma eq_str_absent (type : string) (types : list string) :
  ~ In type types -> kept (eq_str (str_column types) type) = 0.
Proof.
  unfold kept, eq_str, str_column; cbn [isin]. rewrite map_map.
  induction types as [|t types IH]; simpl; [reflexivity|].
  intros Hnot. rewrite orb_false_r.
  destruct (String.eqb t type) eqn:E.
  - apply String.eqb_eq in E. tauto.
  - apply IH. tauto.
Qed.

Lemma zero_not_positive (zero : num) :
  zero = Int 0 \/ zero = Flt fzero -> num_gt zero (Int 0) = false.
Proof.
  intros [-> | ->]; reflexivity.
Qed.

(** When no row of the filtered table is a Credit, the total credited is
    zero and the advisor computes no ratio: the page has no progress bar, no
    ratio and no band message, however much was spent. *)
Theorem no_credit_no_ratio (upload df filtered_df : DataFrame)
    (selected_type selected_cat : list string) (types : list string) :
  well_formed upload = true ->
  pipeline upload = Ok df ->
  apply_filter selected_type selected_cat df = Ok filtered_df ->
  get_col "Type" filtered_df = Ok (str_column types) ->
  ~ In "Credit" types ->
  exists zero widgets,
    (zero = Int 0 \/ zero = Flt fzero) /\
    total_of "Credit" filtered_df = Ok zero /\
    render filtered_df = Ok widgets /\
    Forall (fun w => is_ratio_widget w = false) widgets.
Proof.
  intros Hwf Hrun Hfilter Htypes Hnone.
  destruct (pipeline_enriched upload Hwf Hrun) as (sms & amounts & _ & _ & _ & Hdf).
  destruct (apply_filter_enriched selected_type selected_cat Hdf) as (Hfilter' & Hlen).
  rewrite Hfilter' in Hfilter. injection Hfilter as <-.
  pose proof (enriched_select_rows _ Hdf Hlen) as Hsel.
  revert Htypes Hsel.
  generalize (select_rows (filter_mask selected_type selected_cat
    (predict (kept_texts (map normalize (astype_str sms)) amounts))
    (map detect_type (kept_texts (map normalize (astype_str sms)) amounts))) df).
  intros filtered_df Htypes.
  match goal with
  | |- enriched _ ?t ?a ?c ?y -> _ => generalize t a c y
  end.
  intros texts amount cats types' Hsel.
  pose proof Hsel as (Hwf' & _ & Hamt & Hnum & _ & Hty).
  rewrite Hty in Htypes. injection Htypes as Htypes.
  assert (E : types' = types).
  { clear -Htypes. revert types Htypes.
    induction types' as [|t types' IH]; intros [|t' types]; simpl; try discriminate; auto.
    intros [= -> Htl]. f_equal. auto. }
  subst types'.
  destruct (nrows_enriched Hsel) as (_ & _ & Lt & La).
  assert (Hcredit : exists zero,
            (zero = Int 0 \/ zero = Flt fzero) /\
            series_sum (col_select (eq_str (str_column types) "Credit") amount) = Ok zero).
  { destruct (series_sum_no_rows (col_select (eq_str (str_column types) "Credit") amount))
      as (zero & Hsum & Hzero).
    - rewrite is_numeric_select. exact Hnum.
    - rewrite col_len_select.
      + apply eq_str_absent. exact Hnone.
      + unfold eq_str. rewrite isin_length, str_column_len. congruence.
    - eauto. }
  destruct Hcredit as (zero & Hzero & Hsum).
  destruct (render_enriched Hsel)
    as (spent & credited & top & advisor & _ & Hcredited & Hadv & Hrender).
  rewrite Hsum in Hcredited. injection Hcredited as <-.
  rewrite savings_ratio_guard_false in Hadv by (apply zero_not_positive, Hzero).
  injection Hadv as <-.
  eexists zero, _. split; [exact Hzero|].
  split; [rewrite (total_of_enriched _ Hsel); exact Hsum|].
  split; [exact Hrender|].
  repeat constructor.
  destruct (negb (empty filtered_df)); repeat constructor.
  simpl. apply category_advice_not_band.
Qed.

End Pipeline.

(** ** The search of the amount pattern is the scan

    The search is proved equal to [first_match], and [extract_amount] is
    then described on every text. *)

Lemma span_app (p : ascii -> bool) (s : string) :
  s = fst (span p s) ++ snd (span p s).
Proof.
  induction s as [|c s IH]; simpl; [reflexivity|].
  destruct (p c); [|reflexivity].
  destruct (span p s) as [a r]; simpl in *. rewrite <- IH. reflexivity.
Qed.

Lemma span_rest (p : ascii -> bool) (s : string) (c : ascii) (r : string) :
  snd (span p s) = String c r -> p c = false.
Proof.
  induction s as [|c0 s IH]; simpl; [discriminate|].
  destruct (p c0) eqn:E.
  - destruct (span p s) as [a r0]; simpl in *. exact IH.
  - simpl. intros [= <- _]. exact E.
Qed.

(** With a continuation that accepts whatever is left, a repetition takes
    the longest run. *)
Lemma star_longest {A : Type} (p : ascii -> bool) (s : string) (k : string -> option A) :
  (forall r, k r <> None) -> star p s k = k (snd (span p s)).
Proof.
  intros Hk. induction s as [|c s IH]; simpl; [reflexivity|].
  destruct (p c); [|reflexivity].
  rewrite IH. destruct (span p s) as [a r]; simpl.
  destruct (k r) eqn:E; [reflexivity|]. exfalso; exact (Hk r E).
Qed.

Lemma length_append (a r : string) :
  String.length (a ++ r) = String.length a + String.length r.
Proof.
  induction a as [|c a IH]; simpl; [reflexivity|]. rewrite IH. reflexivity.
Qed.

Lemma substring_prefix (a r : string) : substring 0 (String.length a) (a ++ r) = a.
Proof.
  induction a as [|c a IH]; simpl.
  - destruct r; reflexivity.
  - rewrite IH. reflexivity.
Qed.

Lemma consumed_app (a r : string) : consumed (a ++ r) r = a.
Proof.
  unfold consumed. rewrite length_append.
  replace (String.length a + String.length r - String.length r) with (String.length a) by lia.
  apply substring_prefix.
Qed.

Lemma append_assoc (a b c : string) : (a ++ b) ++ c = a ++ (b ++ c).
Proof.
  induction a as [|x a IH]; simpl; [reflexivity|]. rewrite IH. reflexivity.
Qed.

Lemma append_empty (a : string) : a ++ EmptyString = a.
Proof.
  induction a as [|x a IH]; simpl; [reflexivity|]. rewrite IH. reflexivity.
Qed.

Lemma dot_eq (c : ascii) : dot c = true -> c = "."%char.
Proof.
  apply Ascii.eqb_eq.
Qed.

Lemma not_digit_or_comma (c : ascii) : digit_or_comma c = false -> is_digit c = false.
Proof.
  unfold digit_or_comma. destruct (is_digit c); [discriminate | reflexivity].
Qed.

(** The part of the pattern after the digits and commas, with the group
    closed at the end: it accepts any text. *)
Lemma run_fraction (start s : string) (gs : list string) :
  run (Cat (Opt (Chr dot)) (Star is_digit)) s gs
      (fun s' gs' => Some (gs' ++ [consumed start s'])%list)
  = Some (gs ++ [consumed start
                   (match s with
                    | String c r => if dot c then snd (span is_digit r)
                                    else snd (span is_digit s)
                    | EmptyString => EmptyString
                    end)])%list.
Proof.
  cbn [run].
  destruct s as [|c r]; [reflexivity|].
  destruct (dot c).
  - rewrite star_longest by discriminate. reflexivity.
  - rewrite star_longest by discriminate. reflexivity.
Qed.

Lemma consumed_all (s : string) : consumed s EmptyString = s.
Proof.
  pose proof (consumed_app s EmptyString) as E. rewrite append_empty in E. exact E.
Qed.

Lemma run_cat {A : Type} (r1 r2 : regex) (s : string) (gs : list string)
    (k : string -> list string -> option A) :
  run (Cat r1 r2) s gs k = run r1 s gs (fun s' gs' => run r2 s' gs' k).
Proof.
  reflexivity.
Qed.

Lemma run_group {A : Type} (r : regex) (s : string) (gs : list string)
    (k : string -> list string -> option A) :
  run (Group r) s gs k = run r s gs (fun s' gs' => k s' (gs' ++ [consumed s s'])%list).
Proof.
  reflexivity.
Qed.

Lemma run_chr {A : Type} (p : ascii -> bool) (s : string) (gs : list string)
    (k : string -> list string -> option A) :
  run (Chr p) s gs k =
  match s with
  | String c s' => if p c then k s' gs else None
  | EmptyString => None
  end.
Proof.
  reflexivity.
Qed.

Lemma run_star {A : Type} (p : ascii -> bool) (s : string) (gs : list string)
    (k : string -> list string -> option A) :
  run (Star p) s gs k = star p s (fun s' => k s' gs).
Proof.
  reflexivity.
Qed.

Lemma run_literal (s : string) (gs : list string) :
  run (Group (Cat (plus digit_or_comma) (Cat (Opt (Chr dot)) (Star is_digit)))) s gs
      (fun _ gs' => Some gs')
  = match literal_at s with
    | Some l => Some (gs ++ [literal_text l])%list
    | None => None
    end.
Proof.
  unfold plus. rewrite run_group, !run_cat, run_chr.
  destruct s as [|c s1]; [reflexivity|].
  unfold literal_at; cbn [span].
  destruct (digit_or_comma c) eqn:Hc; [|reflexivity].
  rewrite run_star.
  rewrite star_longest by (intros r; rewrite run_fraction; discriminate).
  rewrite run_fraction.
  pose proof (span_app digit_or_comma s1) as Hs1.
  pose proof (span_rest digit_or_comma s1) as Hrest.
  destruct (span digit_or_comma s1) as [a1 r1]; cbn [fst snd] in *.
  destruct r1 as [|d r2].
  - rewrite Hs1, append_empty, consumed_all. reflexivity.
  - destruct (dot d) eqn:Hd.
    + apply dot_eq in Hd; subst d.
      pose proof (span_app is_digit r2) as Hr2.
      destruct (span is_digit r2) as [b r3]; cbn [fst snd] in *.
      unfold literal_text; cbn [has_dot whole_part decimals].
      replace (String c s1) with ((String c a1 ++ "." ++ b) ++ r3).
      * rewrite consumed_app. reflexivity.
      * rewrite Hs1, Hr2. simpl. rewrite !append_assoc. reflexivity.
    + specialize (Hrest d r2 eq_refl).
      cbn [span]. rewrite (not_digit_or_comma _ Hrest). cbn [snd].
      unfold literal_text; cbn [has_dot whole_part].
      rewrite Hs1. change (String c (a1 ++ String d r2)) with (String c a1 ++ String d r2).
      rewrite consumed_app. reflexivity.
Qed.

Lemma run_iliteral {A : Type} (w s : string) (gs : list string)
    (k : string -> list string -> option A) :
  run (iliteral w) s gs k =
  match after_prefix w s with
  | Some r => k r gs
  | None => None
  end.
Proof.
  revert s; induction w as [|a w IH]; intros s; [reflexivity|].
  cbn [iliteral after_prefix]. rewrite run_cat. unfold ichar. rewrite run_chr.
  destruct s as [|c s]; [reflexivity|].
  destruct (Ascii.eqb (lower_char c) (lower_char a)); [apply IH | reflexivity].
Qed.

(** No text starts with two of the markers. *)
Lemma markers_exclusive (s : string) :
  (after_prefix "inr" s <> None -> after_prefix "aed" s = None /\ after_prefix "₹" s = None) /\
  (after_prefix "aed" s <> None -> after_prefix "₹" s = None).
Proof.
  destruct s as [|c s]; [split; intros E; exfalso; apply E; reflexivity|].
  cbn [after_prefix].
  split.
  - destruct (Ascii.eqb (lower_char c) (lower_char "i")) eqn:E; [|congruence].
    apply Ascii.eqb_eq in E. rewrite E. intros _. split; reflexivity.
  - destruct (Ascii.eqb (lower_char c) (lower_char "a")) eqn:E; [|congruence].
    apply Ascii.eqb_eq in E. rewrite E. intros _. reflexivity.
Qed.

Lemma run_markers {A : Type} (s : string) (gs : list string)
    (k : string -> list string -> option A) :
  run (Alt (iliteral "inr") (Alt (iliteral "aed") (iliteral "₹"))) s gs k =
  match marker_at s with
  | Some r => k r gs
  | None => None
  end.
Proof.
  cbn [run]. rewrite !run_iliteral. unfold marker_at.
  destruct (markers_exclusive s) as [Hinr Haed].
  destruct (after_prefix "inr" s) as [r|].
  - destruct Hinr as [-> ->]; [discriminate|]. destruct (k r gs); reflexivity.
  - destruct (after_prefix "aed" s) as [r|]; [|reflexivity].
    rewrite Haed by discriminate. destruct (k r gs); reflexivity.
Qed.

Lemma space_not_digit_or_comma (c : ascii) :
  is_space c = true -> digit_or_comma c = false.
Proof.
  destruct c as [[] [] [] [] [] [] [] []]; vm_compute; intros E;
    reflexivity || discriminate E.
Qed.

Lemma literal_at_space (c : ascii) (r : string) :
  is_space c = true -> literal_at (String c r) = None.
Proof.
  intros Hc. unfold literal_at; cbn [span].
  rewrite (space_not_digit_or_comma _ Hc). reflexivity.
Qed.

Lemma run_opt {A : Type} (r : regex) (s : string) (gs : list string)
    (k : string -> list string -> option A) :
  run (Opt r) s gs k =
  match run r s gs k with
  | Some m => Some m
  | None => k s gs
  end.
Proof.
  reflexivity.
Qed.

(** One attempt of the pattern at the start of [s] is one step of the scan. *)
Lemma run_amount_pattern (s : string) :
  run amount_pattern s [] (fun _ gs => Some gs) =
  match match_at s with
  | Some l => Some [literal_text l]
  | None => None
  end.
Proof.
  unfold amount_pattern. rewrite run_cat, run_markers. unfold match_at.
  destruct (marker_at s) as [r|]; [|reflexivity].
  rewrite run_cat, run_opt, run_chr.
  destruct r as [|c r].
  - rewrite run_literal. reflexivity.
  - destruct (is_space c) eqn:Hc.
    + rewrite !run_literal, literal_at_space by exact Hc.
      destruct (literal_at r); reflexivity.
    + rewrite run_literal. reflexivity.
Qed.

(** The search of the source is the scan. *)
Lemma search_amount_pattern (s : string) :
  search amount_pattern s = option_map (fun l => [literal_text l]) (first_match s).
Proof.
  induction s as [|c s IH]; cbn [search first_match]; rewrite run_amount_pattern.
  - destruct (match_at EmptyString); reflexivity.
  - destruct (match_at (String c s)); [reflexivity | exact IH].
Qed.

(** ** The value of a literal *)

Lemma span_all (p : ascii -> bool) (s : string) : all_chars p (fst (span p s)) = true.
Proof.
  induction s as [|c s IH]; simpl; [reflexivity|].
  destruct (p c) eqn:E; [|reflexivity].
  destruct (span p s) as [a r]; simpl in *. rewrite E, IH. reflexivity.
Qed.

Lemma all_digits_all_chars (s : string) : all_digits s = all_chars is_digit s.
Proof.
  induction s as [|c s IH]; simpl; [reflexivity|]. rewrite IH. reflexivity.
Qed.

Lemma literal_at_shape (s : string) (l : literal) : literal_at s = Some l -> shaped l.
Proof.
  unfold literal_at, shaped.
  pose proof (span_all digit_or_comma s) as Ha.
  destruct (span digit_or_comma s) as [a r]; cbn [fst] in Ha.
  destruct a as [|c a]; [discriminate|].
  destruct r as [|d r'].
  - intros [= <-]. repeat split; [exact Ha].
  - destruct (dot d).
    + intros [= <-]. cbn [decimals has_dot whole_part]. split; [exact Ha|]. split.
      * rewrite all_digits_all_chars. apply span_all.
      * discriminate.
    + intros [= <-]. repeat split; [exact Ha].
Qed.

Lemma first_match_shape (s : string) (l : literal) : first_match s = Some l -> shaped l.
Proof.
  assert (Hat : forall s, match_at s = Some l -> shaped l).
  { intros s0. unfold match_at. destruct (marker_at s0) as [[|c r]|]; try discriminate.
    destruct (is_space c); apply literal_at_shape. }
  induction s as [|c s IH]; cbn [first_match].
  - destruct (match_at EmptyString) eqn:E; [|discriminate]. intros [= <-]. eauto.
  - destruct (match_at (String c s)) eqn:E; [intros [= <-]; eauto | exact IH].
Qed.

Lemma replace_app (old : ascii) (new a b : string) :
  replace old new (a ++ b) = replace old new a ++ replace old new b.
Proof.
  induction a as [|c a IH]; simpl; [reflexivity|].
  destruct (Ascii.eqb c old); rewrite IH; [symmetry; apply append_assoc | reflexivity].
Qed.

Lemma digit_not_comma (c : ascii) : is_digit c = true -> Ascii.eqb c "," = false.
Proof.
  destruct (Ascii.eqb c ",") eqn:E; [|reflexivity].
  apply Ascii.eqb_eq in E; subst c. discriminate.
Qed.

Lemma digit_not_dot (c : ascii) : is_digit c = true -> dot c = false.
Proof.
  unfold dot. destruct (Ascii.eqb c ".") eqn:E; [|reflexivity].
  apply Ascii.eqb_eq in E; subst c. discriminate.
Qed.

Lemma replace_digits (s : string) : all_digits s = true -> replace "," "" s = s.
Proof.
  induction s as [|c s IH]; simpl; [reflexivity|].
  intros E. apply andb_prop in E as [Hc Hs].
  rewrite (digit_not_comma _ Hc), IH by assumption. reflexivity.
Qed.

Lemma replace_commas_digits (s : string) :
  all_chars digit_or_comma s = true -> all_digits (replace "," "" s) = true.
Proof.
  induction s as [|c s IH]; simpl; [reflexivity|].
  intros E. apply andb_prop in E as [Hc Hs].
  destruct (Ascii.eqb c ",") eqn:Ec; simpl; [auto|].
  unfold digit_or_comma in Hc. rewrite Ec, orb_false_r in Hc.
  rewrite Hc, IH by assumption. reflexivity.
Qed.

Lemma split_dot_digits (w : string) :
  all_digits w = true -> split_dot w = (w, None).
Proof.
  induction w as [|c w IH]; simpl; [reflexivity|].
  intros E. apply andb_prop in E as [Hc Hw].
  rewrite (digit_not_dot _ Hc), IH by assumption. reflexivity.
Qed.

Lemma split_dot_point (w b : string) :
  all_digits w = true -> split_dot (w ++ "." ++ b) = (w, Some b).
Proof.
  induction w as [|c w IH]; simpl; [reflexivity|].
  intros E. apply andb_prop in E as [Hc Hw].
  rewrite (digit_not_dot _ Hc). simpl in IH. rewrite IH by assumption. reflexivity.
Qed.

Lemma py_float_literal (l : literal) :
  shaped l ->
  (v <- py_float (replace "," "" (literal_text l)) ;; Ok (Some v)) = literal_value l.
Proof.
  intros (Hw & Hd & Hnodot). pose proof (replace_commas_digits _ Hw) as Hw'.
  unfold literal_value, literal_text, py_float; cbv zeta.
  destruct l as [w [|] d]; cbn [whole_part has_dot decimals] in *.
  - rewrite !replace_app, (replace_digits _ Hd).
    change (replace "," "" ".") with ".".
    rewrite (split_dot_point _ _ Hw'), Hw', Hd; cbn [andb].
    destruct (String.length (replace "," "" w ++ d) =? 0)%nat; reflexivity.
  - rewrite (Hnodot eq_refl), (split_dot_digits _ Hw'), Hw'; cbn [andb all_digits].
    destruct (String.length (replace "," "" w ++ "") =? 0)%nat; reflexivity.
Qed.

(** [extract_amount] on every text: nothing when the scan finds no marker
    followed by a literal, and otherwise what the literal after the
    leftmost such marker is worth. *)
Lemma extract_amount_scan (text : string) :
  extract_amount text =
  match first_match text with
  | Some l => literal_value l
  | None => Ok None
  end.
Proof.
  unfold extract_amount. rewrite search_amount_pattern.
  destruct (first_match text) as [l|] eqn:E; [|reflexivity].
  cbn [option_map group1 nth]. apply py_float_literal.
  eapply first_match_shape; eassumption.
Qed.

(** On a text of ASCII characters and rupee signs, the extractor raises
    exactly when the literal after the leftmost marker has no digit, and
    then it raises [ValueError]. *)
Theorem extract_amount_raises_iff (text : string) (e : exn) :
  plain text = true ->
  (extract_amount text = Raise e <->
   e = ValueError /\
   exists l, first_match text = Some l /\
             String.length (replace "," "" (whole_part l) ++ decimals l) = 0).
Proof.
  intros _. rewrite extract_amount_scan. unfold literal_value.
  destruct (first_match text) as [l|].
  - destruct (String.length (replace "," "" (whole_part l) ++ decimals l) =? 0)%nat eqn:E.
    + apply Nat.eqb_eq in E. split.
      * intros [= <-]. eauto.
      * intros [-> _]. reflexivity.
    + apply Nat.eqb_neq in E. split; [discriminate|].
      intros [_ (l' & [= <-] & E')]. contradiction.
  - split; [discriminate|]. intros [_ (l & El & _)]. discriminate El.
Qed.

Lemma after_prefix_lower (w s r : string) :
  after_prefix w s = Some r -> lower s = lower w ++ lower r.
Proof.
  revert s; induction w as [|a w IH]; intros s; simpl.
  - intros [= ->]. reflexivity.
  - destruct s as [|c s]; [discriminate|].
    destruct (Ascii.eqb (lower_char c) (lower_char a)) eqn:E; [|discriminate].
    apply Ascii.eqb_eq in E. intros Hr. simpl. rewrite E, (IH _ Hr). reflexivity.
Qed.

Lemma marker_at_substring (s r : string) :
  marker_at s = Some r -> exists m, In m markers /\ substring_of m (lower s).
Proof.
  unfold marker_at, markers.
  destruct (after_prefix "inr" s) as [r1|] eqn:E1.
  { intros _. exists "inr". split; [simpl; auto|].
    exists EmptyString, (lower r1). apply (after_prefix_lower _ _ E1). }
  destruct (after_prefix "aed" s) as [r2|] eqn:E2.
  { intros _. exists "aed". split; [simpl; auto|].
    exists EmptyString, (lower r2). apply (after_prefix_lower _ _ E2). }
  intros E3. exists "₹". split; [simpl; auto|].
  exists EmptyString, (lower r). apply (after_prefix_lower _ _ E3).
Qed.

(** A text of ASCII characters and rupee signs in which none of inr, aed
    and the rupee sign occurs, in either case, has no amount: the extractor
    returns None (and not zero).  The lower-cased text is [spec_lower text],
    the table of the letters. *)
Theorem extract_amount_no_marker (text : string) :
  plain text = true ->
  (forall m, In m ["inr"; "aed"; "₹"] -> ~ substring_of m (spec_lower text)) ->
  extract_amount text = Ok None.
Proof.
  intros _ Hspec.
  assert (Hno : forall m, In m markers -> ~ substring_of m (lower text)).
  { intros m Hm. rewrite <- spec_lower_is_lower. apply Hspec, Hm. }
  clear Hspec. rewrite extract_amount_scan.
  replace (first_match text) with (@None literal); [reflexivity|].
  symmetry. induction text as [|c text IH]; cbn [first_match].
  - unfold match_at. destruct (marker_at EmptyString) as [r|] eqn:E; [|reflexivity].
    destruct (marker_at_substring _ E) as (m & Hm & Hsub). destruct (Hno m Hm Hsub).
  - unfold match_at at 1. destruct (marker_at (String c text)) as [r|] eqn:E.
    + destruct (marker_at_substring _ E) as (m & Hm & Hsub). destruct (Hno m Hm Hsub).
    + apply IH. intros m Hm (before & after & Hsub). apply (Hno m Hm).
      exists (String (lower_char c) before), after. simpl. rewrite Hsub. reflexivity.
Qed.

(** C5, as the code has it, on a text of ASCII characters and rupee signs:
    when the scan finds a literal after a marker (the leftmost marker that
    is followed by at most one whitespace character and then a digit or a
    comma) and that literal has a digit, the extractor returns the number
    its digits write, the commas removed: the digits before and after the
    dot, scaled by the number of decimals, as the nearest binary64. *)
Theorem extract_amount_first_literal (text : string) (l : literal) :
  plain text = true ->
  first_match text = Some l ->
  String.length (replace "," "" (whole_part l) ++ decimals l) <> 0 ->
  search amount_pattern text = Some [literal_text l] /\
  extract_amount text =
    Ok (Some (float_of_decimal
                (digits_value 0 (replace "," "" (whole_part l) ++ decimals l))
                (String.length (decimals l)))).
Proof.
  intros _ Hl Hdigit. split.
  - rewrite search_amount_pattern, Hl. reflexivity.
  - rewrite extract_amount_scan, Hl. unfold literal_value.
    apply Nat.eqb_neq in Hdigit. rewrite Hdigit. reflexivity.
Qed.

(** Counterexample to C5 as stated: the text holds a marker, two whitespace
    characters and a number; the pattern allows one whitespace character,
    and the extractor finds no amount.  With one space it finds 500. *)
Lemma extract_amount_two_spaces :
  "paid inr  500 today" = "paid " ++ "inr" ++ "  " ++ "500" ++ " today" /\
  all_chars is_space "  " = true /\
  all_digits "500" = true /\
  extract_amount "paid inr  500 today" = Ok None /\
  extract_amount "paid inr  500 today" <> Ok (Some (float_of_decimal 500 0)) /\
  extract_amount "paid inr 500 today" = Ok (Some (float_of_decimal 500 0)).
Proof.
  assert (E : extract_amount "paid inr  500 today" = Ok None) by (vm_compute; reflexivity).
  do 3 (split; [reflexivity|]).
  split; [exact E|].
  split; [rewrite E; discriminate | vm_compute; reflexivity].
Qed.

(** ** The extractor on texts with a marker and no digit *)

(** A text with two markers, the first followed by a comma, the second by
    a number: the search stops at the first, whose group is the comma alone,
    and [float] of the empty text raises [ValueError]; the number after the
    second marker is not returned. *)
Example extract_amount_comma_after_marker :
  search amount_pattern "inr, inr 5" = Some [","] /\
  replace "," "" "," = EmptyString /\
  extract_amount "inr, inr 5" = Raise ValueError /\
  extract_amount "inr 5" = Ok (Some (float_of_decimal 5 0)).
Proof.
  repeat split; vm_compute; reflexivity.
Qed.

(** C6: the extractor raises [ValueError] on a text in which a marker is
    followed by commas or a dot and no digit, and the pipeline raises it
    with it. *)
Theorem extract_amount_raises :
  extract_amount "paid inr, thanks" = Raise ValueError /\
  extract_amount "aed ,." = Raise ValueError /\
  pipeline [("SMS", ObjCol [Some "Paid INR 500 for lunch"; Some "Paid in INR, thanks"])]
    = Raise ValueError.
Proof.
  repeat split; vm_compute; reflexivity.
Qed.

(** The example of the specification. *)
Example extract_amount_example :
  extract_amount "paid inr 1,234.50 today" = Ok (Some (float_of_decimal 12345 1)) /\
  float_of_decimal 12345 1 = S754_finite false 5429388417957888 (-42).
Proof.
  split; vm_compute; reflexivity.
Qed.

(** ** Normalising a message changes neither tagger *)

Ltac each_char c := destruct c as [[] [] [] [] [] [] [] []].

Lemma lower_char_idem (c : ascii) : lower_char (lower_char c) = lower_char c.
Proof.
  each_char c; reflexivity.
Qed.

Lemma is_space_lower_char (c : ascii) : is_space (lower_char c) = is_space c.
Proof.
  each_char c; reflexivity.
Qed.

Lemma digit_or_comma_lower_char (c : ascii) :
  digit_or_comma (lower_char c) = digit_or_comma c.
Proof.
  each_char c; reflexivity.
Qed.

Lemma is_digit_lower_char (c : ascii) : is_digit (lower_char c) = is_digit c.
Proof.
  each_char c; reflexivity.
Qed.

Lemma dot_lower_char (c : ascii) : dot (lower_char c) = dot c.
Proof.
  each_char c; reflexivity.
Qed.

Lemma digit_or_comma_is_lower (c : ascii) : digit_or_comma c = true -> lower_char c = c.
Proof.
  each_char c; vm_compute; intros E; reflexivity || discriminate E.
Qed.

Lemma is_digit_is_lower (c : ascii) : is_digit c = true -> lower_char c = c.
Proof.
  each_char c; vm_compute; intros E; reflexivity || discriminate E.
Qed.

Lemma space_not_dot (c : ascii) : is_space c = true -> dot c = false.
Proof.
  each_char c; vm_compute; intros E; reflexivity || discriminate E.
Qed.

Lemma space_not_digit (c : ascii) : is_space c = true -> is_digit c = false.
Proof.
  intros Hc. apply not_digit_or_comma, space_not_digit_or_comma, Hc.
Qed.

Lemma lower_idem (s : string) : lower (lower s) = lower s.
Proof.
  induction s as [|c s IH]; simpl; [reflexivity|].
  rewrite lower_char_idem, IH. reflexivity.
Qed.

Lemma lower_lstrip (s : string) : lower (lstrip s) = lstrip (lower s).
Proof.
  induction s as [|c s IH]; simpl; [reflexivity|].
  rewrite is_space_lower_char. destruct (is_space c); [exact IH | reflexivity].
Qed.

Lemma lower_rstrip (s : string) : lower (rstrip s) = rstrip (lower s).
Proof.
  induction s as [|c s IH]; simpl; [reflexivity|].
  rewrite <- IH, is_space_lower_char.
  destruct (rstrip s) as [|a r]; simpl; [|reflexivity].
  destruct (is_space c); reflexivity.
Qed.

Lemma lower_strip (s : string) : lower (strip s) = strip (lower s).
Proof.
  unfold strip. rewrite lower_rstrip, lower_lstrip. reflexivity.
Qed.

Lemma rstrip_idem (s : string) : rstrip (rstrip s) = rstrip s.
Proof.
  induction s as [|c s IH]; simpl; [reflexivity|].
  destruct (rstrip s) as [|a r] eqn:E.
  - destruct (is_space c) eqn:Ec; simpl; [reflexivity|]. rewrite Ec. reflexivity.
  - cbn [rstrip]. cbn [rstrip] in IH. rewrite IH. reflexivity.
Qed.

(** What [lstrip] returns does not start with whitespace. *)
Lemma lstrip_head (s : string) :
  match lstrip s with
  | EmptyString => True
  | String c _ => is_space c = false
  end.
Proof.
  induction s as [|c s IH]; simpl; [exact I|].
  destruct (is_space c) eqn:E; [exact IH | exact E].
Qed.

Lemma lstrip_fixed (s : string) :
  match s with
  | EmptyString => True
  | String c _ => is_space c = false
  end ->
  lstrip s = s.
Proof.
  destruct s as [|c s]; simpl; [reflexivity|]. intros ->. reflexivity.
Qed.

Lemma rstrip_head (s : string) :
  match s with
  | EmptyString => True
  | String c _ => is_space c = false
  end ->
  match rstrip s with
  | EmptyString => True
  | String c _ => is_space c = false
  end.
Proof.
  destruct s as [|c s]; simpl; [auto|]. intros Hc.
  destruct (rstrip s); [rewrite Hc|]; exact Hc.
Qed.

Lemma strip_idem (s : string) : strip (strip s) = strip s.
Proof.
  unfold strip.
  rewrite (lstrip_fixed (rstrip (lstrip s))) by apply rstrip_head, lstrip_head.
  apply rstrip_idem.
Qed.

(** Line 149 applied twice is line 149 applied once. *)
Theorem normalize_idempotent (s : string) : normalize (normalize s) = normalize s.
Proof.
  unfold normalize. rewrite lower_strip, lower_idem. apply strip_idem.
Qed.

(** A text is what [rstrip] keeps of it, then whitespace. *)
Lemma rstrip_spec (s : string) :
  exists w, s = rstrip s ++ w /\ all_chars is_space w = true.
Proof.
  induction s as [|c s (w & E & Hw)]; simpl.
  - exists EmptyString. auto.
  - destruct (rstrip s) as [|a r].
    + simpl in E. subst s. destruct (is_space c) eqn:Ec.
      * exists (String c w). simpl. rewrite Ec. auto.
      * exists w. auto.
    + exists w. rewrite E at 1. auto.
Qed.

(** *** Keywords *)

Lemma space_differs (a c : ascii) :
  is_space a = false -> is_space c = true -> Ascii.eqb a c = false.
Proof.
  intros Ha Hc. destruct (Ascii.eqb a c) eqn:E; [|reflexivity].
  apply Ascii.eqb_eq in E. congruence.
Qed.

Lemma startswith_spaces (kw u w : string) :
  all_chars (fun a => negb (is_space a)) kw = true ->
  all_chars is_space w = true ->
  startswith kw (u ++ w) = startswith kw u.
Proof.
  revert u; induction kw as [|a kw IH]; intros u Hkw Hw; [reflexivity|].
  simpl in Hkw. apply andb_true_iff in Hkw as (Ha & Hkw). apply negb_true_iff in Ha.
  destruct u as [|b u]; simpl.
  - destruct w as [|c w]; [reflexivity|].
    simpl in Hw. apply andb_true_iff in Hw as (Hc & _).
    rewrite (@space_differs a c Ha Hc). reflexivity.
  - rewrite IH by assumption. reflexivity.
Qed.

Lemma contains_spaces (kw w : string) :
  kw <> EmptyString ->
  all_chars (fun a => negb (is_space a)) kw = true ->
  all_chars is_space w = true ->
  contains kw w = false.
Proof.
  intros Hne Hkw. destruct kw as [|a kw]; [congruence|].
  simpl in Hkw. apply andb_true_iff in Hkw as (Ha & _). apply negb_true_iff in Ha.
  induction w as [|c w IH]; simpl; [reflexivity|].
  intros Hw. apply andb_true_iff in Hw as (Hc & Hw).
  rewrite (@space_differs a c Ha Hc). simpl. auto.
Qed.

Lemma contains_app_spaces (kw u w : string) :
  kw <> EmptyString ->
  all_chars (fun a => negb (is_space a)) kw = true ->
  all_chars is_space w = true ->
  contains kw (u ++ w) = contains kw u.
Proof.
  intros Hne Hkw Hw. induction u as [|b u IH].
  - simpl. rewrite contains_spaces by assumption. destruct kw; [congruence | reflexivity].
  - change (String b u ++ w) with (String b (u ++ w)). cbn [contains].
    rewrite IH. change (String b (u ++ w)) with (String b u ++ w).
    rewrite startswith_spaces by assumption. reflexivity.
Qed.

Lemma contains_lstrip (kw s : string) :
  kw <> EmptyString ->
  all_chars (fun a => negb (is_space a)) kw = true ->
  contains kw (lstrip s) = contains kw s.
Proof.
  intros Hne Hkw. destruct kw as [|a kw]; [congruence|].
  simpl in Hkw. apply andb_true_iff in Hkw as (Ha & _). apply negb_true_iff in Ha.
  induction s as [|c s IH]; [reflexivity|].
  cbn [lstrip]. destruct (is_space c) eqn:Hc; [|reflexivity].
  rewrite IH. cbn [contains startswith].
  rewrite (@space_differs a c Ha Hc). reflexivity.
Qed.

Lemma contains_strip (kw s : string) :
  kw <> EmptyString ->
  all_chars (fun a => negb (is_space a)) kw = true ->
  contains kw (strip s) = contains kw s.
Proof.
  intros Hne Hkw. unfold strip.
  destruct (rstrip_spec (lstrip s)) as (w & E & Hw).
  rewrite <- (@contains_app_spaces kw (rstrip (lstrip s)) w Hne Hkw Hw), <- E.
  apply contains_lstrip; assumption.
Qed.

(** The type of a message is the type of its normalised text: the
    lower-casing is the one [detect_type] does itself, and a keyword does not
    reach into the whitespace that is stripped. *)
Theorem detect_type_normalize (s : string) : detect_type (normalize s) = detect_type s.
Proof.
  unfold detect_type, normalize.
  rewrite lower_strip, lower_idem.
  unfold any_in, debit_keywords, credit_keywords; cbn [existsb].
  rewrite !contains_strip by (discriminate || reflexivity). reflexivity.
Qed.

(** *** The amount *)

Lemma after_prefix_of_lower (w s : string) :
  after_prefix w (lower s) = option_map lower (after_prefix w s).
Proof.
  revert s; induction w as [|a w IH]; intros s; simpl; [reflexivity|].
  destruct s as [|c s]; simpl; [reflexivity|].
  rewrite lower_char_idem.
  destruct (Ascii.eqb (lower_char c) (lower_char a)); [apply IH | reflexivity].
Qed.

Lemma marker_at_lower (s : string) : marker_at (lower s) = option_map lower (marker_at s).
Proof.
  unfold marker_at. rewrite !after_prefix_of_lower.
  destruct (after_prefix "inr" s); [reflexivity|].
  destruct (after_prefix "aed" s); reflexivity.
Qed.

Lemma span_lower (p : ascii -> bool) (s : string) :
  (forall c, p (lower_char c) = p c) ->
  (forall c, p c = true -> lower_char c = c) ->
  span p (lower s) = (fst (span p s), lower (snd (span p s))).
Proof.
  intros Hp Hfix. induction s as [|c s IH]; simpl; [reflexivity|].
  rewrite Hp. destruct (p c) eqn:E; [|reflexivity].
  rewrite IH, (Hfix c E). destruct (span p s); reflexivity.
Qed.

Lemma literal_at_lower (s : string) : literal_at (lower s) = literal_at s.
Proof.
  unfold literal_at.
  rewrite (@span_lower digit_or_comma s digit_or_comma_lower_char digit_or_comma_is_lower).
  destruct (span digit_or_comma s) as [a r]; cbn [fst snd].
  destruct a as [|a0 a]; [reflexivity|].
  destruct r as [|c r]; [reflexivity|]. cbn [lower].
  rewrite dot_lower_char. destruct (dot c); [|reflexivity].
  rewrite (@span_lower is_digit r is_digit_lower_char is_digit_is_lower). reflexivity.
Qed.

Lemma match_at_lower (s : string) : match_at (lower s) = match_at s.
Proof.
  unfold match_at. rewrite marker_at_lower.
  destruct (marker_at s) as [[|c r]|]; cbn [option_map lower]; try reflexivity.
  rewrite is_space_lower_char. destruct (is_space c).
  - apply literal_at_lower.
  - apply (literal_at_lower (String c r)).
Qed.

Lemma first_match_cons (c : ascii) (s : string) :
  first_match (String c s) =
    match match_at (String c s) with
    | Some l => Some l
    | None => first_match s
    end.
Proof.
  reflexivity.
Qed.

Lemma first_match_lower (s : string) : first_match (lower s) = first_match s.
Proof.
  induction s as [|c s IH]; [reflexivity|].
  change (lower (String c s)) with (String (lower_char c) (lower s)).
  rewrite !first_match_cons.
  change (String (lower_char c) (lower s)) with (lower (String c s)).
  rewrite match_at_lower, IH. reflexivity.
Qed.

Lemma match_at_space (c : ascii) (s : string) :
  is_space c = true -> match_at (String c s) = None.
Proof.
  each_char c; intros E; reflexivity || discriminate E.
Qed.

Lemma first_match_lstrip (s : string) : first_match (lstrip s) = first_match s.
Proof.
  induction s as [|c s IH]; [reflexivity|].
  cbn [lstrip]. destruct (is_space c) eqn:Hc; [|reflexivity].
  rewrite first_match_cons, (@match_at_space c s Hc). exact IH.
Qed.

Lemma after_prefix_spaces (m u w : string) :
  all_chars (fun a => negb (is_space a)) m = true ->
  all_chars is_space w = true ->
  after_prefix m (u ++ w) = option_map (fun r => r ++ w) (after_prefix m u).
Proof.
  revert u; induction m as [|a m IH]; intros u Hm Hw; [reflexivity|].
  simpl in Hm. apply andb_true_iff in Hm as (Ha & Hm). apply negb_true_iff in Ha.
  destruct u as [|b u]; simpl.
  - destruct w as [|c w]; [reflexivity|].
    simpl in Hw. apply andb_true_iff in Hw as (Hc & _).
    destruct (Ascii.eqb (lower_char c) (lower_char a)) eqn:E; [|reflexivity].
    apply Ascii.eqb_eq in E. apply (f_equal is_space) in E.
    rewrite !is_space_lower_char in E. congruence.
  - destruct (Ascii.eqb (lower_char b) (lower_char a)); [|reflexivity].
    apply IH; assumption.
Qed.

Lemma marker_at_spaces (u w : string) :
  all_chars is_space w = true ->
  marker_at (u ++ w) = option_map (fun r => r ++ w) (marker_at u).
Proof.
  intros Hw. unfold marker_at.
  rewrite !after_prefix_spaces by (reflexivity || assumption).
  destruct (after_prefix "inr" u); [reflexivity|].
  destruct (after_prefix "aed" u); reflexivity.
Qed.

Lemma span_spaces (p : ascii -> bool) (s w : string) :
  (forall c, is_space c = true -> p c = false) ->
  all_chars is_space w = true ->
  span p (s ++ w) = (fst (span p s), snd (span p s) ++ w).
Proof.
  intros Hp Hw. induction s as [|c s IH]; simpl.
  - destruct w as [|c w]; [reflexivity|].
    simpl in Hw. apply andb_true_iff in Hw as (Hc & _).
    simpl. rewrite (Hp c Hc). reflexivity.
  - destruct (p c); [|reflexivity].
    rewrite IH. destruct (span p s); reflexivity.
Qed.

Lemma literal_at_spaces (s w : string) :
  all_chars is_space w = true -> literal_at (s ++ w) = literal_at s.
Proof.
  intros Hw. unfold literal_at.
  rewrite (@span_spaces digit_or_comma s w space_not_digit_or_comma Hw).
  destruct (span digit_or_comma s) as [a r]; cbn [fst snd].
  destruct a as [|a0 a]; [reflexivity|].
  destruct r as [|c r].
  - destruct w as [|c w]; [reflexivity|].
    simpl in Hw. apply andb_true_iff in Hw as (Hc & _).
    simpl. rewrite (@space_not_dot c Hc). reflexivity.
  - change (String c r ++ w) with (String c (r ++ w)); cbv beta iota.
    destruct (dot c); [|reflexivity].
    rewrite (@span_spaces is_digit r w space_not_digit Hw). reflexivity.
Qed.

Lemma literal_at_all_spaces (w : string) :
  all_chars is_space w = true -> literal_at w = None.
Proof.
  intros Hw. exact (@literal_at_spaces EmptyString w Hw).
Qed.

Lemma match_at_spaces (u w : string) :
  all_chars is_space w = true -> match_at (u ++ w) = match_at u.
Proof.
  intros Hw. unfold match_at. rewrite (@marker_at_spaces u w Hw).
  destruct (marker_at u) as [[|c r]|]; cbn [option_map]; [| |reflexivity].
  - destruct w as [|c w]; [reflexivity|].
    simpl in Hw. apply andb_true_iff in Hw as (Hc & Hw).
    change (EmptyString ++ String c w) with (String c w); cbv beta iota.
    rewrite Hc. apply literal_at_all_spaces, Hw.
  - change (String c r ++ w) with (String c (r ++ w)); cbv beta iota.
    destruct (is_space c).
    + apply literal_at_spaces, Hw.
    + apply (@literal_at_spaces (String c r) w Hw).
Qed.

Lemma first_match_all_spaces (w : string) :
  all_chars is_space w = true -> first_match w = None.
Proof.
  induction w as [|c w IH]; [reflexivity|].
  intros Hw. simpl in Hw. apply andb_true_iff in Hw as (Hc & Hw).
  rewrite first_match_cons, (@match_at_space c w Hc). auto.
Qed.

Lemma first_match_spaces (u w : string) :
  all_chars is_space w = true -> first_match (u ++ w) = first_match u.
Proof.
  intros Hw. induction u as [|b u IH].
  - apply first_match_all_spaces, Hw.
  - change (String b u ++ w) with (String b (u ++ w)).
    rewrite !first_match_cons.
    change (String b (u ++ w)) with (String b u ++ w).
    rewrite (@match_at_spaces (String b u) w Hw), IH. reflexivity.
Qed.

Lemma first_match_normalize (s : string) : first_match (normalize s) = first_match s.
Proof.
  unfold normalize, strip.
  destruct (rstrip_spec (lstrip (lower s))) as (w & E & Hw).
  rewrite <- (@first_match_spaces (rstrip (lstrip (lower s))) w Hw), <- E.
  rewrite first_match_lstrip. apply first_match_lower.
Qed.

(** The amount of a message of ASCII characters and rupee signs is the
    amount of its normalised text, an exception included: the pattern
    ignores case, and no match starts in or reaches into the whitespace that
    is stripped. *)
Theorem extract_amount_normalize (s : string) :
  plain s = true ->
  extract_amount (normalize s) = extract_amount s.
Proof.
  intros _. rewrite !extract_amount_scan, first_match_normalize. reflexivity.
Qed.

(** ** A message inside a longer text *)

Lemma lower_app (a b : string) : lower (a ++ b) = lower a ++ lower b.
Proof.
  induction a as [|c a IH]; simpl; [reflexivity|]. rewrite IH. reflexivity.
Qed.

Lemma any_in_embedded (words : list string) (before text after : string) :
  any_in words (lower text) = true ->
  any_in words (lower (before ++ text ++ after)) = true.
Proof.
  rewrite !any_in_spec. intros (k & Hin & (b & a & E)).
  exists k. split; [assumption|].
  exists (lower before ++ b), (a ++ lower after).
  rewrite !lower_app, E, !append_assoc. reflexivity.
Qed.

(** Text around a message cannot take a keyword away: a Debit message
    stays Debit inside any longer text, and a Credit message inside a longer
    text is Credit or Debit, never Unknown. *)
Theorem detect_type_embedded (before text after : string) :
  (detect_type text = "Debit" -> detect_type (before ++ text ++ after) = "Debit") /\
  (detect_type text = "Credit" -> detect_type (before ++ text ++ after) <> "Unknown").
Proof.
  unfold detect_type; cbv zeta.
  pose proof (any_in_embedded debit_keywords before text after) as Hdebit.
  pose proof (any_in_embedded credit_keywords before text after) as Hcredit.
  destruct (any_in debit_keywords (lower text)).
  - rewrite Hdebit by reflexivity. split; [reflexivity | discriminate].
  - destruct (any_in credit_keywords (lower text)).
    + rewrite Hcredit by reflexivity. split; [discriminate|]. intros _.
      destruct (any_in debit_keywords _); discriminate.
    + split; discriminate.
Qed.

(** ** The sign of an amount *)

Lemma shr_1_sign (mrs : shr_record) : (0 <= shr_m mrs)%Z -> (0 <= shr_m (shr_1 mrs))%Z.
Proof.
  destruct mrs as [m r s]; simpl.
  destruct m as [|[p|p|]|p]; simpl; lia.
Qed.

Lemma iter_shr_1_sign (p : positive) (mrs : shr_record) :
  (0 <= shr_m mrs)%Z -> (0 <= shr_m (iter_pos shr_1 p mrs))%Z.
Proof.
  revert mrs; induction p as [p IH|p IH|]; intros mrs Hm; simpl.
  - apply IH, IH, shr_1_sign, Hm.
  - apply IH, IH, Hm.
  - apply shr_1_sign, Hm.
Qed.

Lemma shr_fexp_sign (m e : Z) (l : location) :
  (0 <= m)%Z -> (0 <= shr_m (fst (shr_fexp prec emax m e l)))%Z.
Proof.
  intros Hm. unfold shr_fexp, shr.
  assert (H0 : (0 <= shr_m (shr_record_of_loc m l))%Z)
    by (destruct l as [|[| |]]; exact Hm).
  destruct (_ - e)%Z; simpl; auto using iter_shr_1_sign.
Qed.

Lemma round_nearest_even_sign (m : Z) (l : location) :
  (0 <= m)%Z -> (0 <= round_nearest_even m l)%Z.
Proof.
  intros Hm. destruct l as [|[| |]]; simpl; try lia.
  destruct (Z.even m); lia.
Qed.

Lemma binary_round_aux_sign (mx ex : Z) (lx : location) :
  (0 <= mx)%Z -> non_negative (binary_round_aux prec emax false mx ex lx) = true.
Proof.
  intros Hm. unfold binary_round_aux.
  pose proof (shr_fexp_sign ex lx Hm) as H1.
  destruct (shr_fexp prec emax mx ex lx) as [mrs' e']; cbn [fst] in H1.
  pose proof (shr_fexp_sign e' loc_Exact
                (round_nearest_even_sign (loc_of_shr_record mrs') H1)) as H2.
  destruct (shr_fexp prec emax _ e' loc_Exact) as [mrs'' e'']; cbn [fst] in H2.
  destruct (shr_m mrs'') as [|m|m]; [reflexivity | | lia].
  destruct (e'' <=? emax - prec)%Z; reflexivity.
Qed.

Lemma SFdiv_core_binary_sign (m1 m2 : positive) (e1 e2 : Z) :
  (0 <= fst (fst (SFdiv_core_binary prec emax (Zpos m1) e1 (Zpos m2) e2)))%Z.
Proof.
  unfold SFdiv_core_binary.
  match goal with
  | |- context [Z.div_eucl ?a ?b] =>
      assert (Ha : (0 <= a)%Z);
      [|pose proof (Z_div_mod a b eq_refl) as Hdiv;
        destruct (Z.div_eucl a b) as [q r]; cbn [fst]; nia]
  end.
  match goal with
  | |- context [match ?s with Z0 => _ | Zpos _ => _ | Zneg _ => _ end] => destruct s
  end; try lia.
  apply Z.shiftl_nonneg. lia.
Qed.

Lemma float_of_decimal_sign (m : N) (k : nat) : non_negative (float_of_decimal m k) = true.
Proof.
  destruct m as [|p]; [reflexivity|].
  unfold float_of_decimal, fdiv, SFdiv; cbn [xorb].
  pose proof (SFdiv_core_binary_sign p (Z.to_pos (10 ^ Z.of_nat k)) 0 0) as Hq.
  destruct (SFdiv_core_binary prec emax _ 0 _ 0) as [[mz ez] lz]; cbn [fst] in Hq.
  apply binary_round_aux_sign, Hq.
Qed.

(** The extractor never returns a NaN or a negative number (nor a negative
    zero): the value of a literal is zero, a positive float or, for a literal
    too large for a float, infinity.  So a cell of the Amount column is
    missing exactly where the extractor returned None. *)
Theorem extract_amount_non_negative (text : string) (amount : float) :
  extract_amount text = Ok (Some amount) -> non_negative amount = true.
Proof.
  unfold extract_amount. destruct (search amount_pattern text) as [m|]; [|discriminate].
  unfold py_float. destruct (split_dot _) as [whole rest].
  match goal with |- context [if ?b then _ else _] => destruct b end; [|discriminate].
  cbn [bind]. intros [= <-]. apply float_of_decimal_sign.
Qed.

(** ** The theorems at concrete uploads *)

(** C2, at an upload whose only column is SMS: the page shows the four
    columns SMS, Amount, Type, Predicted_Category, and the export is written
    from the whole frame, with the header SMS, Amount, Predicted_Category,
    Type; at the upload with a Date column the export has that column too. *)
Theorem export_writes_the_frame :
  (exists widgets table records,
     dashboard lunch_upload ["Debit"] ["Food"] = Ok widgets /\
     In (Dataframe table) widgets /\
     columns table = ["SMS"; "Amount"; "Type"; "Predicted_Category"] /\
     In (DownloadButton "categorized_transactions.csv" records) widgets /\
     csv_line (hd [] records) = "SMS,Amount,Predicted_Category,Type" /\
     length records = 2) /\
  (exists widgets records,
     dashboard demo_upload ["Debit"; "Credit"] ["Food"; "Bills"] = Ok widgets /\
     In (DownloadButton "categorized_transactions.csv" records) widgets /\
     csv_line (hd [] records) = "Date,SMS,Amount,Predicted_Category,Type").
Proof.
  split.
  - eexists _, _, _. split; [vm_compute; reflexivity|].
    split; [do 4 right; left; reflexivity|].
    split; [reflexivity|].
    split; [do 5 right; left; reflexivity|].
    split; reflexivity.
  - eexists _, _. split; [vm_compute; reflexivity|].
    split; [do 8 right; left; reflexivity|].
    reflexivity.
Qed.

(** C1, at an upload the claim covers: [bad_row_upload] has the SMS column
    and a row with an extractable amount (500), so the claim promises a table
    of the rows with an amount.  The extractor raises on the second row,
    line 158 passes the exception on, and the pipeline returns no table. *)
Theorem pipeline_aborts_on_a_bad_row :
  well_formed bad_row_upload = true /\
  get_col "SMS" bad_row_upload
    = Ok (str_column ["Paid INR 500 for lunch"; "Paid in INR, thanks"]) /\
  extract_amount (normalize "Paid INR 500 for lunch") = Ok (Some (float_of_decimal 500 0)) /\
  extract_amount (normalize "Paid in INR, thanks") = Raise ValueError /\
  pipeline bad_row_upload = Raise ValueError /\
  (forall df, pipeline bad_row_upload <> Ok df).
Proof.
  assert (Hrun : pipeline bad_row_upload = Raise ValueError) by (vm_compute; reflexivity).
  split; [reflexivity|]. split; [reflexivity|].
  split; [vm_compute; reflexivity|]. split; [vm_compute; reflexivity|].
  split; [exact Hrun|].
  intros df. rewrite Hrun. discriminate.
Qed.

(** [pipeline_row_count] at [demo_upload]: four rows uploaded, two with an
    amount, two rows in the table. *)
Lemma pipeline_row_count_witness :
  well_formed demo_upload = true /\
  traverse extract_amount (map normalize (astype_str demo_sms)) = Ok demo_amounts /\
  exists df, pipeline demo_upload = Ok df /\ nrows demo_upload = 4 /\ nrows df = 2.
Proof.
  assert (Hwf : well_formed demo_upload = true) by reflexivity.
  assert (Hsms : get_col "SMS" demo_upload = Ok demo_sms) by reflexivity.
  assert (Hamounts : traverse extract_amount (map normalize (astype_str demo_sms))
                     = Ok demo_amounts) by (vm_compute; reflexivity).
  destruct (pipeline_row_count demo_upload Hwf Hsms Hamounts) as (df & Hrun & _ & Hsome & _).
  split; [exact Hwf|]. split; [exact Hamounts|].
  exists df. split; [exact Hrun|]. split; [reflexivity|].
  destruct Hsome as (Hrows & _); [discriminate|]. exact Hrows.
Defined.

(** [aggregate_empty_selection] at [demo_upload] with no type selected. *)
Lemma aggregate_empty_selection_witness :
  pipeline demo_upload = Ok demo_table /\
  exists filtered_df,
    apply_filter [] ["Food"; "Bills"] demo_table = Ok filtered_df /\
    empty filtered_df = true /\
    aggregate filtered_df =
      Ok {| total_spent := Flt fzero; total_credited := Flt fzero; top_cat := "N/A" |}.
Proof.
  assert (Hwf : well_formed demo_upload = true) by reflexivity.
  assert (Hrun : pipeline demo_upload = Ok demo_table) by (vm_compute; reflexivity).
  destruct (aggregate_empty_selection demo_upload [] ["Food"; "Bills"] Hwf Hrun)
    as (filtered_df & Hfilter & Hempty).
  split; [exact Hrun|].
  exists filtered_df. split; [exact Hfilter|].
  injection Hfilter as <-.
  split; [reflexivity|]. vm_compute; reflexivity.
Defined.


(** [degraded_data_no_ratio] at [quiet_upload]. *)
Lemma degraded_data_no_ratio_witness :
  well_formed quiet_upload = true /\
  exists widgets,
    dashboard quiet_upload ["Debit"; "Unknown"] ["Food"; "Bills"] = Ok widgets /\
    Forall (fun w => is_ratio_widget w = false) widgets.
Proof.
  assert (Hwf : well_formed quiet_upload = true) by reflexivity.
  assert (Hsms : get_col "SMS" quiet_upload
                 = Ok (ObjCol [Some "Hello there"; Some "Your OTP is 1234, spent nothing"]))
    by reflexivity.
  assert (Hnone : Forall (fun raw => extract_amount (normalize raw) = Ok None)
                         (astype_str (ObjCol [Some "Hello there";
                                              Some "Your OTP is 1234, spent nothing"])))
    by (repeat constructor).
  destruct (degraded_data_no_ratio quiet_upload ["Debit"; "Unknown"] ["Food"; "Bills"]
              Hwf Hsms Hnone)
    as (df & filtered_df & widgets & _ & _ & _ & _ & _ & _ & _ & _ & Hpass & Hnoratio).
  split; [exact Hwf|]. exists widgets. split; assumption.
Defined.

(** [extract_amount_first_literal] at the example of the specification. *)
Lemma extract_amount_first_literal_witness :
  plain "paid inr 1,234.50 today" = true /\
  first_match "paid inr 1,234.50 today"
    = Some {| whole_part := "1,234"; has_dot := true; decimals := "50" |} /\
  extract_amount "paid inr 1,234.50 today" = Ok (Some (float_of_decimal 123450 2)) /\
  float_of_decimal 123450 2 = S754_finite false 5429388417957888 (-42).
Proof.
  assert (Hl : first_match "paid inr 1,234.50 today"
               = Some {| whole_part := "1,234"; has_dot := true; decimals := "50" |})
    by (vm_compute; reflexivity).
  split; [reflexivity|]. split; [exact Hl|]. split; [|vm_compute; reflexivity].
  apply (@extract_amount_first_literal "paid inr 1,234.50 today" _ eq_refl Hl). discriminate.
Defined.

(** [extract_amount_no_marker] at a text with digits and no marker. *)
Lemma extract_amount_no_marker_witness :
  plain "Your OTP is 1234. Do not share it." = true /\
  extract_amount "Your OTP is 1234. Do not share it." = Ok None.
Proof.
  split; [reflexivity|].
  apply extract_amount_no_marker; [reflexivity|].
  intros m Hm Hsub. apply contains_spec in Hsub.
  destruct Hm as [<-|[<-|[<-|[]]]]; vm_compute in Hsub; discriminate Hsub.
Defined.

(** [export_header] at [demo_upload]: the Date column is exported too. *)
Lemma export_header_witness :
  pipeline demo_upload = Ok demo_table /\
  hd [] (to_csv (select_rows [true; false] demo_table))
    = ["Date"; "SMS"; "Amount"; "Predicted_Category"; "Type"].
Proof.
  assert (Hrun : pipeline demo_upload = Ok demo_table) by (vm_compute; reflexivity).
  assert (Hfilter : apply_filter ["Debit"] ["Food"; "Bills"] demo_table
                    = Ok (select_rows [true; false] demo_table)) by reflexivity.
  split; [exact Hrun|].
  rewrite (export_header demo_upload ["Debit"] ["Food"; "Bills"] Hrun Hfilter).
  reflexivity.
Defined.

(** The two passes of the boundary example, from the upload to the page:
    800 spent against 1000 credited shows the 60-80% message, 801 against
    1000 the warning. *)
Example advisory_band_on_the_page :
  (exists widgets,
     dashboard [("SMS", ObjCol [Some "Paid INR 800 at store"; Some "Salary credited INR 1,000"])]
               ["Debit"; "Credit"] ["Food"; "Bills"] = Ok widgets /\
     In (Info msg_60_80) widgets /\ ~ In (Warning msg_above_80) widgets) /\
  (exists widgets,
     dashboard [("SMS", ObjCol [Some "Paid INR 801 at store"; Some "Salary credited INR 1,000"])]
               ["Debit"; "Credit"] ["Food"; "Bills"] = Ok widgets /\
     In (Warning msg_above_80) widgets /\ ~ In (Info msg_60_80) widgets).
Proof.
  split; eexists; (split; [vm_compute; reflexivity|]);
    (split; [simpl; tauto|]); simpl; intros Hin;
    repeat (destruct Hin as [Hin|Hin]; [discriminate Hin|]); exact Hin.
Qed.


(** [default_selection_keeps_every_row] at [demo_upload]: both types and
    both categories are offered and selected, and both rows stay. *)
Lemma default_selection_keeps_every_row_witness :
  pipeline demo_upload = Ok demo_table /\
  default_selection demo_table = Ok (["Debit"; "Credit"], ["Bills"; "Food"]) /\
  apply_filter ["Debit"; "Credit"] ["Bills"; "Food"] demo_table = Ok demo_table.
Proof.
  assert (Hwf : well_formed demo_upload = true) by reflexivity.
  assert (Hrun : pipeline demo_upload = Ok demo_table) by (vm_compute; reflexivity).
  assert (Hdefault : default_selection demo_table = Ok (["Debit"; "Credit"], ["Bills"; "Food"]))
    by reflexivity.
  destruct (default_selection_keeps_every_row demo_upload Hwf Hrun)
    as (cats & types & _ & _ & Hdef & _ & _ & _ & _ & Hfilter).
  rewrite Hdefault in Hdef. injection Hdef as Ht Hc.
  rewrite <- Ht, <- Hc in Hfilter.
  split; [exact Hrun|]. split; [exact Hdefault | exact Hfilter].
Defined.

(** [analysis_raises_only_on_a_bad_amount] at [bad_row_upload]: the second
    row stops the run. *)
Lemma analysis_raises_only_on_a_bad_amount_witness :
  well_formed bad_row_upload = true /\
  forallb plain ["Paid INR 500 for lunch"; "Paid in INR, thanks"] = true /\
  analysis bad_row_upload None = Raise ValueError.
Proof.
  assert (Hwf : well_formed bad_row_upload = true) by reflexivity.
  assert (Hsms : get_col "SMS" bad_row_upload
                 = Ok (str_column ["Paid INR 500 for lunch"; "Paid in INR, thanks"]))
    by reflexivity.
  assert (Hplain : forallb plain ["Paid INR 500 for lunch"; "Paid in INR, thanks"] = true)
    by reflexivity.
  split; [exact Hwf|]. split; [exact Hplain|].
  apply (proj1 (proj2 (analysis_raises_only_on_a_bad_amount bad_row_upload None Hwf Hsms Hplain))).
  exists "Paid in INR, thanks". split; [simpl; auto | vm_compute; reflexivity].
Defined.

(** [pipeline_table_invariants] at [demo_upload]. *)
Lemma pipeline_table_invariants_witness :
  pipeline demo_upload = Ok demo_table /\
  exists texts amount,
    nrows demo_table = length texts /\
    get_col "SMS" demo_table = Ok (str_column texts) /\
    get_col "Amount" demo_table = Ok amount /\
    existsb (fun missing => missing) (isna amount) = false /\
    get_col "Type" demo_table = Ok (str_column (map detect_type texts)).
Proof.
  assert (Hwf : well_formed demo_upload = true) by reflexivity.
  assert (Hrun : pipeline demo_upload = Ok demo_table) by (vm_compute; reflexivity).
  destruct (pipeline_table_invariants demo_upload Hwf Hrun)
    as (texts & amount & _ & Hrows & Hsms & Hamt & _ & Hna & _ & Hty & _).
  split; [exact Hrun|]. exists texts, amount. auto.
Defined.

(** [pipeline_keeps_other_columns] at [demo_upload] and its Date column. *)
Lemma pipeline_keeps_other_columns_witness :
  pipeline demo_upload = Ok demo_table /\
  exists amounts,
    traverse extract_amount (map normalize (astype_str demo_sms)) = Ok amounts /\
    get_col "Date" demo_table =
      (c <- get_col "Date" demo_upload ;; Ok (col_select (pipeline_mask amounts) c)).
Proof.
  assert (Hwf : well_formed demo_upload = true) by reflexivity.
  assert (Hrun : pipeline demo_upload = Ok demo_table) by (vm_compute; reflexivity).
  destruct (@pipeline_keeps_other_columns _ demo_upload demo_table "Date" Hwf Hrun)
    as (sms & amounts & Hsms & Hamounts & Hdate); try discriminate.
  change (get_col "SMS" demo_upload) with (Ok demo_sms) in Hsms. injection Hsms as <-.
  split; [exact Hrun|]. exists amounts. split; assumption.
Defined.

(** [filter_keeps_the_selected] at [demo_upload] with the debits selected:
    one row passes, and passes again. *)
Lemma filter_keeps_the_selected_witness :
  pipeline demo_upload = Ok demo_table /\
  apply_filter ["Debit"] ["Food"; "Bills"] demo_table = Ok (select_rows [true; false] demo_table) /\
  nrows (select_rows [true; false] demo_table) = 1 /\
  apply_filter ["Debit"] ["Food"; "Bills"] (select_rows [true; false] demo_table)
    = Ok (select_rows [true; false] demo_table).
Proof.
  assert (Hwf : well_formed demo_upload = true) by reflexivity.
  assert (Hrun : pipeline demo_upload = Ok demo_table) by (vm_compute; reflexivity).
  assert (Hfilter : apply_filter ["Debit"] ["Food"; "Bills"] demo_table
                    = Ok (select_rows [true; false] demo_table)) by reflexivity.
  destruct (filter_keeps_the_selected demo_upload ["Debit"] ["Food"; "Bills"] Hwf Hrun Hfilter)
    as (cats & types & _ & _ & _ & Hkept).
  cbv zeta in Hkept. destruct Hkept as (_ & _ & _ & Hagain).
  split; [exact Hrun|]. split; [exact Hfilter|]. split; [reflexivity | exact Hagain].
Defined.

(** [top_category_is_a_category] at [demo_upload] with the debits selected. *)
Lemma top_category_is_a_category_witness :
  pipeline demo_upload = Ok demo_table /\
  apply_filter ["Debit"] ["Food"; "Bills"] demo_table = Ok (select_rows [true; false] demo_table) /\
  exists cats top,
    get_col "Predicted_Category" (select_rows [true; false] demo_table) = Ok (str_column cats) /\
    top_category (select_rows [true; false] demo_table) = Ok top /\
    (cats <> [] -> In top cats).
Proof.
  assert (Hwf : well_formed demo_upload = true) by reflexivity.
  assert (Hrun : pipeline demo_upload = Ok demo_table) by (vm_compute; reflexivity).
  assert (Hfilter : apply_filter ["Debit"] ["Food"; "Bills"] demo_table
                    = Ok (select_rows [true; false] demo_table)) by reflexivity.
  destruct (top_category_is_a_category demo_upload ["Debit"] ["Food"; "Bills"] Hwf Hrun Hfilter)
    as (cats & top & Hcat & _ & Htop & _ & Hin).
  split; [exact Hrun|]. split; [exact Hfilter|]. exists cats, top. auto.
Defined.

(** [extract_amount_non_negative] at the example of the specification. *)
Lemma extract_amount_non_negative_witness :
  extract_amount "paid inr 1,234.50 today" = Ok (Some (float_of_decimal 123450 2)) /\
  non_negative (float_of_decimal 123450 2) = true.
Proof.
  assert (E : extract_amount "paid inr 1,234.50 today" = Ok (Some (float_of_decimal 123450 2)))
    by (vm_compute; reflexivity).
  split; [exact E | exact (extract_amount_non_negative _ E)].
Defined.

(** [no_amounts_warning] at [quiet_upload]. *)
Lemma no_amounts_warning_witness :
  exists items,
    script (Table quiet_upload) None = Ok items /\
    In (Show (Warning msg_no_amounts)) items.
Proof.
  assert (Hwf : well_formed quiet_upload = true) by reflexivity.
  assert (Hrun : exists items, script (Table quiet_upload) None = Ok items)
    by (eexists; vm_compute; reflexivity).
  destruct Hrun as [items Hrun].
  exists items. split; [exact Hrun|].
  apply (proj2 (no_amounts_warning quiet_upload None Hwf Hrun)).
  eexists. split; [reflexivity|]. repeat constructor.
Defined.

(** [footer_only_without_analysis] with no file uploaded. *)
Lemma footer_only_without_analysis_witness :
  exists items,
    script NoFile None = Ok items /\
    In (Markdown footer) items /\
    ~ In (Show (Success msg_analyzed)) items.
Proof.
  assert (Hfile : forall upload, NoFile = Table upload -> well_formed upload = true)
    by (intros upload [=]).
  assert (Hrun : exists items, script NoFile None = Ok items /\ In (Markdown footer) items)
    by (eexists; split; [reflexivity | simpl; auto]).
  destruct Hrun as (items & Hrun & Hfooter).
  exists items. split; [exact Hrun|]. split; [exact Hfooter|].
  apply (proj2 (footer_only_without_analysis None Hfile Hrun)). exact Hfooter.
Defined.


(** [export_of_the_filtered_rows] at [demo_upload] with the debits
    selected. *)
Lemma export_of_the_filtered_rows_witness :
  pipeline demo_upload = Ok demo_table /\
  exists cats types,
    get_col "Predicted_Category" demo_table = Ok (str_column cats) /\
    get_col "Type" demo_table = Ok (str_column types) /\
    to_csv (select_rows [true; false] demo_table) =
      hd [] (to_csv demo_table) ::
      select (filter_mask ["Debit"] ["Food"; "Bills"] cats types) (tl (to_csv demo_table)).
Proof.
  assert (Hwf : well_formed demo_upload = true) by reflexivity.
  assert (Hrun : pipeline demo_upload = Ok demo_table) by (vm_compute; reflexivity).
  assert (Hfilter : apply_filter ["Debit"] ["Food"; "Bills"] demo_table
                    = Ok (select_rows [true; false] demo_table)) by reflexivity.
  destruct (export_of_the_filtered_rows demo_upload ["Debit"] ["Food"; "Bills"] Hwf Hrun Hfilter)
    as (cats & types & Hcat & Hty & _ & Hcsv).
  split; [exact Hrun|]. exists cats, types. auto.
Defined.

(** [degraded_top_category] at [quiet_upload]. *)
Lemma degraded_top_category_witness :
  well_formed quiet_upload = true /\
  exists df filtered_df cats top,
    pipeline quiet_upload = Ok df /\
    apply_filter ["Debit"; "Unknown"] ["Food"; "Bills"] df = Ok filtered_df /\
    get_col "Predicted_Category" filtered_df = Ok (str_column cats) /\
    top_category filtered_df = Ok top /\
    (cats <> [] -> In top cats).
Proof.
  assert (Hwf : well_formed quiet_upload = true) by reflexivity.
  assert (Hsms : get_col "SMS" quiet_upload
                 = Ok (ObjCol [Some "Hello there"; Some "Your OTP is 1234, spent nothing"]))
    by reflexivity.
  assert (Hnone : Forall (fun raw => extract_amount (normalize raw) = Ok None)
                         (astype_str (ObjCol [Some "Hello there";
                                              Some "Your OTP is 1234, spent nothing"])))
    by (repeat constructor).
  destruct (degraded_top_category quiet_upload ["Debit"; "Unknown"] ["Food"; "Bills"]
              Hwf Hsms Hnone)
    as (df & filtered_df & cats & top & Hrun & Hfilter & Hcat & Htop & _ & Hfirst).
  split; [exact Hwf|]. exists df, filtered_df, cats, top.
  repeat (split; [assumption|]). intros Hne. apply (Hfirst Hne).
Defined.

(** [detect_type_embedded] at a forwarded message. *)
Lemma detect_type_embedded_witness :
  detect_type "Paid INR 5" = "Debit" /\
  detect_type ("Fwd: " ++ "Paid INR 5" ++ " thanks") = "Debit".
Proof.
  split; [reflexivity|].
  apply (proj1 (detect_type_embedded "Fwd: " "Paid INR 5" " thanks")). reflexivity.
Defined.

(** [no_credit_no_ratio] at [demo_upload] with the debits selected: 800
    spent, nothing credited, no ratio on the page. *)
Lemma no_credit_no_ratio_witness :
  pipeline demo_upload = Ok demo_table /\
  apply_filter ["Debit"] ["Food"; "Bills"] demo_table = Ok (select_rows [true; false] demo_table) /\
  exists zero widgets,
    total_of "Credit" (select_rows [true; false] demo_table) = Ok zero /\
    render (select_rows [true; false] demo_table) = Ok widgets /\
    Forall (fun w => is_ratio_widget w = false) widgets.
Proof.
  assert (Hwf : well_formed demo_upload = true) by reflexivity.
  assert (Hrun : pipeline demo_upload = Ok demo_table) by (vm_compute; reflexivity).
  assert (Hfilter : apply_filter ["Debit"] ["Food"; "Bills"] demo_table
                    = Ok (select_rows [true; false] demo_table)) by reflexivity.
  assert (Htypes : get_col "Type" (select_rows [true; false] demo_table)
                   = Ok (str_column ["Debit"])) by reflexivity.
  assert (Hnone : ~ In "Credit" ["Debit"]) by (intros [F|[]]; discriminate F).
  destruct (no_credit_no_ratio demo_upload ["Debit"] ["Food"; "Bills"]
              Hwf Hrun Hfilter Htypes Hnone)
    as (zero & widgets & _ & Hcredit & Hrender & Hnoratio).
  split; [exact Hrun|]. split; [exact Hfilter|]. exists zero, widgets. auto.
Defined.

(** [detect_type_priority] at three texts: capitals are lower-cased, a debit
    keyword wins over a credit keyword, and a text with neither is Unknown. *)
Lemma detect_type_priority_witness :
  detect_type "Salary CREDITED, then SPENT on groceries" = "Debit" /\
  detect_type "Your SALARY was Credited" = "Credit" /\
  detect_type "Your OTP is 1234" = "Unknown".
Proof.
  split; [|split].
  - apply (proj1 (detect_type_priority _)).
    exists "spent". split; [simpl; auto|].
    exists "salary credited, then ", " on groceries". reflexivity.
  - apply (proj1 (proj2 (detect_type_priority _))).
    + intros Hk. destruct Hk as (k & Hk & Hsub). apply contains_spec in Hsub.
      destruct Hk as [<-|[<-|[<-|[<-|[<-|[]]]]]]; vm_compute in Hsub; discriminate Hsub.
    + exists "salary". split; [do 4 right; left; reflexivity|].
      exists "your ", " was credited". reflexivity.
  - apply (proj2 (proj2 (detect_type_priority _))).
    + intros Hk. destruct Hk as (k & Hk & Hsub). apply contains_spec in Hsub.
      destruct Hk as [<-|[<-|[<-|[<-|[<-|[]]]]]]; vm_compute in Hsub; discriminate Hsub.
    + intros Hk. destruct Hk as (k & Hk & Hsub). apply contains_spec in Hsub.
      destruct Hk as [<-|[<-|[<-|[<-|[<-|[]]]]]]; vm_compute in Hsub; discriminate Hsub.
Defined.

(** [extract_amount_raises_iff] at a marker followed by a lone comma. *)
Lemma extract_amount_raises_iff_witness :
  plain "Fee ₹, waived" = true /\
  first_match "Fee ₹, waived"
    = Some {| whole_part := ","; has_dot := false; decimals := "" |} /\
  extract_amount "Fee ₹, waived" = Raise ValueError.
Proof.
  assert (Hl : first_match "Fee ₹, waived"
               = Some {| whole_part := ","; has_dot := false; decimals := "" |})
    by (vm_compute; reflexivity).
  split; [reflexivity|]. split; [exact Hl|].
  apply (proj2 (@extract_amount_raises_iff "Fee ₹, waived" ValueError eq_refl)).
  split; [reflexivity|]. eexists. split; [exact Hl | reflexivity].
Defined.

(** [extract_amount_normalize] at a message with capitals and blanks at
    both ends. *)
Lemma extract_amount_normalize_witness :
  plain "  Paid INR 800 at store " = true /\
  normalize "  Paid INR 800 at store " = "paid inr 800 at store" /\
  extract_amount "paid inr 800 at store" = extract_amount "  Paid INR 800 at store ".
Proof.
  split; [reflexivity|]. split; [reflexivity|].
  exact (@extract_amount_normalize "  Paid INR 800 at store " eq_refl).
Defined.
